(** * foxysafe: a shallow embedding of the backup core and its properties

    The development follows the layout of the Python package:

    - [Py]          the fragment of Python the sources rely on: exception
                    classes, results of fallible calls, insertion-ordered
                    dictionaries, [str] methods;
    - [Objects]     the attributes of the forge objects in use;
    - [Clone]       [foxysafe/git/clone.py];
    - [Api]         [foxysafe/gitlab/api.py];
    - [Download]    [foxysafe/gitlab/download.py];
    - [Backups]     [foxysafe/gitlab/backups.py], the routine itself;
    - [BackupItems] [foxysafe/gitlab/backups.py], the backup of one item;
    - [Entrypoints] [foxysafe/entrypoints.py].

    External collaborators (the forge's REST API, the git executable, the
    file system) are records of responses: a call that can fail answers with
    a value of [Py.res]. *)

From Stdlib Require Import ZArith String Ascii List Bool Lia.
From stdpp Require Import base list option strings pretty.

Open Scope string_scope.
Open Scope list_scope.
Open Scope Z_scope.

Set Warnings "-register-all".
#[local] Set Default Proof Using "Type".

(* ================================================================== *)
(** * The Python fragment                                              *)
(* ================================================================== *)

Module Py.

(** Exception classes that the sources raise, catch or let through.
    [Exception_] stands for any other subclass of [Exception]
    ([git.GitCommandError], [OSError], ...). [KeyboardInterrupt] and
    [SystemExit] derive from [BaseException] only, so a handler
    [except Exception] lets them pass. *)
Inductive exn : Type :=
  | Exception_
  | GitlabGetError
  | GitlabListError
  | GitlabAuthenticationError
  | UnboundLocalError
  | AttributeError
  | KeyError
  | ValueError
  | TypeError
  | RecursionError
  | BeartypeCallHintParamViolation
  | KeyboardInterrupt
  | SystemExit (code : Z).

#[global] Instance exn_eq_dec : EqDecision exn.
Proof. solve_decision. Defined.

(** [isinstance(e, Exception)] *)
Definition is_Exception (e : exn) : bool :=
  match e with
  | KeyboardInterrupt | SystemExit _ => false
  | _ => true
  end.

(** The outcome of a call: a value, or a raised exception. *)
Inductive res (A : Type) : Type :=
  | Ok (a : A)
  | Raise (e : exn).
Arguments Ok {A} a.
Arguments Raise {A} e.

Definition bind {A B : Type} (r : res A) (k : A -> res B) : res B :=
  match r with
  | Ok a => k a
  | Raise e => Raise e
  end.

Definition is_Ok {A : Type} (r : res A) : bool :=
  match r with Ok _ => true | Raise _ => false end.

(** [for x in xs: acc = body(acc, x)], leaving the loop at the first
    exception. *)
Fixpoint for_each {A S : Type} (body : S -> A -> res S) (xs : list A) (s : S)
  : res S :=
  match xs with
  | [] => Ok s
  | x :: xs' => bind (body s x) (for_each body xs')
  end.

(** ** Dictionaries

    A Python [dict] keeps its keys in insertion order and assigning to a
    key that is present replaces the value in place. Both matter here: the
    orchestrators enumerate [d.values()], and discovery merges several
    sources into one dictionary. *)
Section Dict.
Context {K V : Type} `{EqDecision K}.

(** [d.get(k)] *)
Fixpoint dict_get (k : K) (d : list (K * V)) : option V :=
  match d with
  | [] => None
  | (k', v) :: d' => if decide (k = k') then Some v else dict_get k d'
  end.

(** [d[k] = v], also [d.update({k: v})] *)
Fixpoint dict_set (k : K) (v : V) (d : list (K * V)) : list (K * V) :=
  match d with
  | [] => [(k, v)]
  | (k', v') :: d' =>
      if decide (k = k') then (k, v) :: d' else (k', v') :: dict_set k v d'
  end.

(** [list(d.keys())] and [list(d.values())] *)
Definition dict_keys (d : list (K * V)) : list K := map fst d.
Definition dict_values (d : list (K * V)) : list V := map snd d.

(** [d.update({k1: v1, ..., kn: vn})] *)
Definition dict_update (kvs : list (K * V)) (d : list (K * V)) : list (K * V) :=
  fold_left (fun acc kv => dict_set (fst kv) (snd kv) acc) kvs d.

(** the number of entries stored under key [k] *)
Definition dict_count (k : K) (d : list (K * V)) : nat :=
  length (filter (fun kv => fst kv = k) d).
End Dict.

(** the type of a dictionary, as a notation so that list lemmas apply *)
Abbreviation dict K V := (list (K * V)) (only parsing).

(** ** Strings *)

(** [old in s] *)
Fixpoint contains (old s : string) : bool :=
  if String.prefix old s then true
  else match s with
       | EmptyString => false
       | String _ s' => contains old s'
       end.

(** the first [n] characters dropped *)
Fixpoint string_drop (n : nat) (s : string) : string :=
  match n, s with
  | O, _ => s
  | S n', String _ s' => string_drop n' s'
  | S _, EmptyString => EmptyString
  end.

(** [s.replace(old, new)] for a non-empty [old]: occurrences are replaced
    from the left, without overlap. [skip] counts the characters of an
    occurrence that are still to be jumped over. *)
Fixpoint replace_from (old new : string) (skip : nat) (s : string) : string :=
  match s with
  | EmptyString => EmptyString
  | String c s' =>
      match skip with
      | S k => replace_from old new k s'
      | O =>
          if String.prefix old s
          then new +:+ replace_from old new (String.length old - 1) s'
          else String c (replace_from old new 0 s')
      end
  end.

(** [s.replace("", new)] puts [new] before every character and at the end *)
Fixpoint intersperse_string (new s : string) : string :=
  match s with
  | EmptyString => new
  | String c s' => new +:+ String c (intersperse_string new s')
  end.

Definition replace (old new s : string) : string :=
  match old with
  | EmptyString => intersperse_string new s
  | String _ _ => replace_from old new 0 s
  end.

(** [s.split(sep)] for a non-empty [sep]; [cur] is the piece being read,
    reversed. The result always has at least one piece. *)
Fixpoint split_from (sep : string) (skip : nat) (cur : list ascii) (s : string)
  : list string :=
  match s with
  | EmptyString => [string_of_list_ascii (rev cur)]
  | String c s' =>
      match skip with
      | S k => split_from sep k cur s'
      | O =>
          if String.prefix sep s
          then string_of_list_ascii (rev cur)
               :: split_from sep (String.length sep - 1) [] s'
          else split_from sep 0 (c :: cur) s'
      end
  end.

Definition split (sep s : string) : list string := split_from sep 0 [] s.

(** [c.isspace()] on ASCII *)
Definition isspace (c : ascii) : bool :=
  let n := nat_of_ascii c in
  ((9 <=? n)%nat && (n <=? 13)%nat) || ((28 <=? n)%nat && (n <=? 32)%nat).

Fixpoint lstrip (s : string) : string :=
  match s with
  | EmptyString => EmptyString
  | String c s' => if isspace c then lstrip s' else s
  end.

Definition string_rev (s : string) : string :=
  string_of_list_ascii (rev (list_ascii_of_string s)).

(** [s.strip()] *)
Definition strip (s : string) : string :=
  string_rev (lstrip (string_rev (lstrip s))).

(** [str(n)] and the [{n}] of an f-string *)
Definition str_of_int (n : Z) : string := pretty n.

End Py.

(* ================================================================== *)
(** * Forge objects (the attributes of [gitlab.v4.objects] in use)      *)
(* ================================================================== *)

Module Objects.
Import Py.

(** [obj.wikis]: [list(all=True)] answers with the page slugs, [get(slug)]
    with the page, of which only [content] is read. *)
Record WikiManager : Type := {
  wikis_list : res (list string);
  wikis_get : string -> res string
}.

Record Issue : Type := {
  issue_iid : Z;
  issue_title : string;
  issue_project_id : Z;
  issue_web_url : string
}.

Record Project : Type := {
  project_id : Z;
  project_name : string;
  project_web_url : string;
  project_path_with_namespace : string;
  (** [None] when the object has no attribute [wikis] *)
  project_wikis : option WikiManager;
  (** [project.issues.list(all=True)] *)
  project_issues_list : res (list Issue)
}.

Record Group : Type := {
  group_id : Z;
  group_name : string;
  group_web_url : string;
  group_path_with_namespace : string;
  (** [group.subgroups.list(all=True)], of which only the ids are read *)
  group_subgroups_list : res (list Z);
  (** [group.projects.list(all=True)] *)
  group_projects_list : res (list Project);
  group_wikis : option WikiManager
}.

Record Snippet : Type := {
  snippet_id : Z;
  snippet_title : string;
  snippet_web_url : string
}.

(** [Group | Project], the owner of a wiki *)
Inductive WikiOwner : Type :=
  | OfGroup (g : Group)
  | OfProject (p : Project).

Definition owner_id (o : WikiOwner) : Z :=
  match o with OfGroup g => group_id g | OfProject p => project_id p end.
Definition owner_name (o : WikiOwner) : string :=
  match o with OfGroup g => group_name g | OfProject p => project_name p end.
Definition owner_web_url (o : WikiOwner) : string :=
  match o with OfGroup g => group_web_url g | OfProject p => project_web_url p end.
Definition owner_path_with_namespace (o : WikiOwner) : string :=
  match o with
  | OfGroup g => group_path_with_namespace g
  | OfProject p => project_path_with_namespace p
  end.
Definition owner_wikis (o : WikiOwner) : option WikiManager :=
  match o with OfGroup g => group_wikis g | OfProject p => project_wikis p end.

End Objects.

(* ================================================================== *)
(** * [foxysafe/git/clone.py]                                          *)
(* ================================================================== *)

Module Clone.
Import Py Objects.

(** The values stored in a result record. *)
Inductive pyval : Type :=
  | VBool (b : bool)
  | VInt (n : Z)
  | VStr (s : string)
  | VList (l : list string).

(** [bool(v)] *)
Definition truthy (v : pyval) : bool :=
  match v with
  | VBool b => b
  | VInt n => negb (n =? 0)
  | VStr s => negb (String.eqb s "")
  | VList l => match l with [] => false | _ => true end
  end.

(** [bool(x) is v]: the two operands are the same one of [True], [False] *)
Definition bool_is (b : bool) (v : pyval) : bool :=
  match v with
  | VBool b' => Bool.eqb b b'
  | _ => false
  end.

(** A result record is the [dict] the worker builds: [CloneResult]. *)
Abbreviation result := (list (string * pyval)) (only parsing).

(** What [git] answers for one cloned repository. *)
Record Repo : Type := {
  (** the urls of [repository.submodules] *)
  submodules : list string;
  (** [repository.submodule_update(recursive=True, init=True)] *)
  submodule_update : res unit;
  (** [repository.git.branch("--all")] *)
  git_branch_all : res string;
  (** [repository.git.branch("--track", local, remote)] *)
  git_branch_track : string -> string -> res unit;
  (** [repository.git.fetch("--all")], [repository.git.pull("--all")] *)
  git_fetch_all : res unit;
  git_pull_all : res unit
}.

(** The machine a run executes on. *)
Record Env : Type := {
  (** [os.cpu_count()] *)
  cpu_count : option Z;
  (** [git.Repo.clone_from(url, to_path)] *)
  clone_from : string -> string -> res Repo;
  (** [open(path, "w")] followed by [json.dump] *)
  dump_json : string -> res unit;
  (** [path.mkdir(parents=True, exist_ok=True)] *)
  mkdir : string -> res unit
}.

(** ** Workers

    A worker mutates its [result] while it runs, and the record keeps what
    was stored before an exception: a computation takes the record and
    answers with an outcome and the record. *)
Definition W (A : Type) : Type := list (string * pyval) -> res A * list (string * pyval).

Definition ret {A : Type} (a : A) : W A := fun r => (Ok a, r).

Definition bindW {A B : Type} (m : W A) (k : A -> W B) : W B :=
  fun r => match m r with
           | (Ok a, r') => k a r'
           | (Raise e, r') => (Raise e, r')
           end.

Notation "x <- m ;; k" := (bindW m (fun x => k))
  (at level 100, m at next level, right associativity).
Notation "m ;;; k" := (bindW m (fun _ => k))
  (at level 100, right associativity).

(** an external call *)
Definition call {A : Type} (c : res A) : W A := fun r => (c, r).

(** [result[key] = v] *)
Definition setitem (key : string) (v : pyval) : W unit :=
  fun r => (Ok tt, dict_set key v r).

(** [result[key]] *)
Definition getitem (key : string) : W pyval :=
  fun r => match dict_get key r with
           | Some v => (Ok v, r)
           | None => (Raise KeyError, r)
           end.

(** [try: body  except Exception: handler] *)
Definition try_except_Exception {A : Type} (body handler : W A) : W A :=
  fun r => match body r with
           | (Raise e, r') => if is_Exception e then handler r' else (Raise e, r')
           | ok => ok
           end.

(** [for x in xs: body(x)] *)
Fixpoint for_in {A : Type} (xs : list A) (body : A -> W unit) : W unit :=
  match xs with
  | [] => ret tt
  | x :: xs' => body x ;;; for_in xs' body
  end.

(** [a and b], evaluating [b] only when [a] is truthy; only the truth value
    of the chain is used. *)
Definition and_then (a : bool) (b : W bool) : W bool :=
  if a then b else ret false.

(** [Path(a / b).resolve().as_posix()] for an absolute, normalised [a] *)
Definition path_join (a b : string) : string := a +:+ "/" +:+ b.

(** Lines 57-92 of [clone_project], repeated as lines 157-192 of
    [clone_wiki]: submodules, then branches. *)
Definition remote_branches_of (out : string) : list string :=
  map strip (drop 2 (split (String "010"%char "") (replace "remotes/" "" out))).

Definition update_submodules (repository : Repo) : W unit :=
  match submodules repository with
  | [] => ret tt
  | _ :: _ =>
      try_except_Exception
        (setitem "submodules" (VList (submodules repository)) ;;;
         call (submodule_update repository) ;;;
         setitem "is_submodules_cloned" (VBool true))
        (ret tt)
  end.

(** the body of the loop over [remote_branches] *)
Definition track_branch (repository : Repo) (remote_branch : string) : W unit :=
  try_except_Exception
    (let local_branch := strip (replace "origin/" "" remote_branch) in
     let remote_branch := strip remote_branch in
     call (git_branch_track repository local_branch remote_branch))
    (ret tt).

Definition update_branches (repository : Repo) : W unit :=
  out <- call (git_branch_all repository) ;;
  let remote_branches := remote_branches_of out in
  setitem "branches" (VList remote_branches) ;;;
  if (1 <? length remote_branches)%nat then
    for_in remote_branches (track_branch repository) ;;;
    try_except_Exception
      (call (git_fetch_all repository) ;;;
       call (git_pull_all repository) ;;;
       setitem "is_branches_updated" (VBool true))
      (ret tt)
  else
    setitem "is_branches_updated" (VBool true).

(** Lines 97-103 and 194-200. *)
Definition set_success : W unit :=
  is_cloned <- getitem "is_cloned" ;;
  ok <- and_then (truthy is_cloned)
          (subs <- getitem "submodules" ;;
           upd <- getitem "is_submodules_updated" ;;
           and_then (bool_is (truthy subs) upd)
             (br <- getitem "is_branches_updated" ;; ret (truthy br))) ;;
  setitem "success" (VBool ok).

(** The three handlers that close every worker:
    [except KeyboardInterrupt], [except Exception], [finally: return result]. *)
Definition worker_handlers (run : res unit * list (string * pyval))
  : list (string * pyval) :=
  match run with
  | (Ok _, r) => r
  | (Raise KeyboardInterrupt, r) => dict_set "success" (VBool false) r
  | (Raise e, r) =>
      if is_Exception e then dict_set "success" (VBool false) r else r
  end.

(** *** [clone_project] *)
Definition project_result_init : list (string * pyval) :=
  [ ("project_name", VStr ""); ("project_url", VStr "");
    ("project_id", VInt 0); ("project_path", VStr "");
    ("is_cloned", VBool false); ("submodules", VList []);
    ("is_submodules_updated", VBool false); ("branches", VList []);
    ("is_branches_updated", VBool false); ("success", VBool false) ].

Definition clone_project_try (env : Env) (args : Project * string) : W unit :=
  let '(project, target_path) := args in
  setitem "project_name" (VStr (project_name project)) ;;;
  setitem "project_url" (VStr (project_web_url project)) ;;;
  setitem "project_id" (VInt (project_id project)) ;;;
  setitem "project_path" (VStr target_path) ;;;
  repository <-
    try_except_Exception
      (repo <- call (clone_from env (project_web_url project) target_path) ;;
       setitem "is_cloned" (VBool true) ;;;
       ret (Some repo))
      (ret None) ;;
  match repository with
  | Some repository =>
      update_submodules repository ;;;
      update_branches repository ;;;
      call (dump_json env
              (target_path +:+ "/../project_"
               +:+ str_of_int (project_id project) +:+ ".json")) ;;;
      set_success
  | None => ret tt
  end.

Definition clone_project (env : Env) (args : Project * string)
  : list (string * pyval) :=
  worker_handlers (clone_project_try env args project_result_init).

(** *** [clone_wiki] *)
Definition wiki_result_init : list (string * pyval) :=
  [ ("wiki_name", VStr ""); ("wiki_url", VStr "");
    ("wiki_id", VInt 0); ("wiki_path", VStr "");
    ("is_cloned", VBool false); ("submodules", VList []);
    ("is_submodules_updated", VBool false); ("branches", VList []);
    ("is_branches_updated", VBool false); ("success", VBool false) ].

Definition clone_wiki_try (env : Env) (args : WikiOwner * string) : W unit :=
  let '(obj, target_path) := args in
  let wiki_url := owner_web_url obj +:+ ".wiki.git" in
  setitem "wiki_name" (VStr (owner_name obj +:+ " Wiki")) ;;;
  setitem "wiki_url" (VStr wiki_url) ;;;
  setitem "wiki_id" (VInt (owner_id obj)) ;;;
  setitem "wiki_path" (VStr target_path) ;;;
  repository <-
    try_except_Exception
      (repo <- call (clone_from env wiki_url target_path) ;;
       setitem "is_cloned" (VBool true) ;;;
       ret (Some repo))
      (ret None) ;;
  match repository with
  | Some repository =>
      update_submodules repository ;;;
      update_branches repository ;;;
      set_success
  | None => ret tt
  end.

Definition clone_wiki (env : Env) (args : WikiOwner * string)
  : list (string * pyval) :=
  worker_handlers (clone_wiki_try env args wiki_result_init).

(** *** [clone_snippet] *)
Definition snippet_result_init : list (string * pyval) :=
  [ ("snippet_title", VStr ""); ("snippet_url", VStr "");
    ("snippet_id", VInt 0); ("snippet_path", VStr "");
    ("is_cloned", VBool false); ("success", VBool false) ].

Definition clone_snippet_try (env : Env) (args : Snippet * string) : W unit :=
  let '(snippet, target_path) := args in
  setitem "snippet_title" (VStr (snippet_title snippet)) ;;;
  setitem "snippet_url" (VStr (snippet_web_url snippet)) ;;;
  setitem "snippet_id" (VInt (snippet_id snippet)) ;;;
  setitem "snippet_path" (VStr target_path) ;;;
  repository <-
    try_except_Exception
      (repo <- call (clone_from env
                       (replace "/-/" "/" (snippet_web_url snippet))
                       target_path) ;;
       setitem "is_cloned" (VBool true) ;;;
       ret (Some repo))
      (ret None) ;;
  match repository with
  | Some repository =>
      call (dump_json env
              (target_path +:+ "/../snippet_"
               +:+ str_of_int (snippet_id snippet) +:+ ".json")) ;;;
      is_cloned <- getitem "is_cloned" ;;
      setitem "success" (VBool (truthy is_cloned))
  | None => ret tt
  end.

Definition clone_snippet (env : Env) (args : Snippet * string)
  : list (string * pyval) :=
  worker_handlers (clone_snippet_try env args snippet_result_init).

(** ** Orchestrators *)

(** [min(1, os.cpu_count() - 2)]; [None - 2] is a [TypeError]. *)
Definition pool_processes (env : Env) : res Z :=
  match cpu_count env with
  | Some n => Ok (Z.min 1 (n - 2))
  | None => Raise TypeError
  end.

(** [with Pool(processes=n) as pool: pool.map(f, xs)]. [Pool] refuses
    [n < 1] with a [ValueError]; [map] answers in the order of [xs],
    whatever the order in which the workers finish. *)
Definition Pool_map {A B : Type} (processes : Z) (f : A -> B) (xs : list A)
  : res (list B) :=
  if processes <? 1 then Raise ValueError else Ok (map f xs).

(** Each orchestrator answers with the list it hands to [json.dump] for
    [results.json]; the summary it logs before is not part of the model. *)
Definition clone_projects {K : Type} (env : Env)
    (projects : list (K * Project)) (backup_dir : string)
  : res (list (list (string * pyval))) :=
  let mapped_args :=
    map (fun project =>
           (project, path_join backup_dir (project_path_with_namespace project)))
        (dict_values projects) in
  bind (pool_processes env) (fun processes =>
  bind (Pool_map processes (clone_project env) mapped_args) (fun results =>
  bind (dump_json env (path_join backup_dir "results.json")) (fun _ =>
  Ok results))).

Definition clone_wikis {K : Type} (env : Env)
    (obj : list (K * WikiOwner)) (backup_dir : string)
  : res (list (list (string * pyval))) :=
  let mapped_args :=
    map (fun obj =>
           (obj, path_join backup_dir
                   (owner_path_with_namespace obj +:+ ".wiki")))
        (dict_values obj) in
  bind (pool_processes env) (fun processes =>
  bind (Pool_map processes (clone_wiki env) mapped_args) (fun results =>
  bind (dump_json env (path_join backup_dir "results.json")) (fun _ =>
  Ok results))).

Definition clone_snippets {K : Type} (env : Env)
    (snippets : list (K * Snippet)) (backup_dir : string)
  : res (list (list (string * pyval))) :=
  let backup_dir := path_join backup_dir "snippets" in
  bind (mkdir env backup_dir) (fun _ =>
  let mapped_args :=
    map (fun snippet =>
           (snippet, path_join backup_dir (str_of_int (snippet_id snippet))))
        (dict_values snippets) in
  bind (pool_processes env) (fun processes =>
  bind (Pool_map processes (clone_snippet env) mapped_args) (fun results =>
  bind (dump_json env (path_join backup_dir "results.json")) (fun _ =>
  Ok results)))).

(** Reading a flag of a result record. *)
Definition flag (key : string) (r : list (string * pyval)) : bool :=
  match dict_get key r with
  | Some v => truthy v
  | None => false
  end.

End Clone.

(* ================================================================== *)
(** * [foxysafe/gitlab/api.py]                                         *)
(* ================================================================== *)

Module Api.
Import Py Objects.

(** The authenticated session: what the forge answers. *)
Record Gitlab : Type := {
  (** [api.groups.get(gid)] *)
  groups_get : Z -> res Group;
  (** [api.projects.get(pid)] *)
  projects_get : Z -> res Project;
  (** [api.users.get(api.user.id).projects.list(all=True)] *)
  user_projects_list : res (list Project);
  (** [api.snippets.list(all=True)] *)
  snippets_list : res (list Snippet)
}.

(** [projects.update({project.id: project})] for each listed project *)
Definition add_projects (group_projects : list Project)
    (projects : list (Z * Project)) : list (Z * Project) :=
  fold_left (fun projects project => dict_set (project_id project) project projects)
            group_projects projects.

(** [_recurse_group]. The function calls itself once per subgroup and has
    no other stop than a group without subgroups. [limit] is the number of
    nested calls the interpreter still allows: when none is left the call
    raises [RecursionError]. The progress bar is not part of the model. *)
Fixpoint _recurse_group (limit : nat) (api : Gitlab) (group : Group)
    (groups : list (Z * Group)) (projects : list (Z * Project))
  : res (list (Z * Group) * list (Z * Project)) :=
  match limit with
  | O => Raise RecursionError
  | S limit' =>
      let groups := dict_set (group_id group) group groups in
      bind (group_subgroups_list group) (fun subgroups =>
      bind (for_each
              (fun (acc : list (Z * Group) * list (Z * Project)) subgroup =>
                 bind (groups_get api subgroup) (fun subgroup =>
                 _recurse_group limit' api subgroup (fst acc) (snd acc)))
              subgroups (groups, projects)) (fun acc =>
      bind (group_projects_list group) (fun group_projects =>
      Ok (fst acc, add_projects group_projects (snd acc)))))
  end.

(** One turn of the loop over [gitlab_project_ids]. The local name
    [project] is bound by a successful [get] only: after a
    [GitlabGetError] it keeps the value of the turn before, and it is
    unbound when there was none. *)
Definition explicit_project_step (api : Gitlab)
    (st : option Project * list (Z * Project)) (pid : Z)
  : res (option Project * list (Z * Project)) :=
  let '(project, gitlab_projects) := st in
  bind (match projects_get api pid with
        | Ok p => Ok (Some p)
        | Raise GitlabGetError => Ok project
        | Raise e => Raise e
        end) (fun project =>
  match project with
  | Some p =>
      (* [gitlab_projects[project.id] = project], then
         [gitlab_projects.update({project.id: project})] *)
      Ok (project,
          dict_set (project_id p) p (dict_set (project_id p) p gitlab_projects))
  | None => Raise UnboundLocalError
  end).

(** One turn of a wiki loop: [hasattr(obj, "wikis")], then the listing;
    only [GitlabListError] is handled. *)
Definition wiki_probe_step (tag : string)
    (gitlab_wikis : list (string * WikiOwner)) (obj : WikiOwner)
  : res (list (string * WikiOwner)) :=
  match owner_wikis obj with
  | None => Ok gitlab_wikis
  | Some wikis =>
      match wikis_list wikis with
      | Ok [] => Ok gitlab_wikis
      | Ok (_ :: _) =>
          Ok (dict_set (tag +:+ str_of_int (owner_id obj)) obj gitlab_wikis)
      | Raise GitlabListError => Ok gitlab_wikis
      | Raise e => Raise e
      end
  end.

(** One turn of the loop over [gitlab_projects.keys()] for issues; nothing
    is handled here. *)
Definition issues_step (api : Gitlab)
    (gitlab_issues : list (string * Issue)) (pid : Z)
  : res (list (string * Issue)) :=
  bind (projects_get api pid) (fun project =>
  bind (project_issues_list project) (fun issues =>
  Ok (fold_left
        (fun gitlab_issues issue =>
           dict_set (str_of_int pid +:+ "/" +:+ str_of_int (issue_iid issue))
                    issue gitlab_issues)
        issues gitlab_issues))).

Record Items : Type := {
  gitlab_groups : list (Z * Group);
  gitlab_projects : list (Z * Project);
  gitlab_wikis : list (string * WikiOwner);
  gitlab_issues : list (string * Issue);
  gitlab_snippets : list (Z * Snippet)
}.

(** [get_gitlab_items] *)
Definition get_gitlab_items (limit : nat) (api : Gitlab)
    (gitlab_group_ids gitlab_project_ids : option (list Z))
    (include_personal_projects include_wikis include_issues
       include_snippets : bool)
  : res Items :=
  bind (match gitlab_group_ids with
        | Some gids =>
            for_each
              (fun (acc : list (Z * Group) * list (Z * Project)) gid =>
                 bind (groups_get api gid) (fun group =>
                 _recurse_group limit api group (fst acc) (snd acc)))
              gids ([], [])
        | None => Ok ([], [])
        end) (fun acc =>
  let groups := fst acc in
  bind (match gitlab_project_ids with
        | Some pids =>
            bind (for_each (explicit_project_step api) pids (None, snd acc))
                 (fun st => Ok (snd st))
        | None => Ok (snd acc)
        end) (fun projects =>
  bind (if include_personal_projects
        then bind (user_projects_list api) (fun personal_projects =>
             Ok (add_projects personal_projects projects))
        else Ok projects) (fun projects =>
  bind (if include_wikis
        then bind (for_each (wiki_probe_step "G") (map OfGroup (dict_values groups)) [])
               (fun wikis =>
             for_each (wiki_probe_step "P") (map OfProject (dict_values projects)) wikis)
        else Ok []) (fun wikis =>
  bind (if include_issues
        then for_each (issues_step api) (dict_keys projects) []
        else Ok []) (fun issues =>
  bind (if include_snippets
        then bind (snippets_list api) (fun snippets =>
             Ok (fold_left (fun acc snippet => dict_set (snippet_id snippet) snippet acc)
                           snippets []))
        else Ok []) (fun snippets =>
  Ok {| gitlab_groups := groups; gitlab_projects := projects;
        gitlab_wikis := wikis; gitlab_issues := issues;
        gitlab_snippets := snippets |})))))).

End Api.

(* ================================================================== *)
(** * [foxysafe/gitlab/download.py]                                    *)
(* ================================================================== *)

Module Download.
Import Py Objects.

(** JSON-like values. *)
Inductive pyobj : Type :=
  | PNone
  | PBool (b : bool)
  | PInt (n : Z)
  | PStr (s : string)
  | PList (l : list pyobj)
  | PDict (d : list (string * pyobj)).

(** A pattern is taken with its matcher: [re.findall(pattern, s)]. *)
Definition Pattern : Type := string -> list string.

(** [FILE_UPLOAD_PATTERN = r"uploads\/[a-zA-Z0-9\/_.-]+"]: the literal
    [uploads/], then the longest non-empty run of the class. *)
Definition upload_char (c : ascii) : bool :=
  let n := nat_of_ascii c in
  ((97 <=? n)%nat && (n <=? 122)%nat)
  || ((65 <=? n)%nat && (n <=? 90)%nat)
  || ((48 <=? n)%nat && (n <=? 57)%nat)
  || (n =? 47)%nat || (n =? 95)%nat || (n =? 46)%nat || (n =? 45)%nat.

Fixpoint take_while (p : ascii -> bool) (s : string) : string :=
  match s with
  | EmptyString => EmptyString
  | String c s' => if p c then String c (take_while p s') else EmptyString
  end.

(** the match that starts at the head of [s], if there is one *)
Definition match_upload (s : string) : option string :=
  if String.prefix "uploads/" s then
    match take_while upload_char (string_drop 8 s) with
    | EmptyString => None
    | run => Some ("uploads/" +:+ run)
    end
  else None.

(** the scan of [re.findall]: leftmost matches, without overlap *)
Fixpoint findall_upload (skip : nat) (s : string) : list string :=
  match s with
  | EmptyString => []
  | String _ s' =>
      match skip with
      | S k => findall_upload k s'
      | O =>
          match match_upload s with
          | Some m => m :: findall_upload (String.length m - 1) s'
          | None => findall_upload 0 s'
          end
      end
  end.

Definition FILE_UPLOAD_PATTERN : Pattern := findall_upload 0.

(** The hint of the parameter [obj], [None | str | list | dict[str, Any]],
    which the [@beartype] wrapper tests at every call of [find_matches],
    the calls the function makes to itself included. *)
Definition obj_hint (obj : pyobj) : bool :=
  match obj with
  | PNone | PStr _ | PList _ | PDict _ => true
  | PBool _ | PInt _ => false
  end.

(** [find_matches]. The list [found] is one object, extended in place by
    [+=] and shared by all the calls: each call answers with the list as it
    is then. *)
Fixpoint find_matches (obj : pyobj) (pattern : Pattern)
    (found : option (list string)) {struct obj} : res (list string) :=
  if obj_hint obj then
    let found := match found with Some l => l | None => [] end in
    match obj with
    | PDict d =>
        (fix values (d : list (string * pyobj)) (found : list string)
           : res (list string) :=
           match d with
           | [] => Ok found
           | (_, value) :: d' =>
               bind (find_matches value pattern (Some found)) (values d')
           end) d found
    | PList l =>
        (fix items (l : list pyobj) (found : list string)
           : res (list string) :=
           match l with
           | [] => Ok found
           | item :: l' =>
               bind (find_matches item pattern (Some found)) (items l')
           end) l found
    | PStr s => Ok (found ++ pattern s)
    | _ => Ok found
    end
  else Raise BeartypeCallHintParamViolation.

(** The body of [find_matches] without the wrapper (what the undecorated
    function computes), for comparison. *)
Fixpoint find_matches_unchecked (obj : pyobj) (pattern : Pattern)
    (found : list string) {struct obj} : list string :=
  match obj with
  | PDict d =>
      (fix values (d : list (string * pyobj)) (found : list string)
         : list string :=
         match d with
         | [] => found
         | (_, value) :: d' =>
             values d' (find_matches_unchecked value pattern found)
         end) d found
  | PList l =>
      (fix items (l : list pyobj) (found : list string) : list string :=
         match l with
         | [] => found
         | item :: l' => items l' (find_matches_unchecked item pattern found)
         end) l found
  | PStr s => found ++ pattern s
  | _ => found
  end.

(** The body of the second loop of [get_wiki_attachment_urls]. *)
Definition wiki_attachment_url (url attachment_uri : string) : string :=
  let attachment_uri :=
    if contains "uploads/-" attachment_uri
    then replace "uploads/-/" "-/wikis/uploads/" attachment_uri
    else attachment_uri in
  url +:+ "/-/wikis/" +:+ attachment_uri.

(** [get_wiki_attachment_urls] *)
Definition get_wiki_attachment_urls (obj : WikiOwner) (pattern : Pattern)
  : res (list string) :=
  match owner_wikis obj with
  | None => Raise AttributeError
  | Some wikis =>
      bind (wikis_list wikis) (fun pages =>
      bind (for_each
              (fun matches slug =>
                 bind (wikis_get wikis slug) (fun content =>
                 bind (find_matches (PStr content) pattern None) (fun found =>
                 Ok (matches ++ found))))
              pages []) (fun matches =>
      Ok (map (wiki_attachment_url (owner_web_url obj))
              (filter (fun attachment_uri => attachment_uri <> "") matches))))
  end.


(** What [get_issue_attachment_urls] reads of an issue or of a note: the
    [description] of the one, the [body] of the other, either of which can
    be [None], and [web_url]. *)
Record Described : Type := {
  described_description : option string;
  described_body : option string;
  described_web_url : string
}.

Definition text_obj (text : option string) : pyobj :=
  match text with
  | Some s => PStr s
  | None => PNone
  end.

(** [pieces[0]]; [split] never answers with an empty list *)
Definition first_piece (pieces : list string) : string :=
  match pieces with
  | piece :: _ => piece
  | [] => ""
  end.

(** The body of the loop of [get_issue_attachment_urls]. *)
Definition issue_attachment_url (url attachment_uri : string) : string :=
  let attachment_uri :=
    if contains "uploads/-" attachment_uri
    then replace "uploads/-/" "uploads/" attachment_uri
    else attachment_uri in
  url +:+ "/" +:+ attachment_uri.

(** [get_issue_attachment_urls] *)
Definition get_issue_attachment_urls (obj : Described) (pattern : Pattern)
    (is_note : bool) (web_url : string) : res (list string) :=
  bind (if is_note
        then find_matches (text_obj (described_body obj)) pattern None
        else find_matches (text_obj (described_description obj)) pattern None)
       (fun matches =>
  let url :=
    if negb is_note
    then first_piece (split "/-/issues/" (described_web_url obj))
    else first_piece (split "/-/issues/" web_url) in
  Ok (map (issue_attachment_url url) matches)).

(** ** The name of a downloaded file

    [download_file_from_url], lines 73-77: the name is the last piece of
    the URL, and while the directory has an entry of that name, a counter
    is appended to the stem of the name tried last. *)

(** [name.rfind(c)] *)
Fixpoint rfind (c : ascii) (name : string) : option nat :=
  match name with
  | EmptyString => None
  | String a name' =>
      match rfind c name' with
      | Some i => Some (S i)
      | None => if Ascii.eqb a c then Some O else None
      end
  end.

(** the first [n] characters *)
Fixpoint string_take (n : nat) (s : string) : string :=
  match n, s with
  | S n', String c s' => String c (string_take n' s')
  | _, _ => EmptyString
  end.

(** Where [Path(name)] splits a plain file name into [stem] and [suffix]:
    at the last dot, unless it is the first or the last character. *)
Definition suffix_index (name : string) : option nat :=
  match rfind "."%char name with
  | Some i =>
      if (0 <? i)%nat && (i <? String.length name - 1)%nat then Some i else None
  | None => None
  end.

(** [Path(name).stem] and [Path(name).suffix] *)
Definition stem (name : string) : string :=
  match suffix_index name with
  | Some i => string_take i name
  | None => name
  end.

Definition suffix (name : string) : string :=
  match suffix_index name with
  | Some i => string_drop i name
  | None => EmptyString
  end.

(** [pieces[-1]] *)
Definition last_piece (pieces : list string) : string :=
  List.last pieces "".

(** The [while] loop: [entries] are the names in the download directory,
    [fuel] bounds the number of turns; [None] when it is used up. *)
Fixpoint free_local_filename (fuel : nat) (entries : list string) (i : Z)
    (local_filename : string) : option string :=
  if bool_decide (local_filename ∈ entries) then
    match fuel with
    | O => None
    | S fuel' =>
        let i := i + 1 in
        free_local_filename fuel' entries i
          (stem local_filename +:+ "_" +:+ str_of_int i
           +:+ suffix local_filename)
    end
  else Some local_filename.

(** [s.endswith(ending)] *)
Definition endswith (s ending : string) : bool :=
  (String.length ending <=? String.length s)%nat
  && String.eqb (string_drop (String.length s - String.length ending) s) ending.

(** Line 69: the URLs whose file the code fetches and writes itself; the
    others are left to the browser. *)
Definition written_by_the_code (file_url : string) : bool :=
  existsb (endswith file_url) [".png"; ".jpg"; ".jpeg"; ".gif"; ".html"].

(** the name under which the file of [file_url] is written *)
Definition local_filename_for (fuel : nat) (entries : list string)
    (file_url : string) : option string :=
  free_local_filename fuel entries 0 (last_piece (split "/" file_url)).

End Download.

(* ================================================================== *)
(** * [foxysafe/gitlab/backups.py]                                     *)
(* ================================================================== *)

Module Backups.
Import Py Objects.

(** The fields of the configuration that the routine reads. *)
Record Config : Type := {
  gitlab_group_ids : option (list Z);
  gitlab_project_ids : option (list Z);
  include_personal_projects : bool;
  include_wikis : bool;
  include_issues : bool;
  include_snippets : bool
}.

(** [list(ids) if ids else None] *)
Definition ids_or_None (ids : option (list Z)) : option (list Z) :=
  match ids with
  | Some ((_ :: _) as l) => Some l
  | _ => None
  end.

Record Note : Type := { note_id : Z }.

(** The outcomes of what the routine calls besides discovery and cloning:
    the login, and the backup of one object with its attachments, which
    writes files and drives the downloader. The routine also reads
    [snippet.path_with_namespace], an attribute that the other modules do
    not read of a snippet: the read raises [AttributeError] for an object
    that does not carry it. *)
Record Calls : Type := {
  gitlab_login : res Api.Gitlab;
  backup_wiki_attachements : WikiOwner -> res unit;
  backup_issue : Issue -> res unit;
  (** [issue.notes.list(all=True)] *)
  issue_notes_list : Issue -> res (list Note);
  (** [backup_issue] for a note of the issue *)
  backup_issue_note : Issue -> Note -> res unit;
  (** [snippet.path_with_namespace] *)
  snippet_path_with_namespace : Snippet -> res string;
  backup_snippet_attachements : Snippet -> res unit
}.

(** [try: body  except Exception as e: log.error(...)] *)
Definition logged (body : res unit) : res unit :=
  match body with
  | Ok _ => Ok tt
  | Raise e => if is_Exception e then Ok tt else Raise e
  end.

(** [for x in xs: body(x)] *)
Definition for_all {A : Type} (xs : list A) (body : A -> res unit) : res unit :=
  for_each (fun _ x => body x) xs tt.

(** [gitlab_backup_routine]. The lines it logs are left out, except for
    what they read outside of a [try] and can fail: the lookup
    [projects[issue.project_id]] of the line before each issue, and the
    attribute [snippet.path_with_namespace] of the line before each
    snippet. *)
Definition gitlab_backup_routine (limit : nat) (config : Config)
    (env : Clone.Env) (calls : Calls) (backup_dir : string) : res unit :=
  bind (gitlab_login calls) (fun api =>
  bind (Api.get_gitlab_items limit api
          (ids_or_None (gitlab_group_ids config))
          (ids_or_None (gitlab_project_ids config))
          (include_personal_projects config) (include_wikis config)
          (include_issues config) (include_snippets config)) (fun items =>
  let projects := Api.gitlab_projects items in
  let wikis := Api.gitlab_wikis items in
  let issues := Api.gitlab_issues items in
  let snippets := Api.gitlab_snippets items in
  bind (match projects with
        | [] => Ok tt
        | _ :: _ =>
            bind (Clone.clone_projects env projects backup_dir) (fun _ => Ok tt)
        end) (fun _ =>
  bind (match wikis with
        | [] => Ok tt
        | _ :: _ =>
            bind (Clone.clone_wikis env wikis backup_dir) (fun _ =>
            for_all (dict_values wikis) (fun obj =>
              logged (backup_wiki_attachements calls obj)))
        end) (fun _ =>
  bind (for_all (dict_values issues) (fun issue =>
          match dict_get (issue_project_id issue) projects with
          | None => Raise KeyError
          | Some _ =>
              logged
                (bind (backup_issue calls issue) (fun _ =>
                 bind (issue_notes_list calls issue) (fun notes =>
                 for_all notes (fun note =>
                   logged (backup_issue_note calls issue note)))))
          end)) (fun _ =>
  match snippets with
  | [] => Ok tt
  | _ :: _ =>
      bind (Clone.clone_snippets env snippets backup_dir) (fun _ =>
      for_all (dict_values snippets) (fun snippet =>
        bind (snippet_path_with_namespace calls snippet) (fun _ =>
        logged (backup_snippet_attachements calls snippet))))
  end))))).

End Backups.

(* ================================================================== *)
(** * [foxysafe/entrypoints.py]                                        *)
(* ================================================================== *)

Module Entrypoints.
Import Py.

(** [main], given the outcome of [backup_routine_entrypoint()]. [exit(n)]
    raises [SystemExit(n)]. *)
Definition main (backup_routine_entrypoint : res unit) : res unit :=
  match backup_routine_entrypoint with
  | Ok _ => Ok tt
  | Raise KeyboardInterrupt => Raise (SystemExit 0)
  | Raise e => if is_Exception e then Raise (SystemExit 1) else Raise e
  end.

(** The exit code of the interpreter: 0 when the program returns, the code
    of a [SystemExit], 1 after a traceback. An interrupt that nothing
    catches ends the process as the signal does (130 for a shell). *)
Definition exit_code (run : res unit) : Z :=
  match run with
  | Ok _ => 0
  | Raise (SystemExit code) => code
  | Raise KeyboardInterrupt => 130
  | Raise _ => 1
  end.

End Entrypoints.

(* ================================================================== *)
(** * [foxysafe/gitlab/backups.py]: the backup of one item             *)
(* ================================================================== *)

Module BackupItems.
Import Py Objects Download.

(** The fields of the configuration that go to the downloader. *)
Record Access : Type := {
  gitlab_server : string;
  gitlab_username : string;
  gitlab_password : string
}.

(** What the backup of an item asks of the outside, call by call. *)
Inductive event : Type :=
  (** [path.mkdir(parents=True, exist_ok=True)] *)
  | Mkdir (path : string)
  (** [open(path, "w")]: the file is made, or emptied *)
  | Open (path : string)
  (** [f.write(content)], [json.dump(..., f)] *)
  | Write (path content : string)
  (** [download_file_from_url(server, username, password, file_urls,
      download_dir)] *)
  | Download (server username password : string) (file_urls : list string)
      (download_dir : string).

(** The outcomes of these calls. *)
Record World : Type := {
  mkdir : string -> res unit;
  open_w : string -> res unit;
  write : string -> string -> res unit;
  download_file_from_url :
    string -> string -> string -> list string -> string -> res unit
}.

(** A backup runs against the log of the calls made so far; the log keeps
    what was asked before an exception. *)
Definition M (A : Type) : Type := list event -> res A * list event.

Definition ret {A : Type} (a : A) : M A := fun log => (Ok a, log).

Definition bindM {A B : Type} (m : M A) (k : A -> M B) : M B :=
  fun log => match m log with
             | (Ok a, log') => k a log'
             | (Raise e, log') => (Raise e, log')
             end.

(** a call to the outside is logged, whatever its outcome *)
Definition perform (e : event) (outcome : res unit) : M unit :=
  fun log => (outcome, log ++ [e]).

(** a computation that asks nothing of the outside *)
Definition inside {A : Type} (c : res A) : M A := fun log => (c, log).

(** [text.replace(old, new)], where [text] can be [None] *)
Definition replace_in (old new : string) (text : option string) : res string :=
  match text with
  | Some s => Ok (replace old new s)
  | None => Raise AttributeError
  end.

(** the call of the downloader with the credentials of the configuration *)
Definition download (world : World) (config : Access)
    (file_urls : list string) (download_dir : string) : M unit :=
  perform
    (Download (gitlab_server config) (gitlab_username config)
       (gitlab_password config) file_urls download_dir)
    (download_file_from_url world (gitlab_server config)
       (gitlab_username config) (gitlab_password config) file_urls
       download_dir).

(** [backup_wiki_attachements] *)
Definition wiki_download_dir (path_with_namespace backup_dir : string)
  : string :=
  Clone.path_join (Clone.path_join backup_dir path_with_namespace)
    ".wiki/attachements".

Definition backup_wiki_attachements (world : World) (config : Access)
    (obj : WikiOwner) (path_with_namespace backup_dir : string) : M unit :=
  let download_dir := wiki_download_dir path_with_namespace backup_dir in
  bindM (perform (Mkdir download_dir) (mkdir world download_dir)) (fun _ =>
  bindM (inside (get_wiki_attachment_urls obj FILE_UPLOAD_PATTERN))
    (fun file_urls =>
  match file_urls with
  | [] => ret tt
  | _ :: _ => download world config file_urls download_dir
  end)).

(** What [backup_issue] reads of an issue or of a note: [iid] of the one,
    [issue_iid] and [id] of the other, the [attributes] as [json.dump]
    writes them, and the text and URL of [Described]. *)
Record Backed : Type := {
  backed_iid : Z;
  backed_issue_iid : Z;
  backed_id : Z;
  backed_attributes : string;
  backed_described : Described
}.

(** [download_dir], [json_path] and [md_path] of [backup_issue] *)
Definition issue_download_dir (obj : Backed)
    (path_with_namespace backup_dir : string) (is_note : bool) : string :=
  if is_note
  then Clone.path_join (Clone.path_join backup_dir path_with_namespace)
         ("issues/" +:+ str_of_int (backed_issue_iid obj) +:+ "/notes/"
          +:+ str_of_int (backed_id obj))
  else Clone.path_join (Clone.path_join backup_dir path_with_namespace)
         ("issues/" +:+ str_of_int (backed_iid obj)).

Definition issue_json_path (obj : Backed)
    (path_with_namespace backup_dir : string) (is_note : bool) : string :=
  Clone.path_join
    (issue_download_dir obj path_with_namespace backup_dir is_note)
    (str_of_int (if is_note then backed_id obj else backed_iid obj)
     +:+ ".json").

Definition issue_md_path (obj : Backed)
    (path_with_namespace backup_dir : string) (is_note : bool) : string :=
  Clone.path_join
    (issue_download_dir obj path_with_namespace backup_dir is_note)
    (str_of_int (if is_note then backed_id obj else backed_iid obj)
     +:+ ".md").

(** [backup_issue] *)
Definition backup_issue (world : World) (config : Access) (obj : Backed)
    (path_with_namespace backup_dir : string) (is_note : bool)
    (web_url : string) : M unit :=
  let download_dir :=
    issue_download_dir obj path_with_namespace backup_dir is_note in
  let json_path := issue_json_path obj path_with_namespace backup_dir is_note in
  let md_path := issue_md_path obj path_with_namespace backup_dir is_note in
  bindM (perform (Mkdir download_dir) (mkdir world download_dir)) (fun _ =>
  bindM (perform (Open json_path) (open_w world json_path)) (fun _ =>
  bindM (perform (Write json_path (backed_attributes obj))
           (write world json_path (backed_attributes obj))) (fun _ =>
  bindM (perform (Open md_path) (open_w world md_path)) (fun _ =>
  bindM (inside
           (if negb is_note
            then replace_in "/uploads/" "uploads/"
                   (described_description (backed_described obj))
            else replace_in "/uploads/" "uploads/"
                   (described_body (backed_described obj)))) (fun content =>
  bindM (perform (Write md_path content) (write world md_path content))
    (fun _ =>
  bindM (inside
           (get_issue_attachment_urls (backed_described obj)
              FILE_UPLOAD_PATTERN is_note web_url)) (fun file_urls =>
  match file_urls with
  | [] => ret tt
  | _ :: _ => download world config file_urls download_dir
  end))))))).

(** [download_dir] and [snippet_path] of [backup_snippet_attachements] *)
Definition snippet_download_dir (snippet : Snippet) (backup_dir : string)
  : string :=
  Clone.path_join backup_dir ("snippets/" +:+ str_of_int (snippet_id snippet)).

Definition snippet_path (snippet : Snippet) (backup_dir : string) : string :=
  Clone.path_join (snippet_download_dir snippet backup_dir)
    ("snippet_" +:+ str_of_int (snippet_id snippet) +:+ ".md").

(** [backup_snippet_attachements]; [description] is [snippet.description],
    a string or [None]. *)
Definition backup_snippet_attachements (world : World) (config : Access)
    (snippet : Snippet) (description : option string) (backup_dir : string)
  : M unit :=
  let download_dir := snippet_download_dir snippet backup_dir in
  let snippet_path := snippet_path snippet backup_dir in
  bindM (perform (Mkdir download_dir) (mkdir world download_dir)) (fun _ =>
  bindM (perform (Open snippet_path) (open_w world snippet_path)) (fun _ =>
  bindM (inside (replace_in "/uploads/" "uploads/" description))
    (fun content =>
  bindM (perform (Write snippet_path content)
           (write world snippet_path content)) (fun _ =>
  bindM (inside (find_matches (text_obj description) FILE_UPLOAD_PATTERN None))
    (fun file_urls =>
  match file_urls with
  | [] => ret tt
  | _ :: _ =>
      download world config
        (map (fun url => gitlab_server config +:+ "/" +:+ url) file_urls)
        download_dir
  end))))).

End BackupItems.

(* ================================================================== *)
(** * Vocabulary of the properties, and fixtures                       *)
(* ================================================================== *)

Module CloneSpec.
Import Py Objects Clone.

(** The [try] block of a worker ran to its end: no exception reached the
    handlers of the worker. *)
Definition project_attempt_completed (env : Env) (args : Project * string) : bool :=
  is_Ok (fst (clone_project_try env args project_result_init)).
Definition wiki_attempt_completed (env : Env) (args : WikiOwner * string) : bool :=
  is_Ok (fst (clone_wiki_try env args wiki_result_init)).
Definition snippet_attempt_completed (env : Env) (args : Snippet * string) : bool :=
  is_Ok (fst (clone_snippet_try env args snippet_result_init)).

(** The flags of a result record determine its [success]: it holds exactly
    when the item was cloned, the submodule list is empty or the
    submodules were updated, and the branches were updated. *)
Definition success_iff_flags (r : list (string * pyval)) : Prop :=
  flag "success" r = true <->
  flag "is_cloned" r = true
  /\ (flag "submodules" r = false \/ flag "is_submodules_updated" r = true)
  /\ flag "is_branches_updated" r = true.

(** The part of a project or wiki worker that follows a successful clone.
    [extra] is what stands between the branch step and the computation of
    [success]: the sidecar document of a project, nothing for a wiki. *)
Definition after_clone (extra : W unit) (repository : Repo) : W unit :=
  update_submodules repository ;;;
  update_branches repository ;;;
  extra ;;;
  set_success.

(** The pool size the design asks for. *)
Definition intended_pool_size (cpu : Z) : Z := Z.max 1 (cpu - 2).

(** *** Fixtures *)
Definition newline : string := String "010"%char "".

Definition sample_project : Project :=
  {| project_id := 5; project_name := "proj";
     project_web_url := "https://forge.example/org/proj";
     project_path_with_namespace := "org/proj";
     project_wikis := None; project_issues_list := Ok [] |}.

Definition sample_snippet : Snippet :=
  {| snippet_id := 9; snippet_title := "notes";
     snippet_web_url := "https://forge.example/-/snippets/9" |}.

(** a repository with the single branch [main] and no submodule *)
Definition plain_repo : Repo :=
  {| submodules := [];
     submodule_update := Ok tt;
     git_branch_all :=
       Ok ("* main" +:+ newline
           +:+ "  remotes/origin/HEAD -> origin/main" +:+ newline
           +:+ "  remotes/origin/main");
     git_branch_track := fun _ _ => Ok tt;
     git_fetch_all := Ok tt;
     git_pull_all := Ok tt |}.

(** a repository with two branches and one submodule; every git command
    succeeds *)
Definition repo_with_submodule : Repo :=
  {| submodules := ["https://forge.example/org/lib.git"];
     submodule_update := Ok tt;
     git_branch_all :=
       Ok ("* main" +:+ newline
           +:+ "  remotes/origin/HEAD -> origin/main" +:+ newline
           +:+ "  remotes/origin/dev" +:+ newline
           +:+ "  remotes/origin/main");
     git_branch_track := fun _ _ => Ok tt;
     git_fetch_all := Ok tt;
     git_pull_all := Ok tt |}.

(** an eight-core machine on which every command succeeds *)
Definition healthy_env (repo : Repo) : Env :=
  {| cpu_count := Some 8;
     clone_from := fun _ _ => Ok repo;
     dump_json := fun _ => Ok tt;
     mkdir := fun _ => Ok tt |}.

(** the same machine, except that the sidecar document of the sample
    project cannot be written *)
Definition sidecar_denied_env : Env :=
  {| cpu_count := Some 8;
     clone_from := fun _ _ => Ok plain_repo;
     dump_json := fun path =>
       if String.eqb path "/backup/org/proj/../project_5.json"
       then Raise Exception_ else Ok tt;
     mkdir := fun _ => Ok tt |}.

(** a two-core machine *)
Definition two_core_env : Env :=
  {| cpu_count := Some 2;
     clone_from := fun _ _ => Ok plain_repo;
     dump_json := fun _ => Ok tt;
     mkdir := fun _ => Ok tt |}.

(** five projects; the repository of the third cannot list its branches,
    the clone of the fourth is interrupted *)
Definition numbered_project (n : Z) : Project :=
  {| project_id := n; project_name := "p" +:+ str_of_int n;
     project_web_url := "https://forge.example/org/p" +:+ str_of_int n;
     project_path_with_namespace := "org/p" +:+ str_of_int n;
     project_wikis := None; project_issues_list := Ok [] |}.

Definition five_projects : list (Z * Project) :=
  map (fun n => (n, numbered_project n)) [1; 2; 3; 4; 5].

Definition broken_repo : Repo :=
  {| submodules := [];
     submodule_update := Ok tt;
     git_branch_all := Raise Exception_;
     git_branch_track := fun _ _ => Ok tt;
     git_fetch_all := Ok tt;
     git_pull_all := Ok tt |}.

Definition third_fails_env : Env :=
  {| cpu_count := Some 4;
     clone_from := fun url _ =>
       if String.eqb url "https://forge.example/org/p3" then Ok broken_repo
       else if String.eqb url "https://forge.example/org/p4"
            then Raise KeyboardInterrupt
            else Ok plain_repo;
     dump_json := fun _ => Ok tt;
     mkdir := fun _ => Ok tt |}.

(** The worker of each kind, applied to one item of the input mapping. *)
Definition project_worker (env : Env) (backup_dir : string) (project : Project)
  : list (string * pyval) :=
  clone_project env
    (project, path_join backup_dir (project_path_with_namespace project)).
Definition wiki_worker (env : Env) (backup_dir : string) (obj : WikiOwner)
  : list (string * pyval) :=
  clone_wiki env
    (obj, path_join backup_dir (owner_path_with_namespace obj +:+ ".wiki")).
Definition snippet_worker (env : Env) (backup_dir : string) (snippet : Snippet)
  : list (string * pyval) :=
  clone_snippet env
    (snippet, path_join (path_join backup_dir "snippets")
                (str_of_int (snippet_id snippet))).

End CloneSpec.

Module ApiSpec.
Import Py Objects Api.

(** The hierarchy below [group] is a tree of depth at most [n] every lookup
    of which succeeds: the listings of the group answer, each listed
    subgroup can be fetched, and the same holds one level down. *)
Fixpoint tree_below (api : Gitlab) (n : nat) (group : Group) : Prop :=
  match n with
  | O => False
  | S n' =>
      exists subgroups group_projects,
        group_subgroups_list group = Ok subgroups
        /\ group_projects_list group = Ok group_projects
        /\ Forall (fun sid => exists subgroup,
                     groups_get api sid = Ok subgroup
                     /\ tree_below api n' subgroup) subgroups
  end.

(** [reach api g g']: [g'] is [g] or one of its subgroups, at any depth. *)
Inductive reach (api : Gitlab) : Group -> Group -> Prop :=
  | reach_here (g : Group) : reach api g g
  | reach_below (g : Group) (subgroups : list Z) (sid : Z) (subgroup g' : Group) :
      group_subgroups_list g = Ok subgroups ->
      sid ∈ subgroups ->
      groups_get api sid = Ok subgroup ->
      reach api subgroup g' ->
      reach api g g'.

(** a project with identifier [pid] is listed by [group] itself *)
Definition listed_in (group : Group) (pid : Z) : Prop :=
  exists group_projects project,
    group_projects_list group = Ok group_projects
    /\ project ∈ group_projects /\ project_id project = pid.

(** ... or by a group at any depth below [root] *)
Definition found_below (api : Gitlab) (root : Group) (pid : Z) : Prop :=
  exists group, reach api root group /\ listed_in group pid.

(** every project is stored under its own identifier *)
Definition keyed_by_id (projects : list (Z * Project)) : Prop :=
  forall pid project, dict_get pid projects = Some project ->
    project_id project = pid.

(** The three properties of a project dictionary that every step of
    discovery keeps: no key twice, every project under its own identifier,
    and no key of [before] lost. *)
Definition grown_from (before after : list (Z * Project)) : Prop :=
  (NoDup (dict_keys before) -> NoDup (dict_keys after))
  /\ (keyed_by_id before -> keyed_by_id after)
  /\ (forall pid, pid ∈ dict_keys before -> pid ∈ dict_keys after).

(** [group] is below itself: one of the subgroups it lists is the group,
    or has the group below it. *)
Definition below_itself (api : Gitlab) (group : Group) : Prop :=
  exists subgroups sid subgroup,
    group_subgroups_list group = Ok subgroups /\ sid ∈ subgroups
    /\ groups_get api sid = Ok subgroup /\ reach api subgroup group.

(** The hierarchy below [root] has a cycle: [root] or a group below it is
    below itself. *)
Definition has_cycle (api : Gitlab) (root : Group) : Prop :=
  exists group, reach api root group /\ below_itself api group.

(** Every lookup that a walk from [root] can make answers: the two
    listings of each group at or below [root], and the fetch of each
    subgroup that is listed. *)
Definition lookups_answer (api : Gitlab) (root : Group) : Prop :=
  forall group, reach api root group ->
    exists subgroups group_projects,
      group_subgroups_list group = Ok subgroups
      /\ group_projects_list group = Ok group_projects
      /\ forall sid, sid ∈ subgroups -> is_Ok (groups_get api sid) = true.

(** The walk from [root] returns, for some depth of the call stack. *)
Definition walk_returns (api : Gitlab) (root : Group) : Prop :=
  exists limit result, _recurse_group limit api root [] [] = Ok result.

(** *** Fixtures *)
Definition plain_project (pid : Z) : Project :=
  {| project_id := pid; project_name := "p" +:+ str_of_int pid;
     project_web_url := "https://forge.example/org/p" +:+ str_of_int pid;
     project_path_with_namespace := "org/p" +:+ str_of_int pid;
     project_wikis := None; project_issues_list := Ok [] |}.

(** a project whose issues and wiki cannot be listed *)
Definition closed_project (pid : Z) : Project :=
  {| project_id := pid; project_name := "p" +:+ str_of_int pid;
     project_web_url := "https://forge.example/org/p" +:+ str_of_int pid;
     project_path_with_namespace := "org/p" +:+ str_of_int pid;
     project_wikis :=
       Some {| wikis_list := Raise GitlabListError;
               wikis_get := fun _ => Raise GitlabGetError |};
     project_issues_list := Raise GitlabListError |}.

Definition plain_group (gid : Z) (subgroups : list Z) (pids : list Z) : Group :=
  {| group_id := gid; group_name := "g" +:+ str_of_int gid;
     group_web_url := "https://forge.example/groups/g" +:+ str_of_int gid;
     group_path_with_namespace := "g" +:+ str_of_int gid;
     group_subgroups_list := Ok subgroups;
     group_projects_list := Ok (map plain_project pids);
     group_wikis := None |}.

(** A forge with three levels of groups, [1 > 2 > 4] and [1 > 3], and
    projects at each level; project 7 stands alone and is closed. *)
Definition tree_forge : Gitlab :=
  {| groups_get := fun gid =>
       if gid =? 1 then Ok (plain_group 1 [2; 3] [10])
       else if gid =? 2 then Ok (plain_group 2 [4] [20; 21])
       else if gid =? 3 then Ok (plain_group 3 [] [30])
       else if gid =? 4 then Ok (plain_group 4 [] [40])
       else Raise GitlabGetError;
     projects_get := fun pid =>
       if existsb (Z.eqb pid) [10; 20; 21; 30; 40] then Ok (plain_project pid)
       else if pid =? 7 then Ok (closed_project 7)
       else Raise GitlabGetError;
     user_projects_list := Ok [];
     snippets_list := Ok [] |}.

(** A forge that lists group 1 as a subgroup of itself. *)
Definition cyclic_group : Group := plain_group 1 [1] [10].

Definition cyclic_forge : Gitlab :=
  {| groups_get := fun _ => Ok cyclic_group;
     projects_get := fun pid => Ok (plain_project pid);
     user_projects_list := Ok [];
     snippets_list := Ok [] |}.

(** A forge where group 1 lists group 2 and group 2 lists group 1. *)
Definition ring_group (gid : Z) : Group :=
  plain_group gid [3 - gid] [10 * gid].

Definition ring_forge : Gitlab :=
  {| groups_get := fun gid =>
       if gid =? 1 then Ok (ring_group 1)
       else if gid =? 2 then Ok (ring_group 2)
       else Raise GitlabGetError;
     projects_get := fun pid => Ok (plain_project pid);
     user_projects_list := Ok [];
     snippets_list := Ok [] |}.

End ApiSpec.

Module DownloadSpec.
Import Py Objects Download.

(** Every node of the value passes the hint of [obj]: its leaves are
    strings or [None]. *)
Fixpoint all_hinted (obj : pyobj) : bool :=
  match obj with
  | PNone | PStr _ => true
  | PBool _ | PInt _ => false
  | PList l => forallb all_hinted l
  | PDict d => forallb (fun kv => all_hinted (snd kv)) d
  end.

(** No node of the value is a string. *)
Fixpoint no_strings (obj : pyobj) : bool :=
  match obj with
  | PStr _ => false
  | PNone | PBool _ | PInt _ => true
  | PList l => forallb no_strings l
  | PDict d => forallb (fun kv => no_strings (snd kv)) d
  end.

(** the strings of the value, in the order of the traversal *)
Fixpoint strings_of (obj : pyobj) : list string :=
  match obj with
  | PStr s => [s]
  | PNone | PBool _ | PInt _ => []
  | PList l => flat_map strings_of l
  | PDict d => flat_map (fun kv => strings_of (snd kv)) d
  end.

(** *** Fixtures *)

(** [{"a": ["uploads/x.png", 5, null]}] *)
Definition mixed_leaves : pyobj :=
  PDict [("a", PList [PStr "uploads/x.png"; PInt 5; PNone])].

(** [{"a": [1, true, null], "b": {}}] *)
Definition without_strings : pyobj :=
  PDict [("a", PList [PInt 1; PBool true; PNone]); ("b", PDict [])].

(** [{"a": ["uploads/x.png", null]}] *)
Definition string_and_null : pyobj :=
  PDict [("a", PList [PStr "uploads/x.png"; PNone])].

Definition forge_project_url : string := "https://forge.example/org/proj".

(** a project whose wiki has one page, with one attachment *)
Definition wiki_project : Project :=
  {| project_id := 5; project_name := "proj";
     project_web_url := forge_project_url;
     project_path_with_namespace := "org/proj";
     project_wikis :=
       Some {| wikis_list := Ok ["home"];
               wikis_get := fun slug =>
                 if String.eqb slug "home"
                 then Ok "See ![file](/uploads/-/abc/file.png) for details."
                 else Raise GitlabGetError |};
     project_issues_list := Ok [] |}.

End DownloadSpec.

Module EntrypointsSpec.
Import Py Objects Entrypoints.

(** The exit codes as the specification words them: 0 for a normal
    completion, 1 for an exception that nothing handled and for an
    interrupt. *)
Definition exit_code_as_specified (backup_routine_entrypoint : res unit) : Prop :=
  match backup_routine_entrypoint with
  | Ok _ => exit_code (main backup_routine_entrypoint) = 0
  | Raise KeyboardInterrupt => exit_code (main backup_routine_entrypoint) = 1
  | Raise e =>
      is_Exception e = true -> exit_code (main backup_routine_entrypoint) = 1
  end.

(** *** Fixtures *)

(** everything is asked for: group 1 and, once more, project 20 *)
Definition full_config : Backups.Config :=
  {| Backups.gitlab_group_ids := Some [1];
     Backups.gitlab_project_ids := Some [20];
     Backups.include_personal_projects := true;
     Backups.include_wikis := true;
     Backups.include_issues := true;
     Backups.include_snippets := true |}.

(** a forge with one group, whose two projects have a wiki page and an
    issue each, and with one snippet *)
Definition busy_project (pid : Z) : Project :=
  {| project_id := pid; project_name := "p" +:+ str_of_int pid;
     project_web_url := "https://forge.example/org/p" +:+ str_of_int pid;
     project_path_with_namespace := "org/p" +:+ str_of_int pid;
     project_wikis :=
       Some {| wikis_list := Ok ["home"]; wikis_get := fun _ => Ok "" |};
     project_issues_list :=
       Ok [ {| issue_iid := 1; issue_title := "first";
               issue_project_id := pid;
               issue_web_url := "https://forge.example/org/p"
                                +:+ str_of_int pid +:+ "/-/issues/1" |} ] |}.

Definition busy_forge : Api.Gitlab :=
  {| Api.groups_get := fun gid =>
       Ok {| group_id := gid; group_name := "org";
             group_web_url := "https://forge.example/groups/org";
             group_path_with_namespace := "org";
             group_subgroups_list := Ok [];
             group_projects_list := Ok [busy_project 20; busy_project 21];
             group_wikis := None |};
     Api.projects_get := fun pid => Ok (busy_project pid);
     Api.user_projects_list := Ok [];
     Api.snippets_list :=
       Ok [ {| snippet_id := 9; snippet_title := "notes";
               snippet_web_url := "https://forge.example/-/snippets/9" |} ] |}.

(** a four-core machine on which the clone of project 21 fails *)
Definition one_clone_fails_env : Clone.Env :=
  {| Clone.cpu_count := Some 4;
     Clone.clone_from := fun url _ =>
       if String.eqb url "https://forge.example/org/p21"
       then Raise Exception_ else Ok CloneSpec.plain_repo;
     Clone.dump_json := fun _ => Ok tt;
     Clone.mkdir := fun _ => Ok tt |}.

(** the attachments of every wiki and the backup of every issue fail *)
Definition failing_item_calls : Backups.Calls :=
  {| Backups.gitlab_login := Ok busy_forge;
     Backups.backup_wiki_attachements := fun _ => Raise Exception_;
     Backups.backup_issue := fun _ => Raise Exception_;
     Backups.issue_notes_list := fun _ => Ok [];
     Backups.backup_issue_note := fun _ _ => Ok tt;
     Backups.snippet_path_with_namespace := fun _ => Ok "snippets";
     Backups.backup_snippet_attachements := fun _ => Raise Exception_ |}.

(** the access token is refused *)
Definition refused_login_calls : Backups.Calls :=
  {| Backups.gitlab_login := Raise GitlabAuthenticationError;
     Backups.backup_wiki_attachements := fun _ => Ok tt;
     Backups.backup_issue := fun _ => Ok tt;
     Backups.issue_notes_list := fun _ => Ok [];
     Backups.backup_issue_note := fun _ _ => Ok tt;
     Backups.snippet_path_with_namespace := fun _ => Ok "snippets";
     Backups.backup_snippet_attachements := fun _ => Ok tt |}.

(** the user interrupts the backup of an issue *)
Definition interrupted_calls : Backups.Calls :=
  {| Backups.gitlab_login := Ok busy_forge;
     Backups.backup_wiki_attachements := fun _ => Ok tt;
     Backups.backup_issue := fun _ => Raise KeyboardInterrupt;
     Backups.issue_notes_list := fun _ => Ok [];
     Backups.backup_issue_note := fun _ _ => Ok tt;
     Backups.snippet_path_with_namespace := fun _ => Ok "snippets";
     Backups.backup_snippet_attachements := fun _ => Ok tt |}.

End EntrypointsSpec.

Module CloneRecords.
Import Py Objects Clone.

(** The keys of the record of a project, in the order of the literal that
    opens [clone_project]. *)
Definition project_keys : list string :=
  [ "project_name"; "project_url"; "project_id"; "project_path";
    "is_cloned"; "submodules"; "is_submodules_updated"; "branches";
    "is_branches_updated"; "success" ].

Definition wiki_keys : list string :=
  [ "wiki_name"; "wiki_url"; "wiki_id"; "wiki_path";
    "is_cloned"; "submodules"; "is_submodules_updated"; "branches";
    "is_branches_updated"; "success" ].

Definition snippet_keys : list string :=
  [ "snippet_title"; "snippet_url"; "snippet_id"; "snippet_path";
    "is_cloned"; "success" ].

(** The keys that the steps after the clone write to. *)
Definition reconciled_keys : list string :=
  [ "submodules"; "is_submodules_cloned"; "branches"; "is_branches_updated";
    "success" ].

(** [r'] reads as [r] under every key outside of [ks]. *)
Definition same_outside (ks : list string) (r r' : list (string * pyval)) : Prop :=
  forall k, k ∉ ks -> dict_get k r' = dict_get k r.

(** The same repository, had every [git branch --track] succeeded. *)
Definition with_tracking_succeeding (repository : Repo) : Repo :=
  {| submodules := submodules repository;
     submodule_update := submodule_update repository;
     git_branch_all := git_branch_all repository;
     git_branch_track := fun _ _ => Ok tt;
     git_fetch_all := git_fetch_all repository;
     git_pull_all := git_pull_all repository |}.

(** Creating a tracking branch fails, if it does, with an [Exception]. *)
Definition tracking_fails_softly (repository : Repo) : Prop :=
  forall local_branch remote_branch,
    match git_branch_track repository local_branch remote_branch with
    | Ok _ => True
    | Raise e => is_Exception e = true
    end.

(** *** Fixtures *)

(** two branches, neither of which can be tracked, and a network that
    does not answer a fetch *)
Definition untrackable_repo : Repo :=
  {| submodules := [];
     submodule_update := Ok tt;
     git_branch_all := git_branch_all CloneSpec.repo_with_submodule;
     git_branch_track := fun _ _ => Raise Exception_;
     git_fetch_all := Ok tt;
     git_pull_all := Ok tt |}.

(** one branch, and a network that does not answer *)
Definition offline_repo : Repo :=
  {| submodules := [];
     submodule_update := Ok tt;
     git_branch_all := git_branch_all CloneSpec.plain_repo;
     git_branch_track := fun _ _ => Raise Exception_;
     git_fetch_all := Raise Exception_;
     git_pull_all := Raise Exception_ |}.

(** a machine whose number of cores is not known *)
Definition unknown_cores_env : Env :=
  {| cpu_count := None;
     clone_from := fun _ _ => Ok CloneSpec.plain_repo;
     dump_json := fun _ => Ok tt;
     mkdir := fun _ => Ok tt |}.

End CloneRecords.

Module CloneMachines.
Import Py Objects Clone.

(** The same machine, had every [git branch --track] succeeded in every
    repository it clones. *)
Definition with_tracking_succeeding_everywhere (env : Env) : Env :=
  {| cpu_count := cpu_count env;
     clone_from := fun url to_path =>
       match clone_from env url to_path with
       | Ok repository => Ok (CloneRecords.with_tracking_succeeding repository)
       | Raise e => Raise e
       end;
     dump_json := dump_json env;
     mkdir := mkdir env |}.

(** On this machine, creating a tracking branch fails, if it does, with an
    [Exception]. *)
Definition tracking_fails_softly_everywhere (env : Env) : Prop :=
  forall url to_path repository,
    clone_from env url to_path = Ok repository ->
    CloneRecords.tracking_fails_softly repository.

End CloneMachines.

Module ApiWalks.
Import Py Objects Api ApiSpec.

(** a group with identifier [gid] is [root] or below it *)
Definition group_below (api : Gitlab) (root : Group) (gid : Z) : Prop :=
  exists group, reach api root group /\ group_id group = gid.

(** Some lookup that the walk from [group] makes does not answer: a listing
    of the group, the fetch of one of its subgroups, or a lookup further
    down. *)
Inductive broken (api : Gitlab) : Group -> Prop :=
  | broken_subgroups (group : Group) :
      is_Ok (group_subgroups_list group) = false -> broken api group
  | broken_projects (group : Group) :
      is_Ok (group_projects_list group) = false -> broken api group
  | broken_fetch (group : Group) (subgroups : list Z) (sid : Z) :
      group_subgroups_list group = Ok subgroups -> sid ∈ subgroups ->
      is_Ok (groups_get api sid) = false -> broken api group
  | broken_below (group : Group) (subgroups : list Z) (sid : Z)
      (subgroup : Group) :
      group_subgroups_list group = Ok subgroups -> sid ∈ subgroups ->
      groups_get api sid = Ok subgroup -> broken api subgroup ->
      broken api group.

(** The listing of the wiki pages of [obj] answers, or is refused with
    [GitlabListError]. *)
Definition wiki_listing_answers_or_is_refused (obj : WikiOwner) : Prop :=
  forall wikis, owner_wikis obj = Some wikis ->
    match wikis_list wikis with
    | Ok _ => True
    | Raise e => e = GitlabListError
    end.

(** [obj] has a wiki with at least one page *)
Definition has_wiki_pages (obj : WikiOwner) : Prop :=
  exists wikis page pages,
    owner_wikis obj = Some wikis /\ wikis_list wikis = Ok (page :: pages).

(** The lookup of an explicit project answers, or fails with
    [GitlabGetError]. *)
Definition project_lookup_answers_or_fails (api : Gitlab) (pid : Z) : Prop :=
  match projects_get api pid with
  | Ok _ => True
  | Raise e => e = GitlabGetError
  end.

(** *** Fixtures *)

(** the forge of three levels, with group 4 out of reach *)
Definition pruned_forge : Gitlab :=
  {| groups_get := fun gid =>
       if gid =? 4 then Raise GitlabGetError else groups_get tree_forge gid;
     projects_get := projects_get tree_forge;
     user_projects_list := Ok [];
     snippets_list := Ok [] |}.

(** a project with a wiki of one page *)
Definition documented_project (pid : Z) : Project :=
  {| project_id := pid; project_name := "p" +:+ str_of_int pid;
     project_web_url := "https://forge.example/org/p" +:+ str_of_int pid;
     project_path_with_namespace := "org/p" +:+ str_of_int pid;
     project_wikis :=
       Some {| wikis_list := Ok ["home"]; wikis_get := fun _ => Ok "" |};
     project_issues_list := Ok [] |}.

End ApiWalks.

Module BackupsSpec.
Import Py Objects Backups.

(** The call returns, or fails with an [Exception]. *)
Definition fails_softly {A : Type} (c : res A) : Prop :=
  match c with
  | Ok _ => True
  | Raise e => is_Exception e = true
  end.

(** Every backup of one object, and every listing of the notes of an
    issue, returns or fails with an [Exception]. *)
Definition item_backups_fail_softly (calls : Calls) : Prop :=
  (forall obj, fails_softly (backup_wiki_attachements calls obj))
  /\ (forall issue, fails_softly (backup_issue calls issue))
  /\ (forall issue, fails_softly (issue_notes_list calls issue))
  /\ (forall issue note, fails_softly (backup_issue_note calls issue note))
  /\ (forall snippet, fails_softly (backup_snippet_attachements calls snippet)).

(** Every snippet that discovery found carries [path_with_namespace]. *)
Definition snippets_carry_namespace (calls : Calls) (items : Api.Items)
  : Prop :=
  forall snippet, snippet ∈ dict_values (Api.gitlab_snippets items) ->
    is_Ok (snippet_path_with_namespace calls snippet) = true.

(** The machine can run the three orchestrators below [backup_dir]. *)
Definition can_write_results (env : Clone.Env) (backup_dir : string) : Prop :=
  (exists n, Clone.cpu_count env = Some n /\ 3 <= n)
  /\ Clone.dump_json env (Clone.path_join backup_dir "results.json") = Ok tt
  /\ Clone.mkdir env (Clone.path_join backup_dir "snippets") = Ok tt
  /\ Clone.dump_json env
       (Clone.path_join (Clone.path_join backup_dir "snippets") "results.json")
     = Ok tt.

(** what discovery finds on the busy forge *)
Definition busy_items : Api.Items :=
  match Api.get_gitlab_items 3 EntrypointsSpec.busy_forge
          (Some [1]) (Some [20]) true true true true with
  | Ok items => items
  | Raise _ =>
      {| Api.gitlab_groups := []; Api.gitlab_projects := [];
         Api.gitlab_wikis := []; Api.gitlab_issues := [];
         Api.gitlab_snippets := [] |}
  end.

(** the calls of the run in which every item backup fails, on a forge
    whose snippets carry no [path_with_namespace] *)
Definition bare_snippet_calls : Calls :=
  {| gitlab_login := gitlab_login EntrypointsSpec.failing_item_calls;
     backup_wiki_attachements :=
       backup_wiki_attachements EntrypointsSpec.failing_item_calls;
     backup_issue := backup_issue EntrypointsSpec.failing_item_calls;
     issue_notes_list := issue_notes_list EntrypointsSpec.failing_item_calls;
     backup_issue_note :=
       backup_issue_note EntrypointsSpec.failing_item_calls;
     snippet_path_with_namespace := fun _ => Raise AttributeError;
     backup_snippet_attachements :=
       backup_snippet_attachements EntrypointsSpec.failing_item_calls |}.

End BackupsSpec.

Module DownloadMore.
Import Py Objects Download.

(** every character of the string satisfies [p] *)
Fixpoint string_forall (p : ascii -> bool) (s : string) : bool :=
  match s with
  | EmptyString => true
  | String c s' => p c && string_forall p s'
  end.

(** [m] is a match of the upload pattern: [uploads/], then one character
    of the class or more. *)
Definition upload_reference (m : string) : Prop :=
  exists run, m = "uploads/" +:+ run /\ run <> ""
              /\ string_forall upload_char run = true.

(** [m] occurs in [s] *)
Definition occurs_in (m s : string) : Prop :=
  exists i : nat, String.prefix m (string_drop i s) = true.

(** the text that [get_issue_attachment_urls] scans *)
Definition scanned_text (obj : Described) (is_note : bool) : option string :=
  if is_note then described_body obj else described_description obj.

(** the URL that comes in front of each reference *)
Definition issue_base_url (obj : Described) (is_note : bool) (web_url : string)
  : string :=
  first_piece
    (split "/-/issues/" (if is_note then web_url else described_web_url obj)).

(** the longest name among the entries of a directory *)
Definition longest_entry (entries : list string) : nat :=
  list_max (map String.length entries).

(** *** Fixtures *)
Definition issue_seven : Described :=
  {| described_description :=
       Some "Broken: ![shot](/uploads/abc/shot.png), log in uploads/-/q/r.txt";
     described_body := None;
     described_web_url := "https://forge.example/org/proj/-/issues/7" |}.

End DownloadMore.

Module BackupItemsSpec.
Import Py Objects Download DownloadMore BackupItems.

(** the calls of the downloader in a log *)
Definition is_download (e : event) : bool :=
  match e with
  | Download _ _ _ _ _ => true
  | _ => false
  end.

Definition downloads (log : list event) : list event :=
  List.filter is_download log.

(** every URL of the list starts with [base] *)
Definition all_under (base : string) (file_urls : list string) : Prop :=
  Forall (fun url => String.prefix base url = true) file_urls.

(** *** Fixtures *)

(** a file system and a downloader that refuse nothing *)
Definition willing_world : World :=
  {| mkdir := fun _ => Ok tt;
     open_w := fun _ => Ok tt;
     write := fun _ _ => Ok tt;
     download_file_from_url := fun _ _ _ _ _ => Ok tt |}.

Definition forge_access : Access :=
  {| gitlab_server := "https://forge.example";
     gitlab_username := "backup";
     gitlab_password := "secret" |}.

(** an issue that was opened with a title only *)
Definition bare_issue : Backed :=
  {| backed_iid := 8;
     backed_issue_iid := 0;
     backed_id := 108;
     backed_attributes := "{}";
     backed_described :=
       {| described_description := None;
          described_body := None;
          described_web_url := "https://forge.example/org/proj/-/issues/8" |} |}.

(** an issue with two references *)
Definition backed_issue_seven : Backed :=
  {| backed_iid := 7;
     backed_issue_iid := 0;
     backed_id := 107;
     backed_attributes := "{}";
     backed_described := issue_seven |}.

Definition bare_snippet : Snippet :=
  {| snippet_id := 3; snippet_title := "notes";
     snippet_web_url := "https://forge.example/-/snippets/3" |}.

End BackupItemsSpec.

(* ================================================================== *)
(** * Facts about the Python fragment                                  *)
(* ================================================================== *)

Section DictFacts.
Context {K V : Type} `{EqDecision K}.
Implicit Types (k : K) (v : V) (d : list (K * V)).

Lemma dict_get_set_eq k v d : Py.dict_get k (Py.dict_set k v d) = Some v.
Proof.
  induction d as [|[k' v'] d IH]; simpl.
  - by rewrite decide_True.
  - destruct (decide (k = k')) as [->|Hne]; simpl.
    + by rewrite decide_True.
    + by rewrite decide_False.
Qed.

Lemma dict_get_set_ne k k' v d :
  k <> k' -> Py.dict_get k' (Py.dict_set k v d) = Py.dict_get k' d.
Proof.
  intros Hne. induction d as [|[k0 v0] d IH]; simpl.
  - rewrite decide_False; [done | congruence].
  - destruct (decide (k = k0)) as [->|Hk]; simpl.
    + rewrite !decide_False; [done | congruence | congruence].
    + by rewrite IH.
Qed.

Lemma dict_get_set_inv k k' v x d :
  Py.dict_get k' (Py.dict_set k v d) = Some x ->
  (k' = k /\ x = v) \/ Py.dict_get k' d = Some x.
Proof.
  destruct (decide (k = k')) as [->|Hne].
  - rewrite dict_get_set_eq. intros [= <-]. by left.
  - rewrite dict_get_set_ne by done. by right.
Qed.

Lemma dict_keys_set_elem k k' v d :
  k' ∈ Py.dict_keys (Py.dict_set k v d) <-> k' = k \/ k' ∈ Py.dict_keys d.
Proof.
  unfold Py.dict_keys. induction d as [|[k0 v0] d IH]; simpl.
  - rewrite list_elem_of_singleton. rewrite elem_of_nil. tauto.
  - destruct (decide (k = k0)) as [->|Hk]; simpl.
    + rewrite !elem_of_cons. tauto.
    + rewrite !elem_of_cons, IH. tauto.
Qed.

Lemma dict_keys_set_present k v d :
  k ∈ Py.dict_keys d -> Py.dict_keys (Py.dict_set k v d) = Py.dict_keys d.
Proof.
  unfold Py.dict_keys. induction d as [|[k0 v0] d IH]; simpl.
  - intros Hin. by apply elem_of_nil in Hin.
  - intros Hin. destruct (decide (k = k0)) as [->|Hk]; simpl; [done|].
    f_equal. apply IH. apply elem_of_cons in Hin as [?|?]; [congruence|done].
Qed.

Lemma dict_keys_set_absent k v d :
  k ∉ Py.dict_keys d ->
  Py.dict_keys (Py.dict_set k v d) = Py.dict_keys d ++ [k].
Proof.
  unfold Py.dict_keys. induction d as [|[k0 v0] d IH]; simpl; [done|].
  intros Hnin. apply not_elem_of_cons in Hnin as [Hne Hnin].
  rewrite decide_False by done. simpl. f_equal. by apply IH.
Qed.

Lemma dict_keys_set_NoDup k v d :
  NoDup (Py.dict_keys d) -> NoDup (Py.dict_keys (Py.dict_set k v d)).
Proof.
  intros Hnd. destruct (decide (k ∈ Py.dict_keys d)) as [Hin|Hnin].
  - by rewrite dict_keys_set_present.
  - rewrite dict_keys_set_absent by done.
    apply NoDup_app. split; [done|]. split.
    + intros x Hx Hx'. apply list_elem_of_singleton in Hx'. by subst.
    + apply NoDup_singleton.
Qed.

Lemma dict_set_idempotent k v d :
  Py.dict_set k v (Py.dict_set k v d) = Py.dict_set k v d.
Proof.
  induction d as [|[k0 v0] d IH]; simpl.
  - by rewrite decide_True.
  - destruct (decide (k = k0)) as [->|Hk]; simpl.
    + by rewrite decide_True.
    + rewrite decide_False by done. by rewrite IH.
Qed.

Lemma dict_count_absent k d :
  k ∉ Py.dict_keys d -> Py.dict_count k d = 0%nat.
Proof.
  unfold Py.dict_count, Py.dict_keys.
  induction d as [|[k0 v0] d IH]; simpl; [done|].
  intros Hnin. apply not_elem_of_cons in Hnin as [Hne Hnin].
  rewrite filter_cons_False by (simpl; congruence). by apply IH.
Qed.

(** In a dictionary no key is stored twice: a key that is present has
    exactly one entry. *)
Lemma dict_count_present k d :
  NoDup (Py.dict_keys d) -> k ∈ Py.dict_keys d -> Py.dict_count k d = 1%nat.
Proof.
  unfold Py.dict_count, Py.dict_keys.
  induction d as [|[k0 v0] d IH]; simpl.
  - intros _ Hin. by apply elem_of_nil in Hin.
  - intros Hnd Hin. apply NoDup_cons in Hnd as [Hk0 Hnd].
    destruct (decide (k0 = k)) as [->|Hne].
    + rewrite filter_cons_True by done. simpl. f_equal.
      by apply dict_count_absent.
    + rewrite filter_cons_False by (simpl; congruence).
      apply IH; [done|].
      apply elem_of_cons in Hin as [?|?]; [congruence|done].
Qed.

Lemma dict_get_is_Some k d :
  is_Some (Py.dict_get k d) <-> k ∈ Py.dict_keys d.
Proof.
  unfold Py.dict_keys. induction d as [|[k0 v0] d IH]; simpl.
  - rewrite elem_of_nil. split; [intros [? ?]; done | done].
  - rewrite elem_of_cons. destruct (decide (k = k0)) as [->|Hne].
    + split; [by left | by eexists].
    + rewrite IH. tauto.
Qed.
End DictFacts.

(* ================================================================== *)
(** * Properties of [foxysafe/gitlab/api.py]                           *)
(* ================================================================== *)

Section Loops.
Import Py.

(** An invariant of the body is an invariant of the loop. *)
Lemma for_each_invariant {A S : Type} (P : S -> Prop)
    (body : S -> A -> res S) xs s s' :
  (forall s x s', x ∈ xs -> body s x = Ok s' -> P s -> P s') ->
  for_each body xs s = Ok s' -> P s -> P s'.
Proof.
  revert s. induction xs as [|x xs IH]; intros s Hbody; simpl.
  - by intros [= <-].
  - destruct (body s x) as [s1|] eqn:Hx; simpl; [|done].
    intros Hrun Hs. apply (IH s1); [|done|].
    + intros s0 y s0' Hy. apply Hbody. by right.
    + apply (Hbody s x); [by left | done | done].
Qed.

(** a loop whose body fails for one of the elements fails *)
Lemma for_each_fails {A S : Type} (body : S -> A -> res S) xs x s :
  x ∈ xs -> (forall s, is_Ok (body s x) = false) ->
  is_Ok (for_each body xs s) = false.
Proof.
  intros Hin Hx. revert s. induction xs as [|y ys IH]; intros s.
  { by apply elem_of_nil in Hin. }
  cbn [for_each]. apply elem_of_cons in Hin as [<-|Hin].
  - specialize (Hx s). by destruct (body s x).
  - destruct (body s y); [by apply IH | done].
Qed.
End Loops.

Section Walk.
Import Py Objects Api ApiSpec.
Implicit Types (api : Gitlab) (group : Group)
  (groups : list (Z * Group)) (projects : list (Z * Project)).

Lemma add_projects_keys (group_projects : list Project) projects pid :
  pid ∈ dict_keys (add_projects group_projects projects)
  <-> pid ∈ dict_keys projects
      \/ exists project, project ∈ group_projects /\ project_id project = pid.
Proof.
  unfold add_projects. revert projects.
  induction group_projects as [|p ps IH]; intros projects; simpl.
  - split; [by left|]. intros [?|(? & Hin & _)]; [done|].
    by apply elem_of_nil in Hin.
  - rewrite IH, dict_keys_set_elem. split.
    + intros [[->|?]|(q & Hq & Hid)].
      * right. exists p. split; [by left | done].
      * by left.
      * right. exists q. split; [by right | done].
    + intros [?|(q & Hq & Hid)]; [by left; right|].
      apply elem_of_cons in Hq as [->|Hq]; [by left; left|].
      right. by exists q.
Qed.

Lemma add_projects_NoDup (group_projects : list Project) projects :
  NoDup (dict_keys projects) ->
  NoDup (dict_keys (add_projects group_projects projects)).
Proof.
  unfold add_projects. revert projects.
  induction group_projects as [|p ps IH]; intros projects Hnd; simpl; [done|].
  apply IH. by apply dict_keys_set_NoDup.
Qed.

Lemma add_projects_keyed (group_projects : list Project) projects :
  keyed_by_id projects -> keyed_by_id (add_projects group_projects projects).
Proof.
  unfold add_projects. revert projects.
  induction group_projects as [|p ps IH]; intros projects Hk; simpl; [done|].
  apply IH. intros pid q Hget.
  apply dict_get_set_inv in Hget as [[-> ->]|Hget]; [done | by apply Hk].
Qed.

Lemma grown_from_refl projects : grown_from projects projects.
Proof. by repeat split. Qed.

Lemma grown_from_trans p1 p2 p3 :
  grown_from p1 p2 -> grown_from p2 p3 -> grown_from p1 p3.
Proof. intros (? & ? & ?) (? & ? & ?). repeat split; auto. Qed.

Lemma grown_from_add (group_projects : list Project) projects :
  grown_from projects (add_projects group_projects projects).
Proof.
  split; [apply add_projects_NoDup|]. split; [apply add_projects_keyed|].
  intros pid H. apply add_projects_keys. by left.
Qed.

Lemma grown_from_set (p : Project) projects :
  grown_from projects (dict_set (project_id p) p projects).
Proof. apply (grown_from_add [p]). Qed.

(** Whatever the forge, a walk that returns has only grown the project
    dictionary. *)
Lemma recurse_group_keeps limit api group groups projects result :
  _recurse_group limit api group groups projects = Ok result ->
  grown_from projects (snd result).
Proof.
  revert group groups projects result.
  induction limit as [|limit IH]; intros group groups projects result;
    [done|].
  cbn [_recurse_group]. unfold bind at 1.
  destruct (group_subgroups_list group) as [subgroups|]; [|done].
  unfold bind at 1.
  match goal with |- context [for_each ?b subgroups ?s] =>
    destruct (for_each b subgroups s) as [st|] eqn:Hloop; [|done];
    apply (for_each_invariant
             (fun st => grown_from projects (snd st))) in Hloop
  end.
  - unfold bind. destruct (group_projects_list group) as [ps|]; [|done].
    intros [= <-]. cbn [snd].
    eapply grown_from_trans; [exact Hloop | apply grown_from_add].
  - intros st0 sid st1 _ Hstep Hgrown. unfold bind in Hstep.
    destruct (groups_get api sid) as [subgroup|]; [|done].
    apply IH in Hstep. by eapply grown_from_trans.
  - apply grown_from_refl.
Qed.
End Walk.

Section WalkOnTrees.
Import Py Objects Api ApiSpec.
Implicit Types (api : Gitlab) (group : Group)
  (groups : list (Z * Group)) (projects : list (Z * Project)).

Lemma found_below_unfold api group subgroups pid :
  group_subgroups_list group = Ok subgroups ->
  found_below api group pid
  <-> listed_in group pid
      \/ exists sid subgroup,
           sid ∈ subgroups /\ groups_get api sid = Ok subgroup
           /\ found_below api subgroup pid.
Proof.
  intros Hsubs. split.
  - intros (g' & Hreach & Hlisted). inversion Hreach; subst.
    + by left.
    + right. exists sid, subgroup. split; [congruence|]. split; [done|].
      by exists g'.
  - intros [Hlisted|(sid & subgroup & Hin & Hget & g' & Hreach & Hlisted)].
    + exists group. split; [constructor | done].
    + exists g'. split; [|done]. by eapply reach_below.
Qed.

(** The loop over the subgroups, when the walk of each of them returns
    and collects the projects below it. *)
Lemma walk_subgroups api (limit : nat) (subgroups : list Z) :
  Forall (fun sid => exists subgroup,
            groups_get api sid = Ok subgroup
            /\ forall groups projects, exists result,
                 _recurse_group limit api subgroup groups projects = Ok result
                 /\ forall pid, pid ∈ dict_keys (snd result)
                      <-> pid ∈ dict_keys projects
                          \/ found_below api subgroup pid) subgroups ->
  forall st, exists st',
    for_each
      (fun (acc : list (Z * Group) * list (Z * Project)) subgroup =>
         bind (groups_get api subgroup) (fun subgroup =>
         _recurse_group limit api subgroup (fst acc) (snd acc)))
      subgroups st = Ok st'
    /\ forall pid, pid ∈ dict_keys (snd st')
         <-> pid ∈ dict_keys (snd st)
             \/ exists sid subgroup,
                  sid ∈ subgroups /\ groups_get api sid = Ok subgroup
                  /\ found_below api subgroup pid.
Proof.
  induction 1 as [|sid subgroups (subgroup & Hget & Hwalk) _ IH]; intros st.
  - exists st. split; [done|]. intros pid. split; [by left|].
    intros [?|(? & ? & Hin & _)]; [done | by apply elem_of_nil in Hin].
  - cbn [for_each]. rewrite Hget. cbn [bind].
    destruct (Hwalk (fst st) (snd st)) as (st1 & -> & Hkeys1). cbn [bind].
    destruct (IH st1) as (st' & -> & Hkeys'). exists st'. split; [done|].
    intros pid. rewrite Hkeys', Hkeys1. split.
    + intros [[?|Hfound]|(sid' & sub' & Hin & Hget' & Hfound)].
      * by left.
      * right. exists sid, subgroup. split; [by left | done].
      * right. exists sid', sub'. split; [by right | done].
    + intros [?|(sid' & sub' & Hin & Hget' & Hfound)]; [by left; left|].
      apply elem_of_cons in Hin as [->|Hin].
      * left; right. congruence.
      * right. by exists sid', sub'.
Qed.

(** On a tree of depth [n], a call stack of depth [n] suffices, and the
    project dictionary gains the identifiers of the projects found at any
    depth, and no other key. *)
Lemma recurse_group_tree api (n : nat) :
  forall group (limit : nat), tree_below api n group -> (n <= limit)%nat ->
  forall groups projects, exists result,
    _recurse_group limit api group groups projects = Ok result
    /\ forall pid, pid ∈ dict_keys (snd result)
         <-> pid ∈ dict_keys projects \/ found_below api group pid.
Proof.
  induction n as [|n IH]; intros group limit Htree Hle groups projects;
    [done|].
  destruct limit as [|limit]; [lia|].
  destruct Htree as (subgroups & group_projects & Hsubs & Hprojs & Hall).
  cbn [_recurse_group]. rewrite Hsubs. cbn [bind].
  destruct (walk_subgroups api limit subgroups) with
    (st := (dict_set (group_id group) group groups, projects))
    as (st' & -> & Hkeys).
  { eapply Forall_impl; [exact Hall|]. intros sid (sub & Hget & Hsub).
    exists sub. split; [done|]. intros gs ps. apply IH; [done | lia]. }
  cbn [bind]. rewrite Hprojs. cbn [bind]. eexists. split; [done|].
  intros pid. cbn [snd]. rewrite add_projects_keys, Hkeys.
  rewrite (found_below_unfold api group subgroups pid Hsubs).
  cbn [snd]. unfold listed_in. split.
  - intros [[?|?]|(p & Hp & Hid)]; [by left | by right; right|].
    right; left. by exists group_projects, p.
  - intros [?|[(ps & p & Hps & Hp & Hid)|?]];
      [by left; left | | by left; right].
    right. exists p. split; [congruence | done].
Qed.

(** On the forge that lists a group below itself, each call makes
    another one: whatever the depth allowed, the stack is exhausted. *)
Lemma recurse_group_cycle (limit : nat) groups projects :
  _recurse_group limit cyclic_forge cyclic_group groups projects
  = Raise RecursionError.
Proof.
  revert groups projects. induction limit as [|limit IH];
    intros groups projects; [done|].
  cbn [_recurse_group]. cbn [cyclic_group plain_group group_subgroups_list bind].
  cbn [for_each cyclic_forge groups_get bind fst snd].
  fold cyclic_group. by rewrite IH.
Qed.

(** C4, counterexample. The walk makes a call for every listed subgroup
    and has no record of the groups it has seen: on a forge where group 1
    lists itself as a subgroup, it does not return. *)
Lemma walk_on_cycle_never_returns :
  ~ walk_returns cyclic_forge cyclic_group.
Proof.
  intros (limit & result & Hrun).
  by rewrite recurse_group_cycle in Hrun.
Qed.

(** On a hierarchy that is a tree of depth at most [n] the walk returns
    as soon as the call stack allows [n] nested calls, and the one flat
    dictionary it answers with holds, each under its own identifier and
    once, exactly the projects found at any depth. *)
Lemma recurse_group_tree_projects api (n : nat) (root : Group) :
  tree_below api n root ->
  forall limit : nat, (n <= limit)%nat ->
  exists groups projects,
    _recurse_group limit api root [] [] = Ok (groups, projects)
    /\ NoDup (dict_keys projects)
    /\ keyed_by_id projects
    /\ (forall pid, pid ∈ dict_keys projects <-> found_below api root pid)
    /\ (forall ids : list Z,
          NoDup ids -> (forall pid, pid ∈ ids <-> found_below api root pid) ->
          length projects = length ids).
Proof.
  intros Htree limit Hle.
  destruct (recurse_group_tree api n root limit Htree Hle [] [])
    as ([groups projects] & Hrun & Hkeys).
  exists groups, projects. split; [done|].
  destruct (recurse_group_keeps _ _ _ _ _ _ Hrun) as (Hnd & Hkeyed & _).
  specialize (Hnd (NoDup_nil_2 (A:=Z))). cbn [snd] in Hnd, Hkeyed.
  assert (Hin : forall pid,
            pid ∈ dict_keys projects <-> found_below api root pid).
  { intros pid. rewrite Hkeys. cbn. rewrite elem_of_nil. tauto. }
  split; [done|]. split; [by apply Hkeyed|]. split; [done|].
  intros ids Hids Hsame.
  assert (Hlen : length (dict_keys projects) = length ids).
  { apply Permutation_length, NoDup_Permutation; [done | done|].
    intros pid. by rewrite Hin, Hsame. }
  unfold dict_keys in Hlen. by rewrite length_map in Hlen.
Qed.

(** A hierarchy with a cycle has the cycle below one of the subgroups of
    its root as well: the walk always finds a call to make. *)
Lemma has_cycle_step api group :
  has_cycle api group ->
  exists subgroups sid subgroup,
    group_subgroups_list group = Ok subgroups /\ sid ∈ subgroups
    /\ groups_get api sid = Ok subgroup /\ has_cycle api subgroup.
Proof.
  intros (group' & Hreach & Hbelow).
  destruct Hreach as [g | g subgroups sid subgroup g' Hsubs Hin Hget Hreach].
  - destruct Hbelow as (subgroups & sid & subgroup & Hsubs & Hin & Hget
                        & Hback).
    exists subgroups, sid, subgroup. repeat (split; [done|]).
    exists g. split; [done|]. by exists subgroups, sid, subgroup.
  - exists subgroups, sid, subgroup. repeat (split; [done|]).
    by exists g'.
Qed.

(** On a hierarchy with a cycle the walk returns for no depth of the call
    stack. *)
Lemma recurse_group_on_cycle (limit : nat) :
  forall api group, has_cycle api group ->
  forall groups projects,
    is_Ok (_recurse_group limit api group groups projects) = false.
Proof.
  induction limit as [|limit IH]; intros api group Hcycle groups projects;
    [done|].
  destruct (has_cycle_step api group Hcycle)
    as (subgroups & sid & subgroup & Hsubs & Hin & Hget & Hsub).
  cbn [_recurse_group]. rewrite Hsubs. cbn [bind].
  match goal with |- context [for_each ?b subgroups ?s] =>
    pose proof (for_each_fails b subgroups sid s Hin) as Hloop;
    destruct (for_each b subgroups s) as [st|]; [|done]
  end.
  cbn [is_Ok] in Hloop. discriminate Hloop.
  intros st'. rewrite Hget. cbn [bind]. by apply IH.
Qed.

(** Where every lookup answers, the walk can only fail by exhausting the
    call stack. *)
Lemma recurse_group_outcome (limit : nat) :
  forall api group, lookups_answer api group ->
  forall groups projects,
    is_Ok (_recurse_group limit api group groups projects) = true
    \/ _recurse_group limit api group groups projects = Raise RecursionError.
Proof.
  induction limit as [|limit IH]; intros api group Hanswer groups projects;
    [by right|].
  destruct (Hanswer group (reach_here api group))
    as (subgroups & group_projects & Hsubs & Hprojs & Hfetch).
  cbn [_recurse_group]. rewrite Hsubs. cbn [bind].
  assert (Hloop : forall l, (forall sid, sid ∈ l -> sid ∈ subgroups) ->
            forall st,
              is_Ok
                (for_each
                   (fun (acc : list (Z * Group) * list (Z * Project)) sid =>
                      bind (groups_get api sid) (fun subgroup =>
                      _recurse_group limit api subgroup (fst acc) (snd acc)))
                   l st) = true
              \/ for_each
                   (fun (acc : list (Z * Group) * list (Z * Project)) sid =>
                      bind (groups_get api sid) (fun subgroup =>
                      _recurse_group limit api subgroup (fst acc) (snd acc)))
                   l st = Raise RecursionError).
  { induction l as [|sid l IHl]; intros Hl st; [by left|].
    cbn [for_each].
    assert (Hsid : sid ∈ subgroups) by (apply Hl; by left).
    pose proof (Hfetch sid Hsid) as Hget.
    destruct (groups_get api sid) as [subgroup|] eqn:Hsub; [|done].
    cbn [bind].
    destruct (IH api subgroup) with (groups := fst st) (projects := snd st)
      as [Hok|Hraise].
    { intros g Hg. apply Hanswer. by eapply reach_below. }
    - destruct (_recurse_group limit api subgroup (fst st) (snd st))
        as [st1|]; [|done].
      cbn [bind]. apply IHl. intros sid' Hin. apply Hl. by right.
    - rewrite Hraise. by right. }
  destruct (Hloop subgroups (fun _ H => H)
              (dict_set (group_id group) group groups, projects))
    as [Hok|Hraise].
  - match goal with |- context [for_each ?b subgroups ?s] =>
      destruct (for_each b subgroups s) as [st|]; [|done]
    end.
    cbn [bind]. rewrite Hprojs. by left.
  - rewrite Hraise. by right.
Qed.

(** the groups of the ring forge *)
Lemma ring_forge_reach (g g' : Group) :
  reach ring_forge g g' ->
  g = ring_group 1 \/ g = ring_group 2 ->
  g' = ring_group 1 \/ g' = ring_group 2.
Proof.
  induction 1 as [g | g subgroups sid subgroup g' Hsubs Hin Hget _ IH];
    [done|].
  intros Hg. apply IH. cbn in Hget.
  destruct (sid =? 1); [left; congruence|].
  destruct (sid =? 2); [right; congruence | done].
Qed.

Lemma ring_forge_has_cycle : has_cycle ring_forge (ring_group 1).
Proof.
  exists (ring_group 1). split; [constructor|].
  exists [2], 2, (ring_group 2). split; [done|]. split; [by constructor|].
  split; [done|].
  apply (reach_below ring_forge (ring_group 2) [1] 1 (ring_group 1));
    [done | by constructor | done | constructor].
Qed.

Lemma ring_forge_answers : lookups_answer ring_forge (ring_group 1).
Proof.
  intros g Hreach.
  destruct (ring_forge_reach _ _ Hreach) as [-> | ->]; [by left | |];
    eexists _, _; (split; [reflexivity|]); (split; [reflexivity|]);
    intros sid Hin; apply list_elem_of_singleton in Hin as ->; reflexivity.
Qed.

(** C4, amended. The walk keeps no record of the groups it has visited.
    On a hierarchy with a cycle, at the group it starts from or anywhere
    below, it returns no result, whatever the depth that the call stack
    allows and whatever the dictionaries it starts with; where every
    lookup answers, it ends with the call stack exhausted. On a hierarchy
    that is a tree of depth at most [n] it returns as soon as the call
    stack allows [n] nested calls, and the one flat dictionary it answers
    with holds, each under its own identifier and once, exactly the
    projects found at any depth: its size is the number of distinct
    projects across all levels. *)
Theorem walk_without_visited_record api (root : Group) :
  (has_cycle api root ->
   forall (limit : nat) groups projects,
     is_Ok (_recurse_group limit api root groups projects) = false
     /\ (lookups_answer api root ->
         _recurse_group limit api root groups projects
         = Raise RecursionError))
  /\ (forall n : nat, tree_below api n root ->
      forall limit : nat, (n <= limit)%nat ->
      exists groups projects,
        _recurse_group limit api root [] [] = Ok (groups, projects)
        /\ NoDup (dict_keys projects)
        /\ keyed_by_id projects
        /\ (forall pid,
              pid ∈ dict_keys projects <-> found_below api root pid)
        /\ (forall ids : list Z,
              NoDup ids ->
              (forall pid, pid ∈ ids <-> found_below api root pid) ->
              length projects = length ids)).
Proof.
  split.
  - intros Hcycle limit groups projects.
    pose proof (recurse_group_on_cycle limit api root Hcycle groups projects)
      as Hnone.
    split; [done|]. intros Hanswer.
    destruct (recurse_group_outcome limit api root Hanswer groups projects)
      as [Hok|Hraise]; [congruence | done].
  - intros n. apply recurse_group_tree_projects.
Qed.

(** The ring of two groups, and the forge with three levels and five
    projects in all. *)
Lemma walk_without_visited_record_witness :
  (forall limit : nat,
     _recurse_group limit ring_forge (ring_group 1) [] []
     = Raise RecursionError)
  /\ exists groups projects,
       _recurse_group 3 tree_forge (plain_group 1 [2; 3] [10]) [] []
       = Ok (groups, projects)
       /\ length projects = 5%nat.
Proof.
  split.
  - intros limit.
    destruct (walk_without_visited_record ring_forge (ring_group 1))
      as [Hcycle _].
    apply (Hcycle ring_forge_has_cycle limit [] []), ring_forge_answers.
  - assert (Htree : tree_below tree_forge 3 (plain_group 1 [2; 3] [10])).
    { cbn. eexists _, _. split; [done|]. split; [done|].
      repeat constructor.
      - eexists. split; [reflexivity|]. cbn.
        eexists _, _. split; [done|]. split; [done|]. repeat constructor.
        eexists. split; [reflexivity|]. cbn.
        eexists _, _. split; [done|]. split; [done|]. constructor.
      - eexists. split; [reflexivity|]. cbn.
        eexists _, _. split; [done|]. split; [done|]. constructor. }
    destruct (walk_without_visited_record tree_forge
                (plain_group 1 [2; 3] [10])) as [_ Hwalk].
    destruct (Hwalk 3%nat Htree 3%nat) as (groups & projects & Hrun & _);
      [lia|].
    exists groups, projects. split; [exact Hrun|].
    vm_compute in Hrun. injection Hrun as <- <-. reflexivity.
Defined.
End WalkOnTrees.

Section Discovery.
Import Py Objects Api ApiSpec.
Implicit Types (api : Gitlab) (projects : list (Z * Project)).

(** One turn of the loop over the explicit identifiers only grows the
    project dictionary. *)
Lemma explicit_project_step_grows api st pid st' :
  explicit_project_step api st pid = Ok st' ->
  grown_from (snd st) (snd st').
Proof.
  destruct st as [project projects]. unfold explicit_project_step, bind.
  destruct (match projects_get api pid with
            | Ok p => Ok (Some p)
            | Raise GitlabGetError => Ok project
            | Raise e => Raise e
            end) as [[p|]|]; [|done..].
  intros [= <-]. cbn [snd].
  eapply grown_from_trans; apply grown_from_set.
Qed.

(** Merging an explicit identifier whose project is in the dictionary
    already, as after its discovery through a group, changes no key:
    the union is idempotent. *)
Lemma explicit_project_step_present api st pid project :
  projects_get api pid = Ok project -> project_id project = pid ->
  pid ∈ dict_keys (snd st) ->
  exists st', explicit_project_step api st pid = Ok st'
              /\ dict_keys (snd st') = dict_keys (snd st)
              /\ dict_get pid (snd st') = Some project.
Proof.
  intros Hget Hid Hin. destruct st as [previous projects].
  unfold explicit_project_step. rewrite Hget. cbn [bind]. rewrite Hid.
  eexists. split; [done|]. cbn [snd]. rewrite dict_set_idempotent. split.
  - by apply dict_keys_set_present.
  - apply dict_get_set_eq.
Qed.

(** After the loop, an explicit identifier that the forge knows is a key
    of the dictionary. *)
Lemma explicit_projects_has api (pids : list Z) st st' pid project :
  for_each (explicit_project_step api) pids st = Ok st' ->
  pid ∈ pids ->
  projects_get api pid = Ok project -> project_id project = pid ->
  pid ∈ dict_keys (snd st').
Proof.
  intros Hrun Hin Hget Hid. revert st Hrun.
  induction pids as [|x pids IH]; intros st Hrun.
  { by apply elem_of_nil in Hin. }
  cbn [for_each] in Hrun.
  destruct (explicit_project_step api st x) as [st1|] eqn:Hstep;
    cbn [bind] in Hrun; [|done].
  destruct (decide (pid = x)) as [->|Hne].
  - assert (Hx : x ∈ dict_keys (snd st1)).
    { destruct st as [previous projects].
      unfold explicit_project_step in Hstep. rewrite Hget in Hstep.
      cbn [bind] in Hstep. injection Hstep as <-. cbn [snd].
      rewrite Hid. apply dict_keys_set_elem. by left. }
    apply (for_each_invariant (fun st => x ∈ dict_keys (snd st)))
      in Hrun; [done | | done].
    intros s y s' _ Hy Hs.
    by apply (explicit_project_step_grows api s y s' Hy).
  - apply (IH ltac:(by apply elem_of_cons in Hin as [?|?]) st1 Hrun).
Qed.

(** The project dictionary that discovery answers with has no key twice
    and holds every project under its own identifier. *)
Lemma get_gitlab_items_projects limit api gids pids
    (personal wikis issues snippets : bool) items :
  get_gitlab_items limit api gids pids personal wikis issues snippets
  = Ok items ->
  NoDup (dict_keys (gitlab_projects items))
  /\ keyed_by_id (gitlab_projects items)
  /\ forall explicit pid project,
       pids = Some explicit -> pid ∈ explicit ->
       projects_get api pid = Ok project -> project_id project = pid ->
       pid ∈ dict_keys (gitlab_projects items).
Proof.
  unfold get_gitlab_items. intros Hrun.
  (* groups *)
  match type of Hrun with bind ?a _ = _ =>
    destruct a as [acc|] eqn:Hgroups; cbn [bind] in Hrun; [|done] end.
  assert (Hg : grown_from [] (snd acc)).
  { destruct gids as [gids|]; [|injection Hgroups as <-; apply grown_from_refl].
    apply (for_each_invariant (fun acc => grown_from [] (snd acc)))
      in Hgroups; [done | | apply grown_from_refl].
    intros s gid s' _ Hstep Hs. unfold bind in Hstep.
    destruct (groups_get api gid) as [group|]; [|done].
    apply recurse_group_keeps in Hstep. by eapply grown_from_trans. }
  (* explicit identifiers *)
  match type of Hrun with bind ?a _ = _ =>
    destruct a as [projects1|] eqn:Hexplicit; cbn [bind] in Hrun; [|done] end.
  assert (He : grown_from (snd acc) projects1
               /\ forall explicit pid project,
                    pids = Some explicit -> pid ∈ explicit ->
                    projects_get api pid = Ok project ->
                    project_id project = pid ->
                    pid ∈ dict_keys projects1).
  { destruct pids as [explicit|].
    2:{ injection Hexplicit as <-. split; [apply grown_from_refl | done]. }
    unfold bind in Hexplicit.
    destruct (for_each _ explicit _) as [st|] eqn:Hloop; [|done].
    injection Hexplicit as <-. split.
    - apply (for_each_invariant (fun st => grown_from (snd acc) (snd st)))
        in Hloop; [done | | apply grown_from_refl].
      intros s x s' _ Hstep Hs. eapply grown_from_trans; [exact Hs|].
      by eapply explicit_project_step_grows.
    - intros ? pid project [= <-] Hin Hget Hid.
      by eapply explicit_projects_has. }
  destruct He as [He Hhas].
  (* personal projects *)
  match type of Hrun with bind ?a _ = _ =>
    destruct a as [projects2|] eqn:Hpersonal; cbn [bind] in Hrun; [|done] end.
  assert (Hp : grown_from projects1 projects2).
  { destruct personal; [|injection Hpersonal as <-; apply grown_from_refl].
    unfold bind in Hpersonal.
    destruct (user_projects_list api); [|done].
    injection Hpersonal as <-. apply grown_from_add. }
  (* wikis, issues and snippets leave the projects as they are *)
  repeat match type of Hrun with bind ?a _ = _ =>
    destruct a; cbn [bind] in Hrun; [|done] end.
  injection Hrun as <-. cbn [gitlab_projects].
  pose proof (grown_from_trans _ _ _ Hg (grown_from_trans _ _ _ He Hp))
    as (Hnd & Hkeyed & _).
  split; [apply Hnd; constructor|]. split; [by apply Hkeyed|].
  intros explicit pid project Hpids Hin Hget Hid.
  apply Hp. by eapply Hhas.
Qed.

(** C9. A project that is requested by its identifier, and that the
    forge knows, has exactly one entry in the project dictionary of
    discovery, also when the walk of its parent group has found it
    before: the dictionary is keyed by identifier, and merging an
    identifier that is present changes no key. *)
Theorem discovery_deduplicates limit api gids (pids : list Z)
    (personal wikis issues snippets : bool) items pid project :
  get_gitlab_items limit api gids (Some pids) personal wikis issues snippets
  = Ok items ->
  pid ∈ pids ->
  projects_get api pid = Ok project -> project_id project = pid ->
  dict_count pid (gitlab_projects items) = 1%nat
  /\ NoDup (dict_keys (gitlab_projects items))
  /\ (forall st, pid ∈ dict_keys (snd st) ->
        exists st', explicit_project_step api st pid = Ok st'
                    /\ dict_keys (snd st') = dict_keys (snd st)).
Proof.
  intros Hrun Hin Hget Hid.
  destruct (get_gitlab_items_projects _ _ _ _ _ _ _ _ _ Hrun)
    as (Hnd & _ & Hhas).
  split; [|split; [done|]].
  - apply dict_count_present; [done|]. by eapply Hhas.
  - intros st Hst.
    destruct (explicit_project_step_present api st pid project Hget Hid Hst)
      as (st' & ? & ? & _).
    by exists st'.
Qed.

(** Project 20 is requested by its identifier and is found again by the
    walk of group 1, two levels down. *)
Lemma discovery_deduplicates_witness :
  exists items,
    get_gitlab_items 3 tree_forge (Some [1]) (Some [20; 30])
      false false false false = Ok items
    /\ dict_count 20 (gitlab_projects items) = 1%nat
    /\ dict_keys (gitlab_projects items) = [40; 20; 21; 30; 10].
Proof.
  destruct (get_gitlab_items 3 tree_forge (Some [1]) (Some [20; 30])
              false false false false) as [items|] eqn:Hrun;
    [|by vm_compute in Hrun].
  exists items. split; [done|]. split.
  - apply (discovery_deduplicates 3 tree_forge (Some [1]) [20; 30]
             false false false false items 20 (plain_project 20) Hrun);
      [by constructor | reflexivity | reflexivity].
  - vm_compute in Hrun. injection Hrun as <-. reflexivity.
Defined.

(** C6. Only two of the lookups of discovery are guarded. The listing
    of the issues of a project is not: when the forge refuses it, the
    error leaves [get_gitlab_items] and no item is discovered. The
    lookup of an explicit project is guarded, but its handler binds
    nothing: when the first lookup fails, the test of [project] that
    follows raises [UnboundLocalError]. A refused wiki listing, for
    comparison, counts as no wiki. *)
Theorem discovery_aborts_on_failed_lookup :
  get_gitlab_items 3 tree_forge None (Some [7]) false false true false
  = Raise GitlabListError
  /\ get_gitlab_items 3 tree_forge None (Some [99; 10]) false false false false
     = Raise UnboundLocalError
  /\ (exists items,
        get_gitlab_items 3 tree_forge None (Some [7; 10])
          false true false false = Ok items
        /\ gitlab_wikis items = []
        /\ dict_keys (gitlab_projects items) = [7; 10]).
Proof.
  split; [by vm_compute|]. split; [by vm_compute|].
  eexists. split; [by vm_compute|]. by vm_compute.
Qed.
End Discovery.

(* ================================================================== *)
(** * Properties of [foxysafe/git/clone.py]                            *)
(* ================================================================== *)

Section CloneWorkers.
Import Py Objects Clone CloneSpec.
Implicit Types (r : list (string * pyval)) (e : exn).

(** What the handlers of a worker leave in [success] after an
    exception. *)
Lemma worker_handlers_raise e r :
  flag "success" r = false ->
  flag "success" (worker_handlers (Raise e, r)) = false.
Proof.
  intros Hr. unfold worker_handlers.
  assert (Hset : flag "success" (dict_set "success" (VBool false) r) = false).
  { unfold flag. by rewrite dict_get_set_eq. }
  destruct e; simpl; done.
Qed.

Lemma worker_handlers_raise_get e r :
  dict_get "success" r = Some (VBool false) ->
  dict_get "success" (worker_handlers (Raise e, r)) = Some (VBool false).
Proof.
  intros Hr. unfold worker_handlers.
  pose proof (dict_get_set_eq "success" (VBool false) r) as Hset.
  destruct e; simpl; done.
Qed.

(** Outside of [success], the handlers leave the record as it is. *)
Lemma worker_handlers_frame (run : res unit * list (string * pyval)) k :
  k <> "success" ->
  dict_get k (worker_handlers run) = dict_get k (snd run).
Proof.
  intros Hk. destruct run as [[[]|e] r]; simpl; [done|].
  pose proof (dict_get_set_ne "success" k (VBool false) r) as Hne.
  destruct e; simpl; try done; apply Hne; congruence.
Qed.

(** The loop that creates the tracking branches never touches the
    record, and only an exception outside of [Exception] leaves it. *)
Lemma tracking_loop repository (branches : list string) r :
  for_in branches (track_branch repository) r = (Ok tt, r)
  \/ exists e, is_Exception e = false
       /\ for_in branches (track_branch repository) r = (Raise e, r).
Proof.
  induction branches as [|b bs IH]; [by left|].
  cbn [for_in]. unfold bindW, track_branch at 1 3.
  unfold try_except_Exception, call.
  destruct (git_branch_track repository _ _) as [[]|e]; [exact IH|].
  destruct (is_Exception e) eqn:He; [exact IH|].
  right. by exists e.
Qed.

(** The shape of the record after the submodule step. *)
Lemma update_submodules_shape repository r :
  exists out r', update_submodules repository r = (out, r')
    /\ (out = Ok tt \/ exists e, is_Exception e = false /\ out = Raise e)
    /\ (r' = r
        \/ (exists s l, submodules repository = s :: l
              /\ (r' = dict_set "submodules" (VList (s :: l)) r
                  \/ (out = Ok tt
                      /\ r' = dict_set "is_submodules_cloned" (VBool true)
                                (dict_set "submodules" (VList (s :: l)) r))))).
Proof.
  unfold update_submodules.
  destruct (submodules repository) as [|s l] eqn:Hs.
  { eexists _, _. split; [reflexivity|]. split; [by left | by left]. }
  unfold try_except_Exception, bindW, setitem, call, ret.
  destruct (submodule_update repository) as [[]|e]; simpl.
  - eexists _, _. split; [reflexivity|]. split; [by left|].
    right. exists s, l. split; [done|]. right. done.
  - destruct (is_Exception e) eqn:He; eexists _, _;
      (split; [reflexivity|]); (split; [eauto|]);
      right; exists s, l; (split; [done|]); by left.
Qed.

(** The shape of the record after the branch step: the flag
    [is_branches_updated] is set last, so an exception leaves it as it
    was. *)
Lemma update_branches_shape repository r :
  exists out r', update_branches repository r = (out, r')
    /\ (r' = r
        \/ (exists bs, r' = dict_set "branches" (VList bs) r)
        \/ (exists bs, out = Ok tt
              /\ r' = dict_set "is_branches_updated" (VBool true)
                        (dict_set "branches" (VList bs) r))).
Proof.
  unfold update_branches. unfold bindW at 1, call at 1.
  destruct (git_branch_all repository) as [out|e].
  2:{ eexists _, _. split; [reflexivity|]. by left. }
  unfold bindW at 1, setitem at 1.
  set (bs := remote_branches_of out).
  set (r1 := dict_set "branches" (VList bs) r).
  destruct (1 <? length bs)%nat.
  2:{ unfold setitem. eexists _, _. split; [reflexivity|].
      right; right. exists bs. done. }
  unfold bindW at 1.
  destruct (tracking_loop repository bs r1) as [Hl|(e & He & Hl)];
    rewrite Hl.
  2:{ eexists _, _. split; [reflexivity|]. right; left. by exists bs. }
  unfold try_except_Exception, bindW, call, setitem, ret.
  destruct (git_fetch_all repository) as [[]|e].
  2:{ destruct (is_Exception e); eexists _, _; (split; [reflexivity|]);
        right; left; by exists bs. }
  destruct (git_pull_all repository) as [[]|e].
  2:{ destruct (is_Exception e); eexists _, _; (split; [reflexivity|]);
        right; left; by exists bs. }
  eexists _, _. split; [reflexivity|]. right; right. by exists bs.
Qed.
End CloneWorkers.

Section CloneSuccess.
Import Py Objects Clone CloneSpec.
Implicit Types (r : list (string * pyval)) (e : exn).

Lemma flag_set_eq k v r : flag k (dict_set k v r) = truthy v.
Proof. unfold flag. by rewrite dict_get_set_eq. Qed.

Lemma flag_set_ne k k' v r : k <> k' -> flag k' (dict_set k v r) = flag k' r.
Proof. intros Hne. unfold flag. by rewrite dict_get_set_ne. Qed.

Lemma flag_of_get k v r : dict_get k r = Some v -> flag k r = truthy v.
Proof. unfold flag. by intros ->. Qed.

(** What the submodule step leaves in the record. *)
Lemma update_submodules_summary repository r :
  exists out r', update_submodules repository r = (out, r')
    /\ (out = Ok tt \/ exists e, is_Exception e = false /\ out = Raise e)
    /\ (forall k, k <> "submodules" -> k <> "is_submodules_cloned" ->
          dict_get k r' = dict_get k r)
    /\ (dict_get "submodules" r' = dict_get "submodules" r
        \/ exists s l, dict_get "submodules" r' = Some (VList (s :: l))).
Proof.
  destruct (update_submodules_shape repository r)
    as (out & r' & Hrun & Hout & Hshape).
  exists out, r'. split; [done|]. split; [done|].
  destruct Hshape as [->|(s & l & _ & [->|[_ ->]])].
  - split; [done | by left].
  - split.
    + intros k Hk _. by rewrite dict_get_set_ne.
    + right. exists s, l. by rewrite dict_get_set_eq.
  - split.
    + intros k Hk Hk'. by rewrite !dict_get_set_ne.
    + right. exists s, l.
      rewrite dict_get_set_ne by discriminate. by rewrite dict_get_set_eq.
Qed.

(** What the branch step leaves in the record. *)
Lemma update_branches_summary repository r :
  exists out r', update_branches repository r = (out, r')
    /\ (forall k, k <> "branches" -> k <> "is_branches_updated" ->
          dict_get k r' = dict_get k r)
    /\ (dict_get "is_branches_updated" r' = dict_get "is_branches_updated" r
        \/ (out = Ok tt
            /\ dict_get "is_branches_updated" r' = Some (VBool true))).
Proof.
  destruct (update_branches_shape repository r)
    as (out & r' & Hrun & Hshape).
  exists out, r'. split; [done|].
  destruct Hshape as [->|[(bs & ->)|(bs & -> & ->)]].
  - split; [done | by left].
  - split.
    + intros k Hk _. by rewrite dict_get_set_ne.
    + left. by rewrite dict_get_set_ne by discriminate.
  - split.
    + intros k Hk Hk'. by rewrite !dict_get_set_ne.
    + right. split; [done|]. by rewrite dict_get_set_eq.
Qed.

(** The last statement of the [try] block of [clone_project] and
    [clone_wiki], on a record that holds the four flags. *)
Lemma set_success_run r vc vs vu vb :
  dict_get "is_cloned" r = Some vc ->
  dict_get "submodules" r = Some vs ->
  dict_get "is_submodules_updated" r = Some vu ->
  dict_get "is_branches_updated" r = Some vb ->
  set_success r
  = (Ok tt,
     dict_set "success"
       (VBool (truthy vc && (bool_is (truthy vs) vu && truthy vb))) r).
Proof.
  intros Hc Hs Hu Hb.
  unfold set_success, bindW, getitem, and_then, setitem, ret.
  rewrite Hc. destruct (truthy vc); simpl; [|done].
  rewrite Hs, Hu. destruct (bool_is (truthy vs) vu); simpl; [|done].
  by rewrite Hb.
Qed.

Lemma after_clone_success (extra : W unit) repository r :
  (forall r0, snd (extra r0) = r0) ->
  dict_get "is_cloned" r = Some (VBool true) ->
  dict_get "submodules" r = Some (VList []) ->
  dict_get "is_submodules_updated" r = Some (VBool false) ->
  dict_get "is_branches_updated" r = Some (VBool false) ->
  dict_get "success" r = Some (VBool false) ->
  let run := after_clone extra repository r in
  let final := worker_handlers run in
  flag "is_cloned" final = true
  /\ flag "is_submodules_updated" final = false
  /\ (flag "success" final = true <->
      flag "submodules" final = false
      /\ flag "is_branches_updated" final = true
      /\ is_Ok (fst run) = true)
  /\ ((forall r0, is_Ok (fst (extra r0)) = true) ->
      is_Ok (fst run) = false -> flag "is_branches_updated" final = false)
  /\ (exists b, dict_get "success" final = Some (VBool b)).
Proof.
  intros Hextra Hc Hs Hu Hb Hsucc run final. subst final.
  destruct (update_submodules_summary repository r)
    as (o1 & r1 & Hrun1 & Hout1 & Hframe1 & Hsub1).
  destruct (update_branches_summary repository r1)
    as (o2 & r2 & Hrun2 & Hframe2 & Hbr2).
  assert (Hc1 : dict_get "is_cloned" r1 = Some (VBool true))
    by (rewrite Hframe1 by discriminate; done).
  assert (Hu1 : dict_get "is_submodules_updated" r1 = Some (VBool false))
    by (rewrite Hframe1 by discriminate; done).
  assert (Hb1 : dict_get "is_branches_updated" r1 = Some (VBool false))
    by (rewrite Hframe1 by discriminate; done).
  assert (Hsucc1 : dict_get "success" r1 = Some (VBool false))
    by (rewrite Hframe1 by discriminate; done).
  assert (Hc2 : dict_get "is_cloned" r2 = Some (VBool true))
    by (rewrite Hframe2 by discriminate; done).
  assert (Hu2 : dict_get "is_submodules_updated" r2 = Some (VBool false))
    by (rewrite Hframe2 by discriminate; done).
  assert (Hsucc2 : dict_get "success" r2 = Some (VBool false))
    by (rewrite Hframe2 by discriminate; done).
  assert (Hs2 : exists l, dict_get "submodules" r2 = Some (VList l)).
  { rewrite Hframe2 by discriminate.
    destruct Hsub1 as [->|(s & l & ->)]; eauto. }
  destruct Hs2 as [l Hs2].
  assert (Hb2 : exists b, dict_get "is_branches_updated" r2 = Some (VBool b)
                   /\ (b = true -> o2 = Ok tt)).
  { destruct Hbr2 as [->|[-> ->]]; [|by exists true].
    exists false. split; [done | discriminate]. }
  destruct Hb2 as (b & Hb2 & Hb2ok).
  (* the record when the handlers ran after an exception *)
  assert (Hraised : forall e r',
    run = (Raise e, r') ->
    dict_get "success" r' = Some (VBool false) ->
    dict_get "is_cloned" r' = Some (VBool true) ->
    dict_get "is_submodules_updated" r' = Some (VBool false) ->
    flag "is_cloned" (worker_handlers run) = true
    /\ flag "is_submodules_updated" (worker_handlers run) = false
    /\ (flag "success" (worker_handlers run) = true <->
        flag "submodules" (worker_handlers run) = false
        /\ flag "is_branches_updated" (worker_handlers run) = true
        /\ is_Ok (fst run) = true)
    /\ flag "is_branches_updated" (worker_handlers run)
       = flag "is_branches_updated" r'
    /\ (exists b, dict_get "success" (worker_handlers run) = Some (VBool b))).
  { intros e r' -> H1 H2 H3. split; [|split; [|split; [|split]]].
    - unfold flag. rewrite worker_handlers_frame by discriminate.
      simpl. by rewrite H2.
    - unfold flag. rewrite worker_handlers_frame by discriminate.
      simpl. by rewrite H3.
    - assert (flag "success" (worker_handlers (Raise e, r')) = false) as ->
        by (unfold flag; by rewrite worker_handlers_raise_get).
      simpl. split; [discriminate | intros (_ & _ & ?); discriminate].
    - unfold flag. by rewrite worker_handlers_frame by discriminate.
    - exists false. by apply worker_handlers_raise_get. }
  destruct Hout1 as [->|(e & He & ->)].
  2:{ assert (Hrun : run = (Raise e, r1))
        by (unfold run, after_clone, bindW; by rewrite Hrun1).
      destruct (Hraised e r1 Hrun Hsucc1 Hc1 Hu1) as (? & ? & ? & Hbr & ?).
      repeat (split; [done|]). split; [|done]. intros _ _. rewrite Hbr.
      by rewrite (flag_of_get _ _ _ Hb1). }
  destruct o2 as [[]|e].
  2:{ assert (Hrun : run = (Raise e, r2))
        by (unfold run, after_clone, bindW; by rewrite Hrun1, Hrun2).
      destruct (Hraised e r2 Hrun Hsucc2 Hc2 Hu2) as (? & ? & ? & Hbr & ?).
      repeat (split; [done|]). split; [|done]. intros _ _. rewrite Hbr.
      rewrite (flag_of_get _ _ _ Hb2). destruct b; [|done].
      specialize (Hb2ok eq_refl). discriminate. }
  pose proof (Hextra r2) as Hex.
  destruct (extra r2) as [[[]|e] r2'] eqn:Hex2; simpl in Hex; subst r2'.
  2:{ assert (Hrun : run = (Raise e, r2))
        by (unfold run, after_clone, bindW; by rewrite Hrun1, Hrun2, Hex2).
      destruct (Hraised e r2 Hrun Hsucc2 Hc2 Hu2) as (? & ? & ? & Hbr & ?).
      repeat (split; [done|]). split; [|done]. intros Hnever _.
      specialize (Hnever r2). rewrite Hex2 in Hnever. discriminate. }
  assert (Hrun : run = (Ok tt,
            dict_set "success"
              (VBool (true && (bool_is (truthy (VList l)) (VBool false)
                               && truthy (VBool b)))) r2)).
  { unfold run, after_clone, bindW. rewrite Hrun1, Hrun2, Hex2.
    exact (set_success_run r2 _ _ _ _ Hc2 Hs2 Hu2 Hb2). }
  rewrite Hrun. cbn [fst snd is_Ok worker_handlers truthy bool_is andb].
  split; [|split; [|split; [|split]]].
  - rewrite flag_set_ne by discriminate. by rewrite (flag_of_get _ _ _ Hc2).
  - rewrite flag_set_ne by discriminate. by rewrite (flag_of_get _ _ _ Hu2).
  - rewrite flag_set_eq. rewrite !flag_set_ne by discriminate.
    rewrite (flag_of_get _ _ _ Hs2), (flag_of_get _ _ _ Hb2).
    cbn [truthy]. destruct l, b; simpl; intuition congruence.
  - discriminate.
  - eexists. apply dict_get_set_eq.
Qed.
End CloneSuccess.

Section CloneKinds.
Import Py Objects Clone CloneSpec.
Implicit Types (r : list (string * pyval)) (e : exn) (env : Env).

(** reading a key of a record built by assignments to named keys *)
Ltac read_record :=
  repeat (rewrite dict_get_set_ne by discriminate);
  try rewrite dict_get_set_eq;
  try reflexivity.

Lemma call_keeps_record {A : Type} (c : res A) r : snd (call c r) = r.
Proof. done. Qed.

(** The [try] block of [clone_project], by the outcome of the clone. *)
Lemma clone_project_try_run env (project : Project) (target_path : string) :
  let header :=
    dict_set "project_path" (VStr target_path)
      (dict_set "project_id" (VInt (project_id project))
         (dict_set "project_url" (VStr (project_web_url project))
            (dict_set "project_name" (VStr (project_name project))
               project_result_init))) in
  clone_project_try env (project, target_path) project_result_init
  = match clone_from env (project_web_url project) target_path with
    | Ok repository =>
        after_clone
          (call (dump_json env
                   (target_path +:+ "/../project_"
                    +:+ str_of_int (project_id project) +:+ ".json")))
          repository (dict_set "is_cloned" (VBool true) header)
    | Raise e => if is_Exception e then (Ok tt, header) else (Raise e, header)
    end.
Proof.
  unfold clone_project_try, after_clone, bindW, setitem, try_except_Exception,
    call, ret.
  destruct (clone_from env _ _) as [repository|e]; [done|].
  by destruct (is_Exception e).
Qed.

Lemma clone_wiki_try_run env (obj : WikiOwner) (target_path : string) :
  let header :=
    dict_set "wiki_path" (VStr target_path)
      (dict_set "wiki_id" (VInt (owner_id obj))
         (dict_set "wiki_url" (VStr (owner_web_url obj +:+ ".wiki.git"))
            (dict_set "wiki_name" (VStr (owner_name obj +:+ " Wiki"))
               wiki_result_init))) in
  clone_wiki_try env (obj, target_path) wiki_result_init
  = match clone_from env (owner_web_url obj +:+ ".wiki.git") target_path with
    | Ok repository =>
        after_clone (ret tt) repository
          (dict_set "is_cloned" (VBool true) header)
    | Raise e => if is_Exception e then (Ok tt, header) else (Raise e, header)
    end.
Proof.
  unfold clone_wiki_try, after_clone, bindW, setitem, try_except_Exception,
    call, ret.
  destruct (clone_from env _ _) as [repository|e]; [done|].
  by destruct (is_Exception e).
Qed.

(** A project: [success] implies the three conditions, and the three
    conditions imply [success] when no submodule was found and the
    attempt ran to its end. *)
Lemma clone_project_success env (args : Project * string) :
  let r := clone_project env args in
  (flag "success" r = true ->
     flag "is_cloned" r = true
     /\ (flag "submodules" r = false \/ flag "is_submodules_updated" r = true)
     /\ flag "is_branches_updated" r = true
     /\ project_attempt_completed env args = true)
  /\ (project_attempt_completed env args = true ->
      flag "is_cloned" r = true -> flag "submodules" r = false ->
      flag "is_branches_updated" r = true -> flag "success" r = true).
Proof.
  destruct args as [project target_path].
  unfold clone_project, project_attempt_completed.
  rewrite clone_project_try_run. cbv zeta.
  destruct (clone_from env _ _) as [repository|e].
  - match goal with
    | |- context [after_clone ?x repository ?r0] =>
        destruct (after_clone_success x repository r0) as (Hc & Hu & Hiff & _ & _);
          [apply call_keeps_record | read_record ..|]
    end.
    split.
    + intros Hs. apply Hiff in Hs as (? & ? & ?). auto.
    + intros Hok _ Hs Hb. apply Hiff. auto.
  - destruct (is_Exception e) eqn:He.
    + cbn [worker_handlers fst is_Ok]. split; [|intros _]; unfold flag;
        read_record; discriminate.
    + cbn [fst is_Ok]. split; [|discriminate].
      rewrite worker_handlers_raise; [discriminate|].
      unfold flag. read_record.
Qed.

(** A wiki: the three conditions and [success] are equivalent. *)
Lemma clone_wiki_success env (args : WikiOwner * string) :
  let r := clone_wiki env args in
  flag "is_submodules_updated" r = false
  /\ (flag "success" r = true <->
      flag "is_cloned" r = true
      /\ flag "submodules" r = false
      /\ flag "is_branches_updated" r = true).
Proof.
  destruct args as [obj target_path].
  unfold clone_wiki. rewrite clone_wiki_try_run. cbv zeta.
  destruct (clone_from env _ _) as [repository|e].
  - match goal with
    | |- context [after_clone ?x repository ?r0] =>
        destruct (after_clone_success x repository r0)
          as (Hc & Hu & Hiff & Hraise & _);
          [done | read_record ..|]
    end.
    split; [done|]. rewrite Hiff. split.
    + intros (? & ? & ?). auto.
    + intros (_ & Hs & Hb). split; [done|]. split; [done|].
      destruct (is_Ok _) eqn:Hok; [done|].
      rewrite Hraise in Hb; done.
  - destruct (is_Exception e) eqn:He.
    + cbn [worker_handlers]. unfold flag. read_record.
      split; [done|]. split; [discriminate | intros (? & _); discriminate].
    + split.
      * unfold flag. rewrite worker_handlers_frame by discriminate.
        cbn [snd]. read_record.
      * rewrite worker_handlers_raise by (unfold flag; read_record).
        unfold flag at 1. rewrite worker_handlers_frame by discriminate.
        cbn [snd]. read_record.
        split; [discriminate | intros (? & _); discriminate].
Qed.

(** A snippet: its record has no flag for submodules or branches;
    [success] says that it was cloned and that the attempt ran to its
    end. *)
Lemma clone_snippet_success env (args : Snippet * string) :
  let r := clone_snippet env args in
  dict_get "is_branches_updated" r = None
  /\ dict_get "submodules" r = None
  /\ (flag "success" r = true <->
      flag "is_cloned" r = true
      /\ snippet_attempt_completed env args = true).
Proof.
  destruct args as [snippet target_path].
  unfold clone_snippet, snippet_attempt_completed, clone_snippet_try.
  unfold bindW, setitem, try_except_Exception, call, ret, getitem.
  destruct (clone_from env _ _) as [repository|e].
  - destruct (dump_json env _) as [[]|e].
    + rewrite dict_get_set_eq. cbn [worker_handlers fst is_Ok truthy].
      unfold flag. read_record. done.
    + cbn [fst is_Ok].
      rewrite worker_handlers_raise by (unfold flag; read_record).
      rewrite !worker_handlers_frame by discriminate. cbn [snd].
      read_record. split; [done|]. split; [done|].
      split; [discriminate | intros (_ & ?); discriminate].
  - destruct (is_Exception e) eqn:He.
    + cbn [worker_handlers fst is_Ok]. unfold flag. read_record.
      split; [done|]. split; [done|].
      split; [discriminate | intros (? & _); discriminate].
    + cbn [fst is_Ok].
      rewrite worker_handlers_raise by (unfold flag; read_record).
      rewrite !worker_handlers_frame by discriminate. cbn [snd].
      read_record. split; [done|]. split; [done|].
      split; [discriminate | intros (_ & ?); discriminate].
Qed.
End CloneKinds.

Section CloneRaised.
Import Py Objects Clone CloneSpec.
Implicit Types (r : list (string * pyval)) (e : exn) (env : Env).

Ltac read_record :=
  repeat (rewrite dict_get_set_ne by discriminate);
  try rewrite dict_get_set_eq;
  try reflexivity.

(** Every worker answers with a record that holds a boolean [success]. *)
Lemma clone_project_has_success env (args : Project * string) :
  exists b, dict_get "success" (clone_project env args) = Some (VBool b).
Proof.
  destruct args as [project target_path].
  unfold clone_project. rewrite clone_project_try_run. cbv zeta.
  destruct (clone_from env _ _) as [repository|e].
  - match goal with
    | |- context [after_clone ?x repository ?r0] =>
        destruct (after_clone_success x repository r0) as (_ & _ & _ & _ & Hb);
          [apply call_keeps_record | read_record ..|]
    end.
    exact Hb.
  - exists false. destruct (is_Exception e).
    + cbn [worker_handlers]. read_record.
    + apply worker_handlers_raise_get. read_record.
Qed.

Lemma clone_wiki_has_success env (args : WikiOwner * string) :
  exists b, dict_get "success" (clone_wiki env args) = Some (VBool b).
Proof.
  destruct args as [obj target_path].
  unfold clone_wiki. rewrite clone_wiki_try_run. cbv zeta.
  destruct (clone_from env _ _) as [repository|e].
  - match goal with
    | |- context [after_clone ?x repository ?r0] =>
        destruct (after_clone_success x repository r0) as (_ & _ & _ & _ & Hb);
          [done | read_record ..|]
    end.
    exact Hb.
  - exists false. destruct (is_Exception e).
    + cbn [worker_handlers]. read_record.
    + apply worker_handlers_raise_get. read_record.
Qed.

Lemma clone_snippet_has_success env (args : Snippet * string) :
  exists b, dict_get "success" (clone_snippet env args) = Some (VBool b).
Proof.
  destruct args as [snippet target_path].
  unfold clone_snippet, clone_snippet_try.
  unfold bindW, setitem, try_except_Exception, call, ret, getitem.
  destruct (clone_from env _ _) as [repository|e].
  - destruct (dump_json env _) as [[]|e].
    + rewrite dict_get_set_eq. cbn [worker_handlers]. eexists. read_record.
    + exists false. apply worker_handlers_raise_get. read_record.
  - exists false. destruct (is_Exception e).
    + cbn [worker_handlers]. read_record.
    + apply worker_handlers_raise_get. read_record.
Qed.

Lemma flag_false_of_bool k r b :
  dict_get k r = Some (VBool b) -> flag k r <> true ->
  dict_get k r = Some (VBool false).
Proof.
  intros Hget Hflag. unfold flag in Hflag. rewrite Hget in Hflag.
  destruct b; [by destruct Hflag | done].
Qed.

(** A worker whose [try] block was left by an exception, expected or
    not, an interrupt included, still answers, with [success] false. *)
Lemma clone_project_raised env (args : Project * string) :
  project_attempt_completed env args = false ->
  dict_get "success" (clone_project env args) = Some (VBool false).
Proof.
  intros Hraised. destruct (clone_project_has_success env args) as [b Hb].
  apply (flag_false_of_bool _ _ b Hb). intros Hs.
  apply (proj1 (clone_project_success env args)) in Hs as (_ & _ & _ & Hc).
  congruence.
Qed.

Lemma clone_snippet_raised env (args : Snippet * string) :
  snippet_attempt_completed env args = false ->
  dict_get "success" (clone_snippet env args) = Some (VBool false).
Proof.
  intros Hraised. destruct (clone_snippet_has_success env args) as [b Hb].
  apply (flag_false_of_bool _ _ b Hb). intros Hs.
  destruct (clone_snippet_success env args) as (_ & _ & Hiff).
  apply Hiff in Hs as (_ & Hc). congruence.
Qed.

Lemma clone_wiki_raised env (args : WikiOwner * string) :
  wiki_attempt_completed env args = false ->
  dict_get "success" (clone_wiki env args) = Some (VBool false).
Proof.
  intros Hraised. destruct (clone_wiki_has_success env args) as [b Hb].
  apply (flag_false_of_bool _ _ b Hb). intros Hs.
  destruct args as [obj target_path].
  unfold wiki_attempt_completed in Hraised. unfold clone_wiki in Hs.
  rewrite clone_wiki_try_run in Hraised, Hs. cbv zeta in Hraised, Hs.
  destruct (clone_from env _ _) as [repository|e].
  - match type of Hs with
    | context [after_clone ?x repository ?r0] =>
        destruct (after_clone_success x repository r0) as (_ & _ & Hiff & _);
          [done | read_record ..|]
    end.
    apply Hiff in Hs as (_ & _ & Hc). congruence.
  - destruct (is_Exception e); [done|].
    rewrite worker_handlers_raise in Hs; [done|]. unfold flag. read_record.
Qed.
End CloneRaised.

Section CloneOrchestrators.
Import Py Objects Clone CloneSpec.
Implicit Types (env : Env) (backup_dir : string).

Lemma Pool_map_Ok {A B : Type} (processes : Z) (f : A -> B) xs rs :
  Pool_map processes f xs = Ok rs -> 1 <= processes /\ rs = map f xs.
Proof.
  unfold Pool_map. destruct (Z.ltb_spec processes 1); [done|].
  intros [= <-]. done.
Qed.

(** the pool starts exactly on a machine with three cores or more *)
Lemma pool_processes_Ok env n :
  cpu_count env = Some n -> pool_processes env = Ok (Z.min 1 (n - 2)).
Proof. unfold pool_processes. by intros ->. Qed.

Lemma pool_starts env n :
  cpu_count env = Some n -> 3 <= n -> pool_processes env = Ok 1.
Proof.
  intros Hn Hge. rewrite (pool_processes_Ok env n Hn). f_equal. lia.
Qed.

(** The list handed to [json.dump] is the list of the workers' records,
    in the order of [values()]. *)
Lemma clone_projects_Ok {K : Type} env (projects : list (K * Project))
    backup_dir results :
  clone_projects env projects backup_dir = Ok results ->
  results = map (project_worker env backup_dir) (dict_values projects).
Proof.
  unfold clone_projects, bind.
  destruct (pool_processes env) as [n|]; [|done].
  destruct (Pool_map n _ _) as [rs|] eqn:Hmap; [|done].
  destruct (dump_json env _); [|done]. intros [= <-].
  apply Pool_map_Ok in Hmap as [_ ->]. by rewrite map_map.
Qed.

Lemma clone_wikis_Ok {K : Type} env (obj : list (K * WikiOwner))
    backup_dir results :
  clone_wikis env obj backup_dir = Ok results ->
  results = map (wiki_worker env backup_dir) (dict_values obj).
Proof.
  unfold clone_wikis, bind.
  destruct (pool_processes env) as [n|]; [|done].
  destruct (Pool_map n _ _) as [rs|] eqn:Hmap; [|done].
  destruct (dump_json env _); [|done]. intros [= <-].
  apply Pool_map_Ok in Hmap as [_ ->]. by rewrite map_map.
Qed.

Lemma clone_snippets_Ok {K : Type} env (snippets : list (K * Snippet))
    backup_dir results :
  clone_snippets env snippets backup_dir = Ok results ->
  results = map (snippet_worker env backup_dir) (dict_values snippets).
Proof.
  unfold clone_snippets, bind.
  destruct (mkdir env _); [|done].
  destruct (pool_processes env) as [n|]; [|done].
  destruct (Pool_map n _ _) as [rs|] eqn:Hmap; [|done].
  destruct (dump_json env _); [|done]. intros [= <-].
  apply Pool_map_Ok in Hmap as [_ ->]. by rewrite map_map.
Qed.

(** When the pool starts and [results.json] can be written, the
    orchestrator does write it. *)
Lemma clone_projects_writes {K : Type} env n (projects : list (K * Project))
    backup_dir :
  cpu_count env = Some n -> 3 <= n ->
  dump_json env (path_join backup_dir "results.json") = Ok tt ->
  clone_projects env projects backup_dir
  = Ok (map (project_worker env backup_dir) (dict_values projects)).
Proof.
  intros Hn Hge Hdump. unfold clone_projects.
  rewrite (pool_starts env n Hn Hge). cbn [bind]. unfold Pool_map.
  cbn [Z.ltb Z.compare Pos.compare]. cbn [bind]. rewrite Hdump. cbn [bind].
  by rewrite map_map.
Qed.

Lemma clone_wikis_writes {K : Type} env n (obj : list (K * WikiOwner))
    backup_dir :
  cpu_count env = Some n -> 3 <= n ->
  dump_json env (path_join backup_dir "results.json") = Ok tt ->
  clone_wikis env obj backup_dir
  = Ok (map (wiki_worker env backup_dir) (dict_values obj)).
Proof.
  intros Hn Hge Hdump. unfold clone_wikis.
  rewrite (pool_starts env n Hn Hge). cbn [bind]. unfold Pool_map.
  cbn [Z.ltb Z.compare Pos.compare]. cbn [bind]. rewrite Hdump. cbn [bind].
  by rewrite map_map.
Qed.

Lemma clone_snippets_writes {K : Type} env n (snippets : list (K * Snippet))
    backup_dir :
  cpu_count env = Some n -> 3 <= n ->
  mkdir env (path_join backup_dir "snippets") = Ok tt ->
  dump_json env (path_join (path_join backup_dir "snippets") "results.json")
  = Ok tt ->
  clone_snippets env snippets backup_dir
  = Ok (map (snippet_worker env backup_dir) (dict_values snippets)).
Proof.
  intros Hn Hge Hmk Hdump. unfold clone_snippets.
  rewrite Hmk. cbn [bind].
  rewrite (pool_starts env n Hn Hge). cbn [bind]. unfold Pool_map.
  cbn [Z.ltb Z.compare Pos.compare]. cbn [bind]. rewrite Hdump. cbn [bind].
  by rewrite map_map.
Qed.
End CloneOrchestrators.

Section CloneClaims.
Import Py Objects Clone CloneSpec.
Implicit Types (env : Env) (backup_dir : string).

(** The update of the submodules is recorded under the key
    [is_submodules_cloned], a key that [success] does not read:
    [is_submodules_updated] stays false, and a repository with a
    submodule never has [success], although every command succeeded. *)
Lemma submodule_update_recorded_under_other_key :
  let r := clone_project (healthy_env repo_with_submodule)
             (sample_project, "/backup/org/proj") in
  project_attempt_completed (healthy_env repo_with_submodule)
    (sample_project, "/backup/org/proj") = true
  /\ dict_get "is_cloned" r = Some (VBool true)
  /\ dict_get "submodules" r
     = Some (VList ["https://forge.example/org/lib.git"])
  /\ dict_get "is_submodules_cloned" r = Some (VBool true)
  /\ dict_get "is_submodules_updated" r = Some (VBool false)
  /\ dict_get "is_branches_updated" r = Some (VBool true)
  /\ dict_get "success" r = Some (VBool false).
Proof. vm_compute. repeat split. Qed.

(** C1, counterexample. The project is cloned, has no submodule and its
    single branch counts as updated, but its sidecar document cannot be
    written: the handler of the worker leaves [success] false, while the
    three conditions of the claim hold. *)
Lemma sidecar_failure_breaks_success_iff :
  ~ success_iff_flags
      (clone_project sidecar_denied_env (sample_project, "/backup/org/proj")).
Proof.
  unfold success_iff_flags. vm_compute. intros [_ H].
  assert (Habs : false = true) by (apply H; repeat split; by left).
  discriminate.
Qed.

(** C1, amended. For the record of a project or of a wiki, [success]
    implies that the item was cloned, that its submodule list is empty
    or its submodules were updated, and that its branches were updated.
    Conversely, an item that was cloned, has an empty submodule list and
    updated branches has [success], for a project provided that the
    attempt ran to its end (no unexpected error or interrupt, such as a
    sidecar document that cannot be written). The record of a snippet
    has no flag for submodules or branches: it has [success] exactly
    when the snippet was cloned and the attempt ran to its end. *)
Theorem clone_result_success env :
  (forall args : Project * string,
     let r := clone_project env args in
     (flag "success" r = true ->
        flag "is_cloned" r = true
        /\ (flag "submodules" r = false
            \/ flag "is_submodules_updated" r = true)
        /\ flag "is_branches_updated" r = true)
     /\ (project_attempt_completed env args = true ->
         flag "is_cloned" r = true -> flag "submodules" r = false ->
         flag "is_branches_updated" r = true -> flag "success" r = true))
  /\ (forall args : WikiOwner * string,
        let r := clone_wiki env args in
        (flag "success" r = true ->
           flag "is_cloned" r = true
           /\ (flag "submodules" r = false
               \/ flag "is_submodules_updated" r = true)
           /\ flag "is_branches_updated" r = true)
        /\ (flag "is_cloned" r = true -> flag "submodules" r = false ->
            flag "is_branches_updated" r = true -> flag "success" r = true))
  /\ (forall args : Snippet * string,
        let r := clone_snippet env args in
        flag "success" r = true <->
        flag "is_cloned" r = true
        /\ snippet_attempt_completed env args = true).
Proof.
  split; [|split].
  - intros args r. destruct (clone_project_success env args) as [Ha Hb].
    split; [|exact Hb]. intros Hs. destruct (Ha Hs) as (? & ? & ? & _). auto.
  - intros args r. destruct (clone_wiki_success env args) as [_ Hiff].
    split.
    + intros Hs. apply Hiff in Hs as (? & ? & ?). auto.
    + intros ? ? ?. apply Hiff. auto.
  - intros args r. by destruct (clone_snippet_success env args) as (_ & _ & ?).
Qed.

(** The pool never has more than one worker, and on a machine with one
    or two cores it cannot be created. *)
Lemma pool_size_at_most_one env n :
  cpu_count env = Some n ->
  pool_processes env = Ok (Z.min 1 (n - 2))
  /\ (4 <= n -> Z.min 1 (n - 2) = 1 /\ 1 < intended_pool_size n)
  /\ (n <= 2 -> forall (A B : Type) (f : A -> B) xs,
        Pool_map (Z.min 1 (n - 2)) f xs = Raise ValueError).
Proof.
  intros Hn. split; [by apply pool_processes_Ok|]. split.
  - unfold intended_pool_size. lia.
  - intros Hle A B f xs. unfold Pool_map.
    destruct (Z.ltb_spec (Z.min 1 (n - 2)) 1); [done | lia].
Qed.

(** C2. On a machine with eight cores the orchestrators size the pool to
    [min(1, 8 - 2)], one worker, where the claim asks for
    [max(1, 8 - 2)], six workers; on a machine with two cores the pool is
    refused and no item is cloned. *)
Theorem pool_size_on_eight_cores :
  pool_processes (healthy_env plain_repo) = Ok 1
  /\ intended_pool_size 8 = 6
  /\ clone_projects two_core_env five_projects "/backup" = Raise ValueError.
Proof. vm_compute. repeat split. Qed.

(** C3. On a machine where the pool starts (three cores or more, given
    the size above) and where [results.json] can be written, each
    orchestrator writes a list with exactly one record per item of its
    input mapping; the record of an item whose worker was left by an
    exception or an interrupt is there as well, with [success] false. *)
Theorem clone_results_cardinality env n backup_dir :
  cpu_count env = Some n -> 3 <= n ->
  dump_json env (path_join backup_dir "results.json") = Ok tt ->
  mkdir env (path_join backup_dir "snippets") = Ok tt ->
  dump_json env (path_join (path_join backup_dir "snippets") "results.json")
  = Ok tt ->
  (forall (K : Type) (projects : list (K * Project)),
     exists results,
       clone_projects env projects backup_dir = Ok results
       /\ length results = length projects
       /\ forall (i : nat) project,
            dict_values projects !! i = Some project ->
            project_attempt_completed env
              (project,
               path_join backup_dir (project_path_with_namespace project))
            = false ->
            exists r, results !! i = Some r
                      /\ dict_get "success" r = Some (VBool false))
  /\ (forall (K : Type) (obj : list (K * WikiOwner)),
        exists results,
          clone_wikis env obj backup_dir = Ok results
          /\ length results = length obj
          /\ forall (i : nat) o,
               dict_values obj !! i = Some o ->
               wiki_attempt_completed env
                 (o, path_join backup_dir
                       (owner_path_with_namespace o +:+ ".wiki"))
               = false ->
               exists r, results !! i = Some r
                         /\ dict_get "success" r = Some (VBool false))
  /\ (forall (K : Type) (snippets : list (K * Snippet)),
        exists results,
          clone_snippets env snippets backup_dir = Ok results
          /\ length results = length snippets
          /\ forall (i : nat) snippet,
               dict_values snippets !! i = Some snippet ->
               snippet_attempt_completed env
                 (snippet,
                  path_join (path_join backup_dir "snippets")
                    (str_of_int (snippet_id snippet)))
               = false ->
               exists r, results !! i = Some r
                         /\ dict_get "success" r = Some (VBool false)).
Proof.
  intros Hn Hge Hdump Hmk Hdump'. split; [|split].
  - intros K projects. eexists. split.
    { by apply (clone_projects_writes env n). }
    split. { unfold dict_values. by rewrite !length_map. }
    intros i project Hi Hraised. eexists. split.
    + rewrite list_lookup_fmap, Hi. reflexivity.
    + by apply clone_project_raised.
  - intros K obj. eexists. split.
    { by apply (clone_wikis_writes env n). }
    split. { unfold dict_values. by rewrite !length_map. }
    intros i o Hi Hraised. eexists. split.
    + rewrite list_lookup_fmap, Hi. reflexivity.
    + by apply clone_wiki_raised.
  - intros K snippets. eexists. split.
    { by apply (clone_snippets_writes env n). }
    split. { unfold dict_values. by rewrite !length_map. }
    intros i snippet Hi Hraised. eexists. split.
    + rewrite list_lookup_fmap, Hi. reflexivity.
    + by apply clone_snippet_raised.
Qed.

(** Five projects on a four-core machine: the third worker is left by an
    unexpected error, the fourth by an interrupt. *)
Lemma clone_results_cardinality_witness :
  exists results,
    clone_projects third_fails_env five_projects "/backup" = Ok results
    /\ length results = 5%nat
    /\ map (flag "success") results = [true; true; false; false; true].
Proof.
  destruct (clone_results_cardinality third_fails_env 4 "/backup")
    as [Hp _]; [reflexivity | lia | reflexivity ..|].
  destruct (Hp Z five_projects) as (results & Hrun & Hlen & _).
  exists results. split; [exact Hrun|]. split; [exact Hlen|].
  apply clone_projects_Ok in Hrun. rewrite Hrun. vm_compute. reflexivity.
Defined.

(** C10. The list written to [results.json] follows the input: its
    [i]-th element is the record that the worker makes of the [i]-th
    value of the input mapping. *)
Theorem clone_results_in_input_order env backup_dir :
  (forall (K : Type) (projects : list (K * Project)) results (i : nat),
     clone_projects env projects backup_dir = Ok results ->
     results !! i
     = project_worker env backup_dir <$> (dict_values projects !! i))
  /\ (forall (K : Type) (obj : list (K * WikiOwner)) results (i : nat),
        clone_wikis env obj backup_dir = Ok results ->
        results !! i = wiki_worker env backup_dir <$> (dict_values obj !! i))
  /\ (forall (K : Type) (snippets : list (K * Snippet)) results (i : nat),
        clone_snippets env snippets backup_dir = Ok results ->
        results !! i
        = snippet_worker env backup_dir <$> (dict_values snippets !! i)).
Proof.
  split; [|split]; intros K items results i Hrun.
  - apply clone_projects_Ok in Hrun as ->. apply list_lookup_fmap.
  - apply clone_wikis_Ok in Hrun as ->. apply list_lookup_fmap.
  - apply clone_snippets_Ok in Hrun as ->. apply list_lookup_fmap.
Qed.

(** The names in the list written for the five projects, in order. *)
Lemma clone_results_in_input_order_witness :
  exists results,
    clone_projects third_fails_env five_projects "/backup" = Ok results
    /\ map (dict_get "project_name") results
       = map (fun p => Some (VStr (project_name p)))
             (dict_values five_projects).
Proof.
  assert (Hrun : clone_projects third_fails_env five_projects "/backup"
                 = Ok (map (project_worker third_fails_env "/backup")
                           (dict_values five_projects)))
    by (apply (clone_projects_writes third_fails_env 4);
        [reflexivity | lia | reflexivity]).
  set (results := map (project_worker third_fails_env "/backup")
                      (dict_values five_projects)) in Hrun.
  exists results. split; [exact Hrun|].
  apply list_eq. intros i.
  rewrite (list_lookup_fmap (dict_get "project_name") results i).
  rewrite (proj1 (clone_results_in_input_order third_fails_env "/backup")
             Z five_projects results i Hrun).
  destruct i as [|[|[|[|[|i]]]]]; vm_compute; reflexivity.
Defined.
End CloneClaims.

(* ================================================================== *)
(** * Properties of [foxysafe/gitlab/download.py]                      *)
(* ================================================================== *)

Section FindMatches.
Import Py Objects Download DownloadSpec.
Implicit Types (obj : pyobj) (pattern : Pattern) (found : list string).

(** Induction on JSON-like values, with the hypothesis for every element
    of a list and every value of a dictionary. *)
Lemma pyobj_nested_ind (P : pyobj -> Prop) :
  P PNone -> (forall b, P (PBool b)) -> (forall n, P (PInt n)) ->
  (forall s, P (PStr s)) ->
  (forall l, Forall P l -> P (PList l)) ->
  (forall d, Forall (fun kv => P (snd kv)) d -> P (PDict d)) ->
  forall obj, P obj.
Proof.
  intros HNone HBool HInt HStr HList HDict.
  fix IH 1. intros [ | b | n | s | l | d ].
  - exact HNone.
  - apply HBool.
  - apply HInt.
  - apply HStr.
  - apply HList. induction l as [|x l IHl]; constructor; [apply IH | exact IHl].
  - apply HDict. induction d as [|[k v] d IHd]; constructor;
      [apply IH | exact IHd].
Qed.

(** What the function computes when no call is refused: the matches of
    the strings of the value, in the order of the traversal, appended to
    [found]. *)
Lemma find_matches_unchecked_spec obj pattern found :
  find_matches_unchecked obj pattern found
  = found ++ flat_map pattern (strings_of obj).
Proof.
  revert found. induction obj as [ | b | n | s | l IH | d IH ]
    using pyobj_nested_ind; intros found; cbn [find_matches_unchecked strings_of flat_map].
  1-3: by rewrite app_nil_r.
  - by rewrite app_nil_r.
  - revert found. induction IH as [|x l Hx _ IHl]; intros found; cbn.
    + by rewrite app_nil_r.
    + rewrite Hx. cbn in IHl. rewrite IHl.
      by rewrite flat_map_app, app_assoc.
  - revert found. induction IH as [|[k v] d Hv _ IHd]; intros found; cbn.
    + by rewrite app_nil_r.
    + cbn in Hv. rewrite Hv. cbn in IHd. rewrite IHd.
      by rewrite flat_map_app, app_assoc.
Qed.

(** On a value whose leaves are strings or [None], no call is refused
    and the decorated function answers with the same list. *)
Lemma find_matches_hinted obj pattern found :
  all_hinted obj = true ->
  find_matches obj pattern (Some found)
  = Ok (find_matches_unchecked obj pattern found).
Proof.
  revert found. induction obj as [ | b | n | s | l IH | d IH ]
    using pyobj_nested_ind; intros found Hh; try done.
  - cbn [find_matches obj_hint find_matches_unchecked].
    cbn [all_hinted] in Hh. revert found.
    induction IH as [|x l Hx _ IHl]; intros found; [done|].
    cbn [forallb] in Hh. apply andb_prop in Hh as [Hhx Hhl].
    rewrite (Hx found Hhx). cbn [bind]. by apply IHl.
  - cbn [find_matches obj_hint find_matches_unchecked].
    cbn [all_hinted] in Hh. revert found.
    induction IH as [|[k v] d Hv _ IHd]; intros found; [done|].
    cbn [forallb snd] in Hh. apply andb_prop in Hh as [Hhv Hhd].
    cbn [snd] in Hv. rewrite (Hv found Hhv). cbn [bind]. by apply IHd.
Qed.

(** a value without strings has no match *)
Lemma strings_of_no_strings obj : no_strings obj = true -> strings_of obj = [].
Proof.
  induction obj as [ | b | n | s | l IH | d IH ] using pyobj_nested_ind;
    try done; cbn [no_strings strings_of]; intros Hn.
  - induction IH as [|x l Hx _ IHl]; [done|].
    cbn [forallb] in Hn. apply andb_prop in Hn as [Hnx Hnl].
    cbn [flat_map]. by rewrite (Hx Hnx), (IHl Hnl).
  - induction IH as [|[k v] d Hv _ IHd]; [done|].
    cbn [forallb snd] in Hn. apply andb_prop in Hn as [Hnv Hnd].
    cbn [flat_map snd]. cbn [snd] in Hv. by rewrite (Hv Hnv), (IHd Hnd).
Qed.

(** Where the wrapper lets every call pass, the function does what is
    asked of it: every match of every string leaf, [None] leaves passed
    over, the empty list for a value without strings. *)
Lemma find_matches_on_hinted_values obj pattern :
  all_hinted obj = true ->
  find_matches obj pattern None = Ok (flat_map pattern (strings_of obj))
  /\ (no_strings obj = true -> find_matches obj pattern None = Ok []).
Proof.
  intros Hh.
  assert (Hrun : find_matches obj pattern None
                 = Ok (flat_map pattern (strings_of obj))).
  { transitivity (find_matches obj pattern (Some [])).
    - by destruct obj.
    - rewrite find_matches_hinted by done.
      by rewrite find_matches_unchecked_spec. }
  split; [done|]. intros Hn. rewrite Hrun.
  by rewrite strings_of_no_strings.
Qed.

(** C5. The body of [find_matches] passes over a leaf that is neither a
    container nor a string, but the call that reaches the leaf goes
    through the wrapper of [@beartype], which tests it against
    [None | str | list | dict[str, Any]]: on the value of the claim,
    [{"a": ["uploads/x.png", 5, null]}], the call for the leaf [5] is
    refused and the function raises, as it does on a value without
    strings that holds a number or a boolean. The body alone answers
    with [["uploads/x.png"]], and so does the function when the number
    is taken out. *)
Theorem find_matches_refuses_number_leaves :
  find_matches mixed_leaves FILE_UPLOAD_PATTERN None
  = Raise BeartypeCallHintParamViolation
  /\ find_matches without_strings FILE_UPLOAD_PATTERN None
     = Raise BeartypeCallHintParamViolation
  /\ find_matches_unchecked mixed_leaves FILE_UPLOAD_PATTERN []
     = ["uploads/x.png"]
  /\ find_matches_unchecked without_strings FILE_UPLOAD_PATTERN [] = []
  /\ find_matches string_and_null FILE_UPLOAD_PATTERN None
     = Ok ["uploads/x.png"].
Proof. vm_compute. repeat split. Qed.
End FindMatches.

Section WikiAttachments.
Import Py Objects Download DownloadSpec.

(** the rewrite of one raw match *)
Lemma wiki_attachment_url_marker :
  wiki_attachment_url forge_project_url "uploads/-/abc/file.png"
  = "https://forge.example/org/proj/-/wikis/-/wikis/uploads/abc/file.png".
Proof. vm_compute. reflexivity. Qed.

(** C7. For a wiki object whose web URL is
    [https://forge.example/org/proj] and whose pages give the one raw
    match [uploads/-/abc/file.png], [get_wiki_attachment_urls] answers
    with exactly
    [https://forge.example/org/proj/-/wikis/-/wikis/uploads/abc/file.png]:
    the marker [uploads/-/] becomes [-/wikis/uploads/], and the base URL
    followed by [/-/wikis/] comes in front. *)
Theorem wiki_attachment_url_rewrite (obj : WikiOwner) (pattern : Pattern)
    (wikis : WikiManager) (slug content : string) :
  owner_web_url obj = "https://forge.example/org/proj" ->
  owner_wikis obj = Some wikis ->
  wikis_list wikis = Ok [slug] ->
  wikis_get wikis slug = Ok content ->
  pattern content = ["uploads/-/abc/file.png"] ->
  get_wiki_attachment_urls obj pattern
  = Ok ["https://forge.example/org/proj/-/wikis/-/wikis/uploads/abc/file.png"].
Proof.
  intros Hurl Hwikis Hlist Hget Hmatch.
  unfold get_wiki_attachment_urls. rewrite Hwikis, Hlist. cbn [bind for_each].
  rewrite Hget. cbn [bind find_matches obj_hint]. rewrite Hmatch, Hurl.
  cbn [app]. rewrite filter_cons_True by discriminate.
  rewrite filter_nil. cbn [map].
  change "https://forge.example/org/proj" with forge_project_url at 1.
  by rewrite wiki_attachment_url_marker.
Qed.

(** The wiki of the sample project, scanned with the pattern of the
    module. *)
Lemma wiki_attachment_url_rewrite_witness :
  get_wiki_attachment_urls (OfProject wiki_project) FILE_UPLOAD_PATTERN
  = Ok ["https://forge.example/org/proj/-/wikis/-/wikis/uploads/abc/file.png"].
Proof.
  apply (wiki_attachment_url_rewrite (OfProject wiki_project)
           FILE_UPLOAD_PATTERN
           {| wikis_list := Ok ["home"];
              wikis_get := fun slug =>
                if String.eqb slug "home"
                then Ok "See ![file](/uploads/-/abc/file.png) for details."
                else Raise GitlabGetError |}
           "home" "See ![file](/uploads/-/abc/file.png) for details.");
    reflexivity.
Defined.
End WikiAttachments.

(* ================================================================== *)
(** * Properties of [foxysafe/entrypoints.py]                          *)
(* ================================================================== *)

Section ExitCodes.
Import Py Objects Entrypoints EntrypointsSpec.

(** C8, counterexample. An interrupt that reaches [main] is handled by
    [exit(0)]: the exit code is 0, not 1. *)
Lemma interrupt_exits_with_zero :
  ~ exit_code_as_specified (Raise KeyboardInterrupt).
Proof. vm_compute. discriminate. Qed.

(** A run in which one project cannot be cloned and the backup of every
    wiki, issue and snippet attachment fails returns all the same: each of
    these failures is logged or recorded where it happens. A refused login
    is an exception for [main]; an interrupt during the backup of an issue
    passes the handlers of the routine and reaches [main] as well. *)
Lemma exit_codes_of_three_runs :
  let run calls :=
    Backups.gitlab_backup_routine 3 full_config one_clone_fails_env calls
      "/backup" in
  run failing_item_calls = Ok tt
  /\ exit_code (main (run failing_item_calls)) = 0
  /\ exit_code (main (run refused_login_calls)) = 1
  /\ run interrupted_calls = Raise KeyboardInterrupt
  /\ exit_code (main (run interrupted_calls)) = 0.
Proof. vm_compute. repeat split. Qed.

(** C8, amended. The exit code is 0 when the backup routine returns,
    whatever the items it failed to back up, and also when an interrupt
    reaches [main]; it is 1 when an exception that nothing handled
    reaches [main]. *)
Theorem exit_code_of_main (backup_routine_entrypoint : res unit) :
  exit_code (main backup_routine_entrypoint)
  = match backup_routine_entrypoint with
    | Ok _ => 0
    | Raise KeyboardInterrupt => 0
    | Raise (SystemExit code) => code
    | Raise _ => 1
    end.
Proof. by destruct backup_routine_entrypoint as [[]|[]]. Qed.
End ExitCodes.

(* ================================================================== *)
(** * More about [foxysafe/gitlab/api.py]                              *)
(* ================================================================== *)

Section WalkGroups.
Import Py Objects Api ApiSpec ApiWalks.
Implicit Types (api : Gitlab) (group : Group)
  (groups : list (Z * Group)) (projects : list (Z * Project)).

(** X7. The walk makes every lookup below its group and guards none of them:
    when one does not answer, at any depth, the walk answers with no
    dictionary, whatever it had collected before. *)
Theorem broken_lookup_aborts_walk api group :
  broken api group ->
  forall (limit : nat) groups projects,
    is_Ok (_recurse_group limit api group groups projects) = false.
Proof.
  induction 1 as [group Hs | group Hp | group subgroups sid Hs Hin Hget
                  | group subgroups sid subgroup Hs Hin Hget _ IH];
    intros [|limit] groups projects; try done; cbn [_recurse_group].
  - by destruct (group_subgroups_list group).
  - destruct (group_subgroups_list group) as [subgroups|]; [|done].
    cbn [bind]. destruct (for_each _ subgroups _); [|done]. cbn [bind].
    by destruct (group_projects_list group).
  - rewrite Hs. cbn [bind].
    match goal with |- context [for_each ?b subgroups ?s] =>
      pose proof (for_each_fails b subgroups sid s Hin) as Hloop end.
    destruct (for_each _ subgroups _); [|done].
    discriminate Hloop. intros s. by destruct (groups_get api sid).
  - rewrite Hs. cbn [bind].
    match goal with |- context [for_each ?b subgroups ?s] =>
      pose proof (for_each_fails b subgroups sid s Hin) as Hloop end.
    destruct (for_each _ subgroups _); [|done].
    discriminate Hloop. intros s. rewrite Hget. cbn [bind]. apply IH.
Qed.

(** Group 4, two levels below group 1, cannot be fetched. *)
Lemma broken_lookup_aborts_walk_witness :
  is_Ok (_recurse_group 3 pruned_forge (plain_group 1 [2; 3] [10]) [] [])
  = false.
Proof.
  apply broken_lookup_aborts_walk.
  apply (broken_below pruned_forge _ [2; 3] 2 (plain_group 2 [4] [20; 21]));
    [reflexivity | by constructor | reflexivity |].
  apply (broken_fetch pruned_forge _ [4] 4);
    [reflexivity | by constructor | reflexivity].
Defined.

Lemma group_below_unfold api group subgroups gid :
  group_subgroups_list group = Ok subgroups ->
  group_below api group gid
  <-> group_id group = gid
      \/ exists sid subgroup,
           sid ∈ subgroups /\ groups_get api sid = Ok subgroup
           /\ group_below api subgroup gid.
Proof.
  intros Hsubs. split.
  - intros (g' & Hreach & Hid). inversion Hreach; subst.
    + by left.
    + right. exists sid, subgroup. split; [congruence|]. split; [done|].
      by exists g'.
  - intros [Hid|(sid & subgroup & Hin & Hget & g' & Hreach & Hid)].
    + exists group. split; [constructor | done].
    + exists g'. split; [|done]. by eapply reach_below.
Qed.

Lemma walk_subgroups_groups api (limit : nat) (subgroups : list Z) :
  Forall (fun sid => exists subgroup,
            groups_get api sid = Ok subgroup
            /\ forall groups projects, exists result,
                 _recurse_group limit api subgroup groups projects = Ok result
                 /\ (NoDup (dict_keys groups) ->
                     NoDup (dict_keys (fst result)))
                 /\ forall gid, gid ∈ dict_keys (fst result)
                      <-> gid ∈ dict_keys groups
                          \/ group_below api subgroup gid) subgroups ->
  forall st, exists st',
    for_each
      (fun (acc : list (Z * Group) * list (Z * Project)) subgroup =>
         bind (groups_get api subgroup) (fun subgroup =>
         _recurse_group limit api subgroup (fst acc) (snd acc)))
      subgroups st = Ok st'
    /\ (NoDup (dict_keys (fst st)) -> NoDup (dict_keys (fst st')))
    /\ forall gid, gid ∈ dict_keys (fst st')
         <-> gid ∈ dict_keys (fst st)
             \/ exists sid subgroup,
                  sid ∈ subgroups /\ groups_get api sid = Ok subgroup
                  /\ group_below api subgroup gid.
Proof.
  induction 1 as [|sid subgroups (subgroup & Hget & Hwalk) _ IH]; intros st.
  - exists st. split; [done|]. split; [done|]. intros gid. split; [by left|].
    intros [?|(? & ? & Hin & _)]; [done | by apply elem_of_nil in Hin].
  - cbn [for_each]. rewrite Hget. cbn [bind].
    destruct (Hwalk (fst st) (snd st)) as (st1 & -> & Hnd1 & Hkeys1).
    cbn [bind].
    destruct (IH st1) as (st' & -> & Hnd' & Hkeys'). exists st'.
    split; [done|]. split; [auto|].
    intros gid. rewrite Hkeys', Hkeys1. split.
    + intros [[?|Hfound]|(sid' & sub' & Hin & Hget' & Hfound)].
      * by left.
      * right. exists sid, subgroup. split; [by left | done].
      * right. exists sid', sub'. split; [by right | done].
    + intros [?|(sid' & sub' & Hin & Hget' & Hfound)]; [by left; left|].
      apply elem_of_cons in Hin as [->|Hin].
      * left; right. congruence.
      * right. by exists sid', sub'.
Qed.

Lemma recurse_group_tree_groups api (n : nat) :
  forall group (limit : nat), tree_below api n group -> (n <= limit)%nat ->
  forall groups projects, exists result,
    _recurse_group limit api group groups projects = Ok result
    /\ (NoDup (dict_keys groups) -> NoDup (dict_keys (fst result)))
    /\ forall gid, gid ∈ dict_keys (fst result)
         <-> gid ∈ dict_keys groups \/ group_below api group gid.
Proof.
  induction n as [|n IH]; intros group limit Htree Hle groups projects;
    [done|].
  destruct limit as [|limit]; [lia|].
  destruct Htree as (subgroups & group_projects & Hsubs & Hprojs & Hall).
  cbn [_recurse_group]. rewrite Hsubs. cbn [bind].
  destruct (walk_subgroups_groups api limit subgroups) with
    (st := (dict_set (group_id group) group groups, projects))
    as (st' & -> & Hnd & Hkeys).
  { eapply Forall_impl; [exact Hall|]. intros sid (sub & Hget & Hsub).
    exists sub. split; [done|]. intros gs ps. apply IH; [done | lia]. }
  cbn [bind]. rewrite Hprojs. cbn [bind]. eexists. split; [done|].
  cbn [fst] in *. split.
  - intros H. apply Hnd. by apply dict_keys_set_NoDup.
  - intros gid. rewrite Hkeys, dict_keys_set_elem.
    rewrite (group_below_unfold api group subgroups gid Hsubs).
    split; [intros [[->|?]|?] | intros [?|[<-|?]]]; tauto.
Qed.

(** X8. On a tree, the group dictionary of the walk holds the group it
    started from and every subgroup at any depth, each once and no other
    group. *)
Theorem recurse_group_collects_groups api (n : nat) (root : Group) :
  tree_below api n root ->
  forall limit : nat, (n <= limit)%nat ->
  exists groups projects,
    _recurse_group limit api root [] [] = Ok (groups, projects)
    /\ NoDup (dict_keys groups)
    /\ forall gid, gid ∈ dict_keys groups <-> group_below api root gid.
Proof.
  intros Htree limit Hle.
  destruct (recurse_group_tree_groups api n root limit Htree Hle [] [])
    as ([groups projects] & Hrun & Hnd & Hkeys).
  exists groups, projects. split; [done|]. split.
  - apply Hnd. constructor.
  - intros gid. rewrite Hkeys. cbn. rewrite elem_of_nil. tauto.
Qed.

(** the forge of three levels is a tree of depth three *)
Lemma tree_forge_depth : tree_below tree_forge 3 (plain_group 1 [2; 3] [10]).
Proof.
  cbn. eexists _, _. split; [done|]. split; [done|].
  repeat constructor.
  - eexists. split; [reflexivity|]. cbn.
    eexists _, _. split; [done|]. split; [done|]. repeat constructor.
    eexists. split; [reflexivity|]. cbn.
    eexists _, _. split; [done|]. split; [done|]. constructor.
  - eexists. split; [reflexivity|]. cbn.
    eexists _, _. split; [done|]. split; [done|]. constructor.
Defined.

Lemma recurse_group_collects_groups_witness :
  exists groups projects,
    _recurse_group 3 tree_forge (plain_group 1 [2; 3] [10]) [] []
    = Ok (groups, projects)
    /\ dict_keys groups = [1; 2; 4; 3].
Proof.
  destruct (recurse_group_collects_groups tree_forge 3
              (plain_group 1 [2; 3] [10])
              tree_forge_depth 3%nat (le_n _))
    as (groups & projects & Hrun & _).
  exists groups, projects. split; [exact Hrun|].
  vm_compute in Hrun. injection Hrun as <- <-. reflexivity.
Defined.
End WalkGroups.

Section DiscoveryLoops.
Import Py Objects Api ApiSpec ApiWalks.
Implicit Types (api : Gitlab) (projects : list (Z * Project)).

(** X9. A wiki loop of discovery passes over an object without wiki, without
    page or whose listing is refused, and goes on: when every listing
    answers or is refused with [GitlabListError], the loop returns, and it
    has added one entry, under the tag followed by the identifier, for
    each object that has a page, and no other. *)
Theorem wiki_probes_skip_refusals (tag : string) (objs : list WikiOwner)
    (gitlab_wikis : list (string * WikiOwner)) :
  Forall wiki_listing_answers_or_is_refused objs ->
  exists gitlab_wikis',
    for_each (wiki_probe_step tag) objs gitlab_wikis = Ok gitlab_wikis'
    /\ forall key, key ∈ dict_keys gitlab_wikis'
         <-> key ∈ dict_keys gitlab_wikis
             \/ exists obj, obj ∈ objs /\ has_wiki_pages obj
                            /\ key = tag +:+ str_of_int (owner_id obj).
Proof.
  intros Hall. revert gitlab_wikis.
  induction Hall as [|obj objs Hobj _ IH]; intros gitlab_wikis.
  { exists gitlab_wikis. split; [done|]. intros key. split; [by left|].
    intros [?|(? & Hin & _)]; [done | by apply elem_of_nil in Hin]. }
  cbn [for_each].
  assert (Hstep : exists w1,
            wiki_probe_step tag gitlab_wikis obj = Ok w1
            /\ forall key, key ∈ dict_keys w1
                 <-> key ∈ dict_keys gitlab_wikis
                     \/ (has_wiki_pages obj
                         /\ key = tag +:+ str_of_int (owner_id obj))).
  { unfold wiki_probe_step, has_wiki_pages.
    destruct (owner_wikis obj) as [wikis|] eqn:Hw.
    2:{ eexists. split; [done|]. intros key. split; [by left|].
        by intros [?|[(? & ? & ? & ? & _) _]]. }
    specialize (Hobj wikis Hw).
    destruct (wikis_list wikis) as [[|page pages]|e] eqn:Hl.
    - eexists. split; [done|]. intros key. split; [by left|].
      intros [?|[(w & p & ps & Hw' & Hl') _]]; [done|]. congruence.
    - eexists. split; [done|]. intros key. rewrite dict_keys_set_elem.
      split; [intros [->|?] | intros [?|[_ ->]]]; eauto 10.
    - subst e. eexists. split; [done|]. intros key. split; [by left|].
      intros [?|[(w & p & ps & Hw' & Hl') _]]; [done|]. congruence. }
  destruct Hstep as (w1 & -> & Hkeys1). cbn [bind].
  destruct (IH w1) as (w' & -> & Hkeys'). exists w'. split; [done|].
  intros key. rewrite Hkeys', Hkeys1. split.
  - intros [[?|[Hp ->]]|(o & Hin & Hp & ->)].
    + by left.
    + right. exists obj. split; [by left | done].
    + right. exists o. split; [by right | done].
  - intros [?|(o & Hin & Hp & ->)]; [by left; left|].
    apply elem_of_cons in Hin as [->|Hin]; [by left; right|].
    right. by exists o.
Qed.

(** Three projects: one that has a wiki page, one without a wiki and one
    whose wiki listing is refused. *)
Lemma wiki_probes_skip_refusals_witness :
  for_each (wiki_probe_step "P")
    [OfProject (documented_project 1); OfProject (plain_project 2);
     OfProject (closed_project 7)] []
  = Ok [("P1", OfProject (documented_project 1))].
Proof.
  destruct (wiki_probes_skip_refusals "P"
              [OfProject (documented_project 1); OfProject (plain_project 2);
               OfProject (closed_project 7)] [])
    as (wikis & Hrun & _).
  - repeat constructor; by intros wikis [= <-].
  - rewrite Hrun. vm_compute in Hrun. by injection Hrun as <-.
Defined.

(** One turn of the loop over the explicit identifiers, when the name
    [project] is bound to a project that is in the dictionary. *)
Lemma explicit_project_step_bound api previous projects pid :
  project_lookup_answers_or_fails api pid ->
  project_id previous ∈ dict_keys projects ->
  exists current projects',
    explicit_project_step api (Some previous, projects) pid
    = Ok (Some current, projects')
    /\ project_id current ∈ dict_keys projects'
    /\ forall k, k ∈ dict_keys projects'
         <-> k ∈ dict_keys projects
             \/ exists found, projects_get api pid = Ok found
                              /\ project_id found = k.
Proof.
  unfold project_lookup_answers_or_fails, explicit_project_step.
  intros Hlookup Hprev.
  destruct (projects_get api pid) as [found|e]; [|subst e]; cbn [bind].
  - eexists _, _. split; [done|]. rewrite dict_set_idempotent.
    split; [apply dict_keys_set_elem; by left|].
    intros k. rewrite dict_keys_set_elem. split.
    + intros [->|?]; [right; by exists found | by left].
    + intros [?|(f & [= <-] & <-)]; [by right | by left].
  - eexists _, _. split; [done|]. rewrite dict_set_idempotent.
    rewrite dict_keys_set_present by done. split; [done|].
    intros k. split; [by left|]. by intros [?|(? & ? & _)].
Qed.

Lemma explicit_projects_bound api (pids : list Z) previous projects :
  Forall (project_lookup_answers_or_fails api) pids ->
  project_id previous ∈ dict_keys projects ->
  exists current projects',
    for_each (explicit_project_step api) pids (Some previous, projects)
    = Ok (Some current, projects')
    /\ forall k, k ∈ dict_keys projects'
         <-> k ∈ dict_keys projects
             \/ exists pid found, pid ∈ pids
                  /\ projects_get api pid = Ok found /\ project_id found = k.
Proof.
  intros Hall. revert previous projects.
  induction Hall as [|pid pids Hpid _ IH]; intros previous projects Hprev.
  { exists previous, projects. split; [done|]. intros k. split; [by left|].
    intros [?|(? & ? & Hin & _)]; [done | by apply elem_of_nil in Hin]. }
  cbn [for_each].
  destruct (explicit_project_step_bound api previous projects pid Hpid Hprev)
    as (current & projects1 & -> & Hcur & Hkeys1). cbn [bind].
  destruct (IH current projects1 Hcur) as (last & projects' & -> & Hkeys').
  exists last, projects'. split; [done|].
  intros k. rewrite Hkeys', Hkeys1. split.
  - intros [[?|(f & Hf & Hid)]|(p & f & Hin & Hf & Hid)].
    + by left.
    + right. exists pid, f. split; [by left | done].
    + right. exists p, f. split; [by right | done].
  - intros [?|(p & f & Hin & Hf & Hid)]; [by left; left|].
    apply elem_of_cons in Hin as [->|Hin].
    + left; right. by exists f.
    + right. by exists p, f.
Qed.

(** X10. Once the first explicit project has been found, a later identifier
    that the forge does not know is passed over: the loop returns, and the
    keys it has added are the identifiers of the projects that were found.
    (The failed turn assigns the project of the turn before once more,
    which changes nothing.) *)
Theorem explicit_projects_after_first_found api (pid : Z) (pids : list Z)
    (first : Project) projects :
  projects_get api pid = Ok first ->
  Forall (project_lookup_answers_or_fails api) pids ->
  exists current projects',
    for_each (explicit_project_step api) (pid :: pids) (None, projects)
    = Ok (Some current, projects')
    /\ forall k, k ∈ dict_keys projects'
         <-> k ∈ dict_keys projects
             \/ exists p found, p ∈ pid :: pids
                  /\ projects_get api p = Ok found /\ project_id found = k.
Proof.
  intros Hfirst Hall. cbn [for_each]. unfold explicit_project_step at 1.
  rewrite Hfirst. cbn [bind]. rewrite dict_set_idempotent.
  destruct (explicit_projects_bound api pids first
              (dict_set (project_id first) first projects) Hall)
    as (last & projects' & -> & Hkeys).
  { apply dict_keys_set_elem. by left. }
  exists last, projects'. split; [done|].
  intros k. rewrite Hkeys, dict_keys_set_elem. split.
  - intros [[->|?]|(p & f & Hin & Hf & Hid)].
    + right. exists pid, first. split; [by left | done].
    + by left.
    + right. exists p, f. split; [by right | done].
  - intros [?|(p & f & Hin & Hf & Hid)]; [by left; right|].
    apply elem_of_cons in Hin as [->|Hin].
    + left; left. congruence.
    + right. by exists p, f.
Qed.

(** Project 10 is known, 99 is not, 20 is. *)
Lemma explicit_projects_after_first_found_witness :
  exists current projects',
    for_each (explicit_project_step tree_forge) [10; 99; 20] (None, [])
    = Ok (Some current, projects')
    /\ dict_keys projects' = [10; 20].
Proof.
  destruct (explicit_projects_after_first_found tree_forge 10 [99; 20]
              (plain_project 10) [] eq_refl)
    as (current & projects' & Hrun & _).
  - repeat constructor.
  - exists current, projects'. split; [exact Hrun|].
    vm_compute in Hrun. by injection Hrun as <- <-.
Defined.
End DiscoveryLoops.

(* ================================================================== *)
(** * About [foxysafe/gitlab/backups.py]                               *)
(* ================================================================== *)

Section Routine.
Import Py Objects Backups BackupsSpec.

Lemma logged_soft (c : res unit) : fails_softly c -> logged c = Ok tt.
Proof. destruct c as [[]|e]; simpl; [done|]. by intros ->. Qed.

Lemma for_all_Ok {A : Type} (xs : list A) (body : A -> res unit) :
  (forall x, x ∈ xs -> body x = Ok tt) -> for_all xs body = Ok tt.
Proof.
  unfold for_all. induction xs as [|x xs IH]; intros Hbody; [done|].
  cbn [for_each]. rewrite (Hbody x) by (by left). cbn [bind].
  apply IH. intros y Hy. apply Hbody. by right.
Qed.

(** the backup of one issue and of its notes, under its handler *)
Lemma issue_backup_logged (calls : Calls) (issue : Issue) :
  item_backups_fail_softly calls ->
  logged
    (bind (backup_issue calls issue) (fun _ =>
     bind (issue_notes_list calls issue) (fun notes =>
     for_all notes (fun note =>
       logged (backup_issue_note calls issue note)))))
  = Ok tt.
Proof.
  intros (_ & Hissue & Hnotes & Hnote & _). apply logged_soft.
  specialize (Hissue issue). specialize (Hnotes issue).
  destruct (backup_issue calls issue) as [[]|e]; [|done]. cbn [bind].
  destruct (issue_notes_list calls issue) as [notes|e]; [|done]. cbn [bind].
  rewrite for_all_Ok; [done|]. intros note _. by apply logged_soft.
Qed.

(** X11. Once the login and discovery have succeeded and the result lists
    can be written, the routine returns whatever happens to single items,
    provided every snippet carries [path_with_namespace]: a clone that
    fails is recorded by its worker, and a backup of the attachments of a
    wiki, of an issue, of a note or of a snippet that fails with an
    [Exception] is logged and left behind. The routine reads
    [snippet.path_with_namespace] outside of the [try]: one snippet
    without that attribute, and the routine does not return. *)
Theorem item_failures_do_not_abort_the_routine (limit : nat)
    (config : Config) (env : Clone.Env) (calls : Calls)
    (backup_dir : string) (api : Api.Gitlab) (items : Api.Items) :
  gitlab_login calls = Ok api ->
  Api.get_gitlab_items limit api
    (ids_or_None (gitlab_group_ids config))
    (ids_or_None (gitlab_project_ids config))
    (include_personal_projects config) (include_wikis config)
    (include_issues config) (include_snippets config) = Ok items ->
  can_write_results env backup_dir ->
  (forall issue, issue ∈ dict_values (Api.gitlab_issues items) ->
     is_Some (dict_get (issue_project_id issue) (Api.gitlab_projects items))) ->
  item_backups_fail_softly calls ->
  (snippets_carry_namespace calls items ->
   gitlab_backup_routine limit config env calls backup_dir = Ok tt)
  /\ (forall snippet,
        snippet ∈ dict_values (Api.gitlab_snippets items) ->
        is_Ok (snippet_path_with_namespace calls snippet) = false ->
        is_Ok (gitlab_backup_routine limit config env calls backup_dir)
        = false).
Proof.
  intros Hlogin Hitems ((n & Hn & Hge) & Hdump & Hmk & Hdump') Hissues Hsoft.
  unfold gitlab_backup_routine. rewrite Hlogin. cbn [bind].
  rewrite Hitems. cbn [bind]. cbv zeta.
  assert (Hprojects :
    match Api.gitlab_projects items with
    | [] => Ok tt
    | _ :: _ =>
        bind (Clone.clone_projects env (Api.gitlab_projects items) backup_dir)
             (fun _ => Ok tt)
    end = Ok tt).
  { destruct (Api.gitlab_projects items) as [|p ps] eqn:Hp; [done|].
    by rewrite (clone_projects_writes env n _ backup_dir Hn Hge Hdump). }
  rewrite Hprojects. cbn [bind].
  assert (Hwikis :
    match Api.gitlab_wikis items with
    | [] => Ok tt
    | _ :: _ =>
        bind (Clone.clone_wikis env (Api.gitlab_wikis items) backup_dir)
          (fun _ =>
           for_all (dict_values (Api.gitlab_wikis items)) (fun obj =>
             logged (backup_wiki_attachements calls obj)))
    end = Ok tt).
  { destruct (Api.gitlab_wikis items) as [|w ws] eqn:Hw; [done|].
    rewrite (clone_wikis_writes env n _ backup_dir Hn Hge Hdump). cbn [bind].
    apply for_all_Ok. intros obj _. apply logged_soft. apply Hsoft. }
  rewrite Hwikis. cbn [bind].
  rewrite for_all_Ok.
  2:{ intros issue Hin. destruct (Hissues issue Hin) as [p ->].
      by apply issue_backup_logged. }
  cbn [bind]. unfold snippets_carry_namespace.
  destruct (Api.gitlab_snippets items) as [|s ss] eqn:Hs.
  { split; [done|]. intros snippet Hin. by apply elem_of_nil in Hin. }
  rewrite (clone_snippets_writes env n _ backup_dir Hn Hge Hmk Hdump').
  cbn [bind]. split.
  - intros Hcarry. apply for_all_Ok. intros snippet Hin.
    specialize (Hcarry snippet Hin).
    destruct (snippet_path_with_namespace calls snippet); [|done].
    cbn [bind]. apply logged_soft. apply Hsoft.
  - intros snippet Hin Hbare. unfold for_all.
    apply (for_each_fails _ _ snippet); [done|]. intros [].
    by destruct (snippet_path_with_namespace calls snippet).
Qed.

(** The run in which the clone of a project and the backup of every
    attachment and issue fail; and the same run on a forge whose snippets
    carry no [path_with_namespace]. *)
Lemma item_failures_do_not_abort_the_routine_witness :
  gitlab_backup_routine 3 EntrypointsSpec.full_config
    EntrypointsSpec.one_clone_fails_env EntrypointsSpec.failing_item_calls
    "/backup" = Ok tt
  /\ is_Ok (gitlab_backup_routine 3 EntrypointsSpec.full_config
              EntrypointsSpec.one_clone_fails_env bare_snippet_calls
              "/backup") = false.
Proof.
  assert (Hissues : forall issue,
            issue ∈ dict_values (Api.gitlab_issues busy_items) ->
            is_Some (dict_get (issue_project_id issue)
                       (Api.gitlab_projects busy_items))).
  { intros issue Hin. apply list_elem_of_In in Hin. vm_compute in Hin.
    destruct Hin as [<-|[<-|[]]]; vm_compute; eexists; reflexivity. }
  split.
  - apply (item_failures_do_not_abort_the_routine 3
             EntrypointsSpec.full_config EntrypointsSpec.one_clone_fails_env
             EntrypointsSpec.failing_item_calls "/backup"
             EntrypointsSpec.busy_forge busy_items).
    + reflexivity.
    + vm_compute. reflexivity.
    + split; [exists 4; split; [reflexivity | lia]|]. repeat split.
    + exact Hissues.
    + repeat split; intros; vm_compute; reflexivity.
    + intros snippet _. reflexivity.
  - destruct (item_failures_do_not_abort_the_routine 3
                EntrypointsSpec.full_config
                EntrypointsSpec.one_clone_fails_env bare_snippet_calls
                "/backup" EntrypointsSpec.busy_forge busy_items)
      as [_ Hbare].
    + reflexivity.
    + vm_compute. reflexivity.
    + split; [exists 4; split; [reflexivity | lia]|]. repeat split.
    + exact Hissues.
    + repeat split; intros; vm_compute; reflexivity.
    + apply (Hbare {| snippet_id := 9; snippet_title := "notes";
                      snippet_web_url := "https://forge.example/-/snippets/9" |});
        [|reflexivity].
      vm_compute. by constructor.
Defined.
End Routine.

Section ItemBackups.
Import Py Objects Download DownloadSpec DownloadMore BackupItems BackupItemsSpec.

Lemma downloads_app (log log' : list event) :
  downloads (log ++ log') = downloads log ++ downloads log'.
Proof. apply List.filter_app. Qed.

Lemma downloads_snoc_other (log : list event) (e : event) :
  is_download e = false -> downloads (log ++ [e]) = downloads log.
Proof.
  intros He. rewrite downloads_app. unfold downloads at 2.
  cbn [List.filter]. rewrite He. apply app_nil_r.
Qed.

(** the run has ended in an exception: no call of the downloader was
    added to the log *)
Ltac soft_failure :=
  cbn [fst snd is_Ok]; rewrite ?downloads_snoc_other by reflexivity.

(** X17. An issue without description, or a note without body, is not
    backed up: [backup_issue] never returns for it and never calls the
    downloader. Where the file system refuses nothing, it raises
    [AttributeError] after it has written the JSON document and opened
    the markdown file, which stays empty. *)
Theorem backup_issue_needs_text (world : World) (config : Access)
    (obj : Backed) (path_with_namespace backup_dir : string)
    (is_note : bool) (web_url : string) (log : list event) :
  scanned_text (backed_described obj) is_note = None ->
  let download_dir :=
    issue_download_dir obj path_with_namespace backup_dir is_note in
  let json_path := issue_json_path obj path_with_namespace backup_dir is_note in
  let md_path := issue_md_path obj path_with_namespace backup_dir is_note in
  let run :=
    backup_issue world config obj path_with_namespace backup_dir is_note
      web_url log in
  is_Ok (fst run) = false
  /\ downloads (snd run) = downloads log
  /\ (mkdir world download_dir = Ok tt ->
      open_w world json_path = Ok tt ->
      write world json_path (backed_attributes obj) = Ok tt ->
      open_w world md_path = Ok tt ->
      run = (Raise AttributeError,
             log ++ [Mkdir download_dir; Open json_path;
                     Write json_path (backed_attributes obj); Open md_path])).
Proof.
  intros Htext download_dir json_path md_path run.
  assert (Hreplace :
            (if negb is_note
             then replace_in "/uploads/" "uploads/"
                    (described_description (backed_described obj))
             else replace_in "/uploads/" "uploads/"
                    (described_body (backed_described obj)))
            = Raise AttributeError).
  { unfold scanned_text in Htext. destruct is_note; cbn [negb];
      by rewrite Htext. }
  subst run. unfold backup_issue, bindM, perform, inside.
  fold download_dir json_path md_path. rewrite Hreplace.
  destruct (mkdir world download_dir) as [[]|e1]; [|by soft_failure].
  destruct (open_w world json_path) as [[]|e2]; [|by soft_failure].
  destruct (write world json_path (backed_attributes obj)) as [[]|e3];
    [|by soft_failure].
  destruct (open_w world md_path) as [[]|e4]; [|by soft_failure].
  soft_failure. split; [done|]. split; [done|]. intros _ _ _ _.
  by rewrite <- !app_assoc.
Qed.

Lemma backup_issue_needs_text_witness :
  backup_issue willing_world forge_access bare_issue "org/proj" "/backup"
    false "" []
  = (Raise AttributeError,
     [Mkdir "/backup/org/proj/issues/8";
      Open "/backup/org/proj/issues/8/8.json";
      Write "/backup/org/proj/issues/8/8.json" "{}";
      Open "/backup/org/proj/issues/8/8.md"]).
Proof.
  destruct (backup_issue_needs_text willing_world forge_access bare_issue
              "org/proj" "/backup" false "" []) as (_ & _ & Hrun);
    [reflexivity|].
  exact (Hrun eq_refl eq_refl eq_refl eq_refl).
Defined.

(** X18. A snippet without description is not backed up:
    [backup_snippet_attachements] never returns for it and never calls
    the downloader. Where the file system refuses nothing, it raises
    [AttributeError] after it has opened the markdown file of the snippet,
    which stays empty. *)
Theorem backup_snippet_needs_description (world : World) (config : Access)
    (snippet : Snippet) (description : option string) (backup_dir : string)
    (log : list event) :
  description = None ->
  let download_dir := snippet_download_dir snippet backup_dir in
  let run :=
    backup_snippet_attachements world config snippet description backup_dir
      log in
  is_Ok (fst run) = false
  /\ downloads (snd run) = downloads log
  /\ (mkdir world download_dir = Ok tt ->
      open_w world (snippet_path snippet backup_dir) = Ok tt ->
      run = (Raise AttributeError,
             log ++ [Mkdir download_dir;
                     Open (snippet_path snippet backup_dir)])).
Proof.
  intros -> download_dir run. subst run.
  unfold backup_snippet_attachements, bindM, perform, inside.
  fold download_dir. cbn [replace_in].
  destruct (mkdir world download_dir) as [[]|e1]; [|by soft_failure].
  destruct (open_w world (snippet_path snippet backup_dir)) as [[]|e2];
    [|by soft_failure].
  soft_failure. split; [done|]. split; [done|]. intros _ _.
  by rewrite <- !app_assoc.
Qed.

Lemma backup_snippet_needs_description_witness :
  backup_snippet_attachements willing_world forge_access bare_snippet None
    "/backup" []
  = (Raise AttributeError,
     [Mkdir "/backup/snippets/3"; Open "/backup/snippets/3/snippet_3.md"]).
Proof.
  destruct (backup_snippet_needs_description willing_world forge_access
              bare_snippet None "/backup" []) as (_ & _ & Hrun);
    [reflexivity|].
  exact (Hrun eq_refl eq_refl).
Defined.
End ItemBackups.

(* ================================================================== *)
(** * More about [foxysafe/git/clone.py]                               *)
(* ================================================================== *)

Section CloneRecordFacts.
Import Py Objects Clone CloneSpec CloneRecords.
Implicit Types (r : list (string * pyval)) (e : exn) (env : Env).

Ltac read_record :=
  repeat (rewrite dict_get_set_ne by discriminate);
  try rewrite dict_get_set_eq;
  try reflexivity.

Lemma same_outside_refl ks r : same_outside ks r r.
Proof. by intros k _. Qed.

Lemma same_outside_trans ks r1 r2 r3 :
  same_outside ks r1 r2 -> same_outside ks r2 r3 -> same_outside ks r1 r3.
Proof. intros H12 H23 k Hk. by rewrite H23, H12. Qed.

Lemma same_outside_set ks k v r : k ∈ ks -> same_outside ks r (dict_set k v r).
Proof.
  intros Hk k' Hk'. apply dict_get_set_ne. intros ->. by apply Hk'.
Qed.

(** The computation of [success] writes to [success] only, if it writes. *)
Lemma set_success_shape r :
  exists out r', set_success r = (out, r')
    /\ (r' = r \/ exists b, r' = dict_set "success" (VBool b) r).
Proof.
  unfold set_success, bindW, getitem, and_then, setitem, ret.
  destruct (dict_get "is_cloned" r) as [vc|]; [|by eexists _, _; eauto].
  destruct (truthy vc); [|by eexists _, _; eauto].
  destruct (dict_get "submodules" r) as [vs|]; [|by eexists _, _; eauto].
  destruct (dict_get "is_submodules_updated" r) as [vu|];
    [|by eexists _, _; eauto].
  destruct (bool_is (truthy vs) vu); [|by eexists _, _; eauto].
  destruct (dict_get "is_branches_updated" r) as [vb|];
    by eexists _, _; eauto.
Qed.

Lemma worker_handlers_shape (out : res unit) r :
  worker_handlers (out, r) = r
  \/ worker_handlers (out, r) = dict_set "success" (VBool false) r.
Proof. destruct out as [[]|[]]; simpl; auto. Qed.

(** The steps that follow the clone, on any record: the record they leave,
    as a chain of assignments. *)
Lemma after_clone_chain (extra : W unit) repository r :
  (forall r0, snd (extra r0) = r0) ->
  exists r1 r2 r3,
    (exists out, update_submodules repository r = (out, r1))
    /\ (r2 = r1 \/ exists out, update_branches repository r1 = (out, r2))
    /\ (r3 = r2 \/ exists b, r3 = dict_set "success" (VBool b) r2)
    /\ (worker_handlers (after_clone extra repository r) = r3
        \/ worker_handlers (after_clone extra repository r)
           = dict_set "success" (VBool false) r3).
Proof.
  intros Hextra. unfold after_clone, bindW.
  destruct (update_submodules repository r) as [o1 r1] eqn:H1.
  exists r1. destruct o1 as [[]|e].
  2:{ exists r1, r1. split; [eauto|]. split; [by left|]. split; [by left|].
      apply worker_handlers_shape. }
  destruct (update_branches repository r1) as [o2 r2] eqn:H2.
  exists r2. destruct o2 as [[]|e].
  2:{ exists r2. split; [eauto|]. split; [eauto|]. split; [by left|].
      apply worker_handlers_shape. }
  pose proof (Hextra r2) as Hex.
  destruct (extra r2) as [[[]|e] r2'] eqn:H3; simpl in Hex; subst r2'.
  2:{ exists r2. split; [eauto|]. split; [eauto|]. split; [by left|].
      apply worker_handlers_shape. }
  destruct (set_success_shape r2) as (o4 & r3 & H4 & Hshape).
  exists r3. split; [eauto|]. split; [eauto|]. split; [done|].
  rewrite H4. apply worker_handlers_shape.
Qed.

(** What the worker knows of the item is in the record to stay: the steps
    after the clone write to five keys and to no other. *)
Lemma after_clone_frame (extra : W unit) repository r :
  (forall r0, snd (extra r0) = r0) ->
  same_outside reconciled_keys r
    (worker_handlers (after_clone extra repository r)).
Proof.
  intros Hextra.
  destruct (after_clone_chain extra repository r Hextra)
    as (r1 & r2 & r3 & [o1 H1] & H2 & H3 & H4).
  assert (S1 : same_outside reconciled_keys r r1).
  { destruct (update_submodules_summary repository r)
      as (o & r' & Hrun & _ & Hframe & _).
    rewrite H1 in Hrun. injection Hrun as <- <-.
    intros k Hk. apply Hframe; intros ->; apply Hk; unfold reconciled_keys;
      repeat constructor. }
  assert (S2 : same_outside reconciled_keys r1 r2).
  { destruct H2 as [->|[o2 H2]]; [apply same_outside_refl|].
    destruct (update_branches_summary repository r1)
      as (o & r' & Hrun & Hframe & _).
    rewrite H2 in Hrun. injection Hrun as <- <-.
    intros k Hk. apply Hframe; intros ->; apply Hk; unfold reconciled_keys;
      repeat constructor. }
  assert (Hsucc : "success" ∈ reconciled_keys)
    by (unfold reconciled_keys; repeat constructor).
  assert (S3 : same_outside reconciled_keys r2 r3).
  { destruct H3 as [->|[b ->]]; [apply same_outside_refl|].
    by apply same_outside_set. }
  assert (S4 : same_outside reconciled_keys r3
                 (worker_handlers (after_clone extra repository r))).
  { destruct H4 as [->| ->]; [apply same_outside_refl|].
    by apply same_outside_set. }
  eauto using same_outside_trans.
Qed.

(** the keys that the steps after the clone leave alone *)
Lemma outside_reconciled (k : string) :
  k ∉ reconciled_keys <->
  k <> "submodules" /\ k <> "is_submodules_cloned"
  /\ k <> "branches" /\ k <> "is_branches_updated" /\ k <> "success".
Proof.
  unfold reconciled_keys. rewrite !not_elem_of_cons. rewrite elem_of_nil.
  tauto.
Qed.

(** the target path is in the record to stay *)
Lemma clone_project_path env (project : Project) (target_path : string) :
  dict_get "project_path" (clone_project env (project, target_path))
  = Some (VStr target_path).
Proof.
  unfold clone_project. rewrite clone_project_try_run. cbv zeta.
  destruct (clone_from env _ _) as [repository|e].
  - rewrite after_clone_frame;
      [read_record | apply call_keeps_record
       | apply outside_reconciled; repeat split; discriminate].
  - destruct (is_Exception e);
      rewrite worker_handlers_frame by discriminate; cbn [snd]; read_record.
Qed.

Lemma clone_snippet_path env (snippet : Snippet) (target_path : string) :
  dict_get "snippet_path" (clone_snippet env (snippet, target_path))
  = Some (VStr target_path).
Proof.
  unfold clone_snippet, clone_snippet_try.
  unfold bindW, setitem, try_except_Exception, call, ret, getitem.
  destruct (clone_from env _ _) as [repository|e].
  - destruct (dump_json env _) as [[]|e].
    + rewrite dict_get_set_eq. cbn [worker_handlers]. read_record.
    + rewrite worker_handlers_frame by discriminate; cbn [snd]; read_record.
  - destruct (is_Exception e);
      rewrite worker_handlers_frame by discriminate; cbn [snd]; read_record.
Qed.

(** X1. The identity of the item is written first and stays whatever follows,
    a failed clone, an unexpected error or an interrupt: each record of
    [results.json] names its project, wiki or snippet, its URL, its
    identifier and its target path. *)
Theorem clone_records_keep_identity env (target_path : string) :
  (forall project : Project,
     let r := clone_project env (project, target_path) in
     dict_get "project_name" r = Some (VStr (project_name project))
     /\ dict_get "project_url" r = Some (VStr (project_web_url project))
     /\ dict_get "project_id" r = Some (VInt (project_id project))
     /\ dict_get "project_path" r = Some (VStr target_path))
  /\ (forall obj : WikiOwner,
        let r := clone_wiki env (obj, target_path) in
        dict_get "wiki_name" r = Some (VStr (owner_name obj +:+ " Wiki"))
        /\ dict_get "wiki_url" r
           = Some (VStr (owner_web_url obj +:+ ".wiki.git"))
        /\ dict_get "wiki_id" r = Some (VInt (owner_id obj))
        /\ dict_get "wiki_path" r = Some (VStr target_path))
  /\ (forall snippet : Snippet,
        let r := clone_snippet env (snippet, target_path) in
        dict_get "snippet_title" r = Some (VStr (snippet_title snippet))
        /\ dict_get "snippet_url" r = Some (VStr (snippet_web_url snippet))
        /\ dict_get "snippet_id" r = Some (VInt (snippet_id snippet))
        /\ dict_get "snippet_path" r = Some (VStr target_path)).
Proof.
  assert (Hout : forall k, k ∉ reconciled_keys <->
            k <> "submodules" /\ k <> "is_submodules_cloned"
            /\ k <> "branches" /\ k <> "is_branches_updated" /\ k <> "success").
  { intros k. unfold reconciled_keys.
    rewrite !not_elem_of_cons. rewrite elem_of_nil. tauto. }
  split; [|split].
  - intros project r. subst r. unfold clone_project.
    rewrite clone_project_try_run. cbv zeta.
    destruct (clone_from env _ _) as [repository|e].
    + repeat split;
        (rewrite after_clone_frame;
         [read_record | apply call_keeps_record
          | apply Hout; repeat split; discriminate]).
    + destruct (is_Exception e); repeat split;
        rewrite worker_handlers_frame by discriminate; cbn [snd]; read_record.
  - intros obj r. subst r. unfold clone_wiki.
    rewrite clone_wiki_try_run. cbv zeta.
    destruct (clone_from env _ _) as [repository|e].
    + repeat split;
        (rewrite after_clone_frame;
         [read_record | done | apply Hout; repeat split; discriminate]).
    + destruct (is_Exception e); repeat split;
        rewrite worker_handlers_frame by discriminate; cbn [snd]; read_record.
  - intros snippet r. subst r. unfold clone_snippet, clone_snippet_try.
    unfold bindW, setitem, try_except_Exception, call, ret, getitem.
    destruct (clone_from env _ _) as [repository|e].
    + destruct (dump_json env _) as [[]|e].
      * rewrite dict_get_set_eq. cbn [worker_handlers]. repeat split;
          read_record.
      * repeat split; rewrite worker_handlers_frame by discriminate;
          cbn [snd]; read_record.
    + destruct (is_Exception e); repeat split;
        rewrite worker_handlers_frame by discriminate; cbn [snd]; read_record.
Qed.
End CloneRecordFacts.

Section CloneRecordKeys.
Import Py Objects Clone CloneSpec CloneRecords.
Implicit Types (r : list (string * pyval)) (e : exn) (env : Env).

(** membership in a list of keys that is written out *)
Ltac in_keys := apply list_elem_of_In; simpl; auto 15.

(** an assignment to a key that is present leaves the keys as they are *)
Lemma keys_after_set (K : list string) k v r :
  dict_keys r = K -> k ∈ K -> dict_keys (dict_set k v r) = K.
Proof. intros <- Hk. by apply dict_keys_set_present. Qed.

Lemma keys_after_update_branches (K : list string) repository r out r' :
  dict_keys r = K -> "branches" ∈ K -> "is_branches_updated" ∈ K ->
  update_branches repository r = (out, r') -> dict_keys r' = K.
Proof.
  intros HK Hb Hu Hrun.
  destruct (update_branches_shape repository r) as (o & r0 & Hrun' & Hshape).
  rewrite Hrun in Hrun'. injection Hrun' as <- <-.
  destruct Hshape as [->|[(bs & ->)|(bs & _ & ->)]]; [done| |];
    repeat (apply keys_after_set; [|done]); done.
Qed.

(** The keys of the record after the steps that follow the clone: those it
    had, and [is_submodules_cloned] when the repository has submodules and
    their update succeeded. *)
Lemma after_clone_keys (extra : W unit) repository (K : list string) r :
  (forall r0, snd (extra r0) = r0) ->
  dict_keys r = K ->
  "submodules" ∈ K -> "branches" ∈ K -> "is_branches_updated" ∈ K ->
  "success" ∈ K -> "is_submodules_cloned" ∉ K ->
  let final := worker_handlers (after_clone extra repository r) in
  dict_keys final = K
  \/ (submodules repository <> []
      /\ submodule_update repository = Ok tt
      /\ dict_keys final = K ++ ["is_submodules_cloned"]).
Proof.
  intros Hextra HK Hs Hb Hu Hsucc Hnew final. subst final.
  destruct (after_clone_chain extra repository r Hextra)
    as (r1 & r2 & r3 & [o1 H1] & H2 & H3 & H4).
  (* the keys after the submodule step *)
  assert (K1 : dict_keys r1 = K
               \/ (submodules repository <> []
                   /\ submodule_update repository = Ok tt
                   /\ dict_keys r1 = K ++ ["is_submodules_cloned"])).
  { unfold update_submodules in H1.
    destruct (submodules repository) as [|s l] eqn:Hsub.
    { injection H1 as _ <-. by left. }
    unfold try_except_Exception, bindW, setitem, call, ret in H1.
    destruct (submodule_update repository) as [[]|e]; simpl in H1.
    - injection H1 as _ <-. right. split; [done|]. split; [done|].
      rewrite dict_keys_set_absent.
      + f_equal. by apply keys_after_set.
      + by rewrite (keys_after_set K) by done.
    - left. destruct (is_Exception e); injection H1 as _ <-;
        by apply keys_after_set. }
  (* the steps that follow write to keys that are present *)
  assert (Hrest : forall K',
            dict_keys r1 = K' -> "branches" ∈ K' ->
            "is_branches_updated" ∈ K' -> "success" ∈ K' ->
            dict_keys (worker_handlers (after_clone extra repository r)) = K').
  { intros K' HK' Hb' Hu' Hsucc'.
    assert (K2 : dict_keys r2 = K').
    { destruct H2 as [->|[o2 H2]]; [done|].
      by eapply keys_after_update_branches. }
    assert (K3 : dict_keys r3 = K').
    { destruct H3 as [->|[b ->]]; [done | by apply keys_after_set]. }
    destruct H4 as [->| ->]; [done | by apply keys_after_set]. }
  destruct K1 as [K1|(Hne & Hupd & K1)].
  - left. by apply Hrest.
  - right. split; [done|]. split; [done|].
    apply Hrest; [done | apply elem_of_app; by left ..].
Qed.

(** X2. Every record of a project has the ten keys of the literal that opens
    the worker, in that order; the only key that can join them is
    [is_submodules_cloned], last, for a repository whose submodules were
    updated. The record of a wiki has its ten keys likewise, and the
    record of a snippet always its six. *)
Theorem clone_records_have_their_keys env (target_path : string) :
  (forall project : Project,
     let r := clone_project env (project, target_path) in
     dict_keys r = project_keys
     \/ dict_keys r = project_keys ++ ["is_submodules_cloned"])
  /\ (forall obj : WikiOwner,
        let r := clone_wiki env (obj, target_path) in
        dict_keys r = wiki_keys
        \/ dict_keys r = wiki_keys ++ ["is_submodules_cloned"])
  /\ (forall snippet : Snippet,
        dict_keys (clone_snippet env (snippet, target_path)) = snippet_keys).
Proof.
  assert (Hhandlers : forall (K : list string) (out : res unit) r,
            dict_keys r = K -> "success" ∈ K ->
            dict_keys (worker_handlers (out, r)) = K).
  { intros K out r HK Hs.
    destruct (worker_handlers_shape out r) as [-> | ->];
      [done | by apply keys_after_set]. }
  split; [|split].
  - intros project r. subst r. unfold clone_project.
    rewrite clone_project_try_run. cbv zeta.
    match goal with
    | |- context [(Raise _, ?h)] =>
        assert (Hh : dict_keys h = project_keys)
          by (repeat (apply keys_after_set; [|in_keys]); done)
    end.
    destruct (clone_from env _ _) as [repository|e].
    + assert (Hnew : "is_submodules_cloned" ∉ project_keys).
      { intros Hin. apply list_elem_of_In in Hin. simpl in Hin.
        intuition discriminate. }
      match goal with
      | |- context [after_clone ?x repository ?r0] =>
          assert (Hr0 : dict_keys r0 = project_keys)
            by (apply keys_after_set; [done | in_keys]);
          destruct (after_clone_keys x repository project_keys r0
                      (fun r1 => call_keeps_record _ r1) Hr0
                      ltac:(in_keys) ltac:(in_keys) ltac:(in_keys)
                      ltac:(in_keys) Hnew)
            as [HK|(_ & _ & HK)]; [by left | by right]
      end.
    + left. destruct (is_Exception e); [done|]. apply Hhandlers; [done|in_keys].
  - intros obj r. subst r. unfold clone_wiki.
    rewrite clone_wiki_try_run. cbv zeta.
    match goal with
    | |- context [(Raise _, ?h)] =>
        assert (Hh : dict_keys h = wiki_keys)
          by (repeat (apply keys_after_set; [|in_keys]); done)
    end.
    destruct (clone_from env _ _) as [repository|e].
    + assert (Hnew : "is_submodules_cloned" ∉ wiki_keys).
      { intros Hin. apply list_elem_of_In in Hin. simpl in Hin.
        intuition discriminate. }
      match goal with
      | |- context [after_clone ?x repository ?r0] =>
          assert (Hr0 : dict_keys r0 = wiki_keys)
            by (apply keys_after_set; [done | in_keys]);
          destruct (after_clone_keys x repository wiki_keys r0
                      (fun r1 => eq_refl) Hr0
                      ltac:(in_keys) ltac:(in_keys) ltac:(in_keys)
                      ltac:(in_keys) Hnew)
            as [HK|(_ & _ & HK)]; [by left | by right]
      end.
    + left. destruct (is_Exception e); [done|]. apply Hhandlers; [done|in_keys].
  - intros snippet. unfold clone_snippet, clone_snippet_try.
    unfold bindW, setitem, try_except_Exception, call, ret, getitem.
    destruct (clone_from env _ _) as [repository|e].
    + destruct (dump_json env _) as [[]|e].
      * rewrite dict_get_set_eq. cbn [worker_handlers].
        repeat (apply keys_after_set; [|in_keys]). done.
      * apply Hhandlers; [|in_keys].
        repeat (apply keys_after_set; [|in_keys]). done.
    + destruct (is_Exception e) eqn:He.
      * cbn [worker_handlers].
        repeat (apply keys_after_set; [|in_keys]). done.
      * apply Hhandlers; [|in_keys].
        repeat (apply keys_after_set; [|in_keys]). done.
Qed.
End CloneRecordKeys.

Section CloneBehaviour.
Import Py Objects Clone CloneSpec CloneRecords CloneMachines.
Implicit Types (r : list (string * pyval)) (e : exn) (env : Env).

Ltac read_record :=
  repeat (rewrite dict_get_set_ne by discriminate);
  try rewrite dict_get_set_eq;
  try reflexivity.

(** The submodule list is written before the update is tried. *)
Lemma update_submodules_lists repository r s l :
  submodules repository = s :: l ->
  exists out r', update_submodules repository r = (out, r')
    /\ dict_get "submodules" r' = Some (VList (s :: l)).
Proof.
  intros Hsub. unfold update_submodules. rewrite Hsub.
  unfold try_except_Exception, bindW, setitem, call, ret.
  destruct (submodule_update repository) as [[]|e]; simpl;
    [|destruct (is_Exception e)]; eexists _, _; (split; [reflexivity|]);
    read_record.
Qed.

Lemma after_clone_with_submodules (extra : W unit) repository r s l :
  (forall r0, snd (extra r0) = r0) ->
  submodules repository = s :: l ->
  dict_get "submodules"
    (worker_handlers (after_clone extra repository r))
  = Some (VList (s :: l)).
Proof.
  intros Hextra Hsub.
  destruct (after_clone_chain extra repository r Hextra)
    as (r1 & r2 & r3 & [o1 H1] & H2 & H3 & H4).
  assert (G1 : dict_get "submodules" r1 = Some (VList (s :: l))).
  { destruct (update_submodules_lists repository r s l Hsub)
      as (o & r' & Hrun & Hget).
    rewrite H1 in Hrun. by injection Hrun as <- <-. }
  assert (G2 : dict_get "submodules" r2 = Some (VList (s :: l))).
  { destruct H2 as [->|[o2 H2]]; [done|].
    destruct (update_branches_summary repository r1)
      as (o & r' & Hrun & Hframe & _).
    rewrite H2 in Hrun. injection Hrun as <- <-.
    by rewrite Hframe by discriminate. }
  assert (G3 : dict_get "submodules" r3 = Some (VList (s :: l))).
  { destruct H3 as [->|[b ->]]; [done|]. by rewrite dict_get_set_ne. }
  destruct H4 as [->| ->]; [done|]. by rewrite dict_get_set_ne.
Qed.

(** X3. The record of a repository that has submodules lists them, and never
    has [success]: the flag [is_submodules_updated], which [success]
    compares with the list, stays false whatever the outcome of the
    update. *)
Theorem repository_with_submodules_never_succeeds env repository :
  submodules repository <> [] ->
  (forall (project : Project) (target_path : string),
     clone_from env (project_web_url project) target_path = Ok repository ->
     let r := clone_project env (project, target_path) in
     dict_get "submodules" r = Some (VList (submodules repository))
     /\ dict_get "is_submodules_updated" r = Some (VBool false)
     /\ dict_get "success" r = Some (VBool false))
  /\ (forall (obj : WikiOwner) (target_path : string),
        clone_from env (owner_web_url obj +:+ ".wiki.git") target_path
        = Ok repository ->
        let r := clone_wiki env (obj, target_path) in
        dict_get "submodules" r = Some (VList (submodules repository))
        /\ dict_get "is_submodules_updated" r = Some (VBool false)
        /\ dict_get "success" r = Some (VBool false)).
Proof.
  intros Hne. destruct (submodules repository) as [|s l] eqn:Hsub; [done|].
  assert (Hkey : "is_submodules_updated" ∉ reconciled_keys).
  { intros Hin. apply list_elem_of_In in Hin. simpl in Hin.
    intuition discriminate. }
  split.
  - intros project target_path Hclone r.
    assert (Hsubs : dict_get "submodules" r = Some (VList (s :: l))).
    { subst r. unfold clone_project. rewrite clone_project_try_run. cbv zeta.
      rewrite Hclone. apply after_clone_with_submodules;
        [apply call_keeps_record | done]. }
    split; [done|]. split.
    + subst r. unfold clone_project. rewrite clone_project_try_run. cbv zeta.
      rewrite Hclone.
      rewrite after_clone_frame; [read_record | apply call_keeps_record | done].
    + destruct (clone_project_has_success env (project, target_path))
        as [b Hb].
      apply (flag_false_of_bool _ _ b Hb). intros Hs.
      apply (proj1 (clone_project_success env (project, target_path)))
        in Hs as (_ & [Hempty|Hupd] & _).
      * unfold flag in Hempty. fold r in Hempty. by rewrite Hsubs in Hempty.
      * destruct (clone_project_success env (project, target_path)) as [_ _].
        unfold flag in Hupd. unfold clone_project in Hupd.
        rewrite clone_project_try_run in Hupd. cbv zeta in Hupd.
        rewrite Hclone in Hupd.
        rewrite after_clone_frame in Hupd;
          [|apply call_keeps_record | done].
        revert Hupd. read_record. done.
  - intros obj target_path Hclone r.
    assert (Hsubs : dict_get "submodules" r = Some (VList (s :: l))).
    { subst r. unfold clone_wiki. rewrite clone_wiki_try_run. cbv zeta.
      rewrite Hclone. by apply after_clone_with_submodules. }
    split; [done|]. split.
    + subst r. unfold clone_wiki. rewrite clone_wiki_try_run. cbv zeta.
      rewrite Hclone. rewrite after_clone_frame; [read_record | done | done].
    + destruct (clone_wiki_has_success env (obj, target_path)) as [b Hb].
      apply (flag_false_of_bool _ _ b Hb). intros Hs.
      apply (proj2 (clone_wiki_success env (obj, target_path)))
        in Hs as (_ & Hempty & _).
      unfold flag in Hempty. fold r in Hempty. by rewrite Hsubs in Hempty.
Qed.

(** The sample project, whose repository has one submodule, on a machine
    where every command succeeds. *)
Lemma repository_with_submodules_never_succeeds_witness :
  dict_get "success"
    (clone_project (healthy_env repo_with_submodule)
       (sample_project, "/backup/org/proj"))
  = Some (VBool false).
Proof.
  apply (proj1 (repository_with_submodules_never_succeeds
                  (healthy_env repo_with_submodule) repo_with_submodule
                  ltac:(discriminate))
           sample_project "/backup/org/proj" eq_refl).
Defined.

(** A tracking branch that cannot be created is skipped. *)
Lemma tracking_loop_soft repository (branches : list string) r :
  tracking_fails_softly repository ->
  for_in branches (track_branch repository) r = (Ok tt, r).
Proof.
  intros Hsoft. induction branches as [|b bs IH]; [done|].
  cbn [for_in]. unfold bindW, track_branch at 1.
  unfold try_except_Exception, call.
  match goal with |- context [git_branch_track repository ?l ?b'] =>
    specialize (Hsoft l b'); destruct (git_branch_track repository l b')
      as [[]|e] end; [exact IH|].
  rewrite Hsoft. exact IH.
Qed.

Lemma update_branches_soft repository r :
  tracking_fails_softly repository ->
  update_branches repository r
  = update_branches (with_tracking_succeeding repository) r.
Proof.
  intros Hsoft.
  assert (Hsoft' : tracking_fails_softly (with_tracking_succeeding repository))
    by (by intros l b).
  unfold update_branches, bindW.
  cbn [with_tracking_succeeding git_branch_all git_fetch_all git_pull_all].
  destruct (call (git_branch_all repository) r) as [[out|e] r0]; [|done].
  destruct (setitem "branches" (VList (remote_branches_of out)) r0)
    as [[[]|e] r1]; [|done].
  destruct (1 <? length (remote_branches_of out))%nat; [|done].
  rewrite (tracking_loop_soft repository) by done.
  rewrite (tracking_loop_soft (with_tracking_succeeding repository)) by done.
  done.
Qed.

(** X4. Tracking is best effort: when [git branch --track] fails for some or
    all branches, every record is the one the worker would have made had
    each of them been tracked. *)
Theorem tracking_failures_change_no_record env :
  tracking_fails_softly_everywhere env ->
  (forall args : Project * string,
     clone_project env args
     = clone_project (with_tracking_succeeding_everywhere env) args)
  /\ (forall args : WikiOwner * string,
        clone_wiki env args
        = clone_wiki (with_tracking_succeeding_everywhere env) args).
Proof.
  intros Hsoft. split.
  - intros [project target_path]. unfold clone_project. f_equal.
    rewrite !clone_project_try_run. cbv zeta.
    cbn [with_tracking_succeeding_everywhere clone_from dump_json].
    destruct (clone_from env _ _) as [repository|e] eqn:Hclone; [|done].
    unfold after_clone, bindW.
    change (update_submodules (with_tracking_succeeding repository))
      with (update_submodules repository).
    destruct (update_submodules repository _) as [[[]|e1] r1]; [|done].
    rewrite <- update_branches_soft by (by eapply Hsoft). done.
  - intros [obj target_path]. unfold clone_wiki. f_equal.
    rewrite !clone_wiki_try_run. cbv zeta.
    cbn [with_tracking_succeeding_everywhere clone_from dump_json].
    destruct (clone_from env _ _) as [repository|e] eqn:Hclone; [|done].
    unfold after_clone, bindW.
    change (update_submodules (with_tracking_succeeding repository))
      with (update_submodules repository).
    destruct (update_submodules repository _) as [[[]|e1] r1]; [|done].
    rewrite <- update_branches_soft by (by eapply Hsoft). done.
Qed.

(** A repository with two branches, neither of which can be tracked. *)
Lemma tracking_failures_change_no_record_witness :
  clone_project (healthy_env untrackable_repo)
    (sample_project, "/backup/org/proj")
  = clone_project
      (with_tracking_succeeding_everywhere (healthy_env untrackable_repo))
      (sample_project, "/backup/org/proj")
  /\ dict_get "success"
       (clone_project (healthy_env untrackable_repo)
          (sample_project, "/backup/org/proj"))
     = Some (VBool true).
Proof.
  split; [|by vm_compute].
  apply (proj1 (tracking_failures_change_no_record
                  (healthy_env untrackable_repo)
                  ltac:(by intros url to_path repository [= <-] l b))).
Defined.
End CloneBehaviour.

Section CloneEdges.
Import Py Objects Clone CloneSpec CloneRecords CloneMachines.
Implicit Types (r : list (string * pyval)) (e : exn) (env : Env).

Ltac read_record :=
  repeat (rewrite dict_get_set_ne by discriminate);
  try rewrite dict_get_set_eq;
  try reflexivity.

(** With at most one remote branch there is nothing to track, fetch or
    pull: the branches count as updated without any of these commands. *)
Lemma update_branches_single repository r out :
  git_branch_all repository = Ok out ->
  (length (remote_branches_of out) <= 1)%nat ->
  update_branches repository r
  = (Ok tt,
     dict_set "is_branches_updated" (VBool true)
       (dict_set "branches" (VList (remote_branches_of out)) r)).
Proof.
  intros Hout Hlen. unfold update_branches, bindW, call, setitem.
  rewrite Hout.
  destruct (Nat.ltb_spec 1 (length (remote_branches_of out))); [lia | done].
Qed.

(** X5. A project without submodules and with at most one remote branch is
    backed up as soon as it is cloned and its sidecar document written:
    its record has [success], also when the network goes away after the
    clone, since neither a fetch nor a pull is made for it. *)
Theorem single_branch_project_succeeds env (project : Project)
    (target_path : string) repository (out : string) :
  clone_from env (project_web_url project) target_path = Ok repository ->
  submodules repository = [] ->
  git_branch_all repository = Ok out ->
  (length (remote_branches_of out) <= 1)%nat ->
  dump_json env
    (target_path +:+ "/../project_" +:+ str_of_int (project_id project)
     +:+ ".json") = Ok tt ->
  let r := clone_project env (project, target_path) in
  dict_get "success" r = Some (VBool true)
  /\ dict_get "is_branches_updated" r = Some (VBool true)
  /\ dict_get "branches" r = Some (VList (remote_branches_of out)).
Proof.
  intros Hclone Hsub Hout Hlen Hdump r. subst r.
  repeat split;
    (unfold clone_project; rewrite clone_project_try_run; cbv zeta;
     rewrite Hclone; unfold after_clone, bindW at 1;
     unfold update_submodules; rewrite Hsub; cbn [ret];
     unfold bindW at 1;
     rewrite (update_branches_single repository _ out Hout Hlen);
     unfold bindW at 1, call at 1; rewrite Hdump;
     match goal with |- context [set_success ?r0] =>
       rewrite (set_success_run r0 (VBool true) (VList []) (VBool false)
                  (VBool true)) by read_record
     end;
     cbn [worker_handlers truthy bool_is Bool.eqb andb];
     read_record).
Qed.

(** The sample project with one branch, on a machine where neither a
    fetch nor a pull would answer. *)
Lemma single_branch_project_succeeds_witness :
  dict_get "success"
    (clone_project (healthy_env offline_repo)
       (sample_project, "/backup/org/proj"))
  = Some (VBool true).
Proof.
  apply (single_branch_project_succeeds (healthy_env offline_repo)
           sample_project "/backup/org/proj" offline_repo
           ("* main" +:+ newline
            +:+ "  remotes/origin/HEAD -> origin/main" +:+ newline
            +:+ "  remotes/origin/main"));
    [reflexivity | reflexivity | reflexivity | vm_compute; lia | reflexivity].
Defined.

(** X6. On a machine with one or two cores no orchestrator clones anything,
    whatever it is given: the size of the pool is then 0 or -1, which
    [Pool] refuses. *)
Theorem no_pool_below_three_cores env (n : Z) (backup_dir : string) :
  cpu_count env = Some n -> n <= 2 ->
  (forall (K : Type) (projects : list (K * Project)),
     clone_projects env projects backup_dir = Raise ValueError)
  /\ (forall (K : Type) (obj : list (K * WikiOwner)),
        clone_wikis env obj backup_dir = Raise ValueError)
  /\ (forall (K : Type) (snippets : list (K * Snippet)),
        mkdir env (path_join backup_dir "snippets") = Ok tt ->
        clone_snippets env snippets backup_dir = Raise ValueError).
Proof.
  intros Hn Hle.
  assert (Hpool : forall (A B : Type) (f : A -> B) xs,
            Pool_map (Z.min 1 (n - 2)) f xs = Raise ValueError).
  { intros A B f xs. unfold Pool_map.
    destruct (Z.ltb_spec (Z.min 1 (n - 2)) 1); [done | lia]. }
  split; [|split].
  - intros K projects. unfold clone_projects.
    rewrite (pool_processes_Ok env n Hn). cbn [bind]. by rewrite Hpool.
  - intros K obj. unfold clone_wikis.
    rewrite (pool_processes_Ok env n Hn). cbn [bind]. by rewrite Hpool.
  - intros K snippets Hmk. unfold clone_snippets. rewrite Hmk. cbn [bind].
    rewrite (pool_processes_Ok env n Hn). cbn [bind]. by rewrite Hpool.
Qed.

Lemma no_pool_below_three_cores_witness :
  clone_wikis two_core_env
    [("P5", OfProject sample_project)] "/backup" = Raise ValueError.
Proof.
  apply (proj1 (proj2 (no_pool_below_three_cores two_core_env 2 "/backup"
                         eq_refl ltac:(lia)))).
Defined.
End CloneEdges.

(* ================================================================== *)
(** * More about [foxysafe/gitlab/download.py]                         *)
(* ================================================================== *)

Section StringFacts.
Import Py Download.

Lemma append_cons (c : ascii) (a b : string) :
  String c a +:+ b = String c (a +:+ b).
Proof. reflexivity. Qed.

Lemma append_nil (b : string) : "" +:+ b = b.
Proof. reflexivity. Qed.

Lemma string_app_assoc (a b c : string) : (a +:+ b) +:+ c = a +:+ (b +:+ c).
Proof.
  induction a as [|x a IH]; [by rewrite !append_nil|].
  rewrite !append_cons. by rewrite IH.
Qed.

Lemma string_length_app (a b : string) :
  String.length (a +:+ b) = (String.length a + String.length b)%nat.
Proof.
  induction a as [|c a IH]; [done|].
  rewrite append_cons. simpl. by rewrite IH.
Qed.

Lemma string_take_drop (n : nat) (s : string) :
  string_take n s +:+ string_drop n s = s.
Proof.
  revert s. induction n as [|n IH]; intros [|c s]; simpl; try done.
  rewrite append_cons. by rewrite IH.
Qed.

Lemma prefix_app_same (a b c : string) :
  String.prefix (a +:+ b) (a +:+ c) = String.prefix b c.
Proof.
  induction a as [|x a IH]; [by rewrite !append_nil|].
  rewrite !append_cons. cbn [String.prefix].
  destruct (ascii_dec x x); [exact IH | done].
Qed.

Lemma prefix_app_self (a b : string) : String.prefix a (a +:+ b) = true.
Proof.
  induction a as [|x a IH]; [rewrite append_nil; by destruct b|].
  rewrite append_cons. cbn [String.prefix].
  destruct (ascii_dec x x); [exact IH | done].
Qed.

(** a prefix can be cut off *)
Lemma prefix_split (a s : string) :
  String.prefix a s = true -> s = a +:+ string_drop (String.length a) s.
Proof.
  revert s. induction a as [|x a IH]; intros s; [done|].
  destruct s as [|y s]; [done|]. cbn [String.prefix].
  destruct (ascii_dec x y) as [->|]; [|done].
  intros H. rewrite append_cons. cbn [String.length string_drop].
  f_equal. by apply IH.
Qed.
End StringFacts.

Section UploadPattern.
Import Py Objects Download DownloadSpec DownloadMore.

Lemma take_while_forall (p : ascii -> bool) (s : string) :
  string_forall p (take_while p s) = true.
Proof.
  induction s as [|c s IH]; simpl; [done|].
  destruct (p c) eqn:Hc; simpl; [by rewrite Hc | done].
Qed.

Lemma take_while_prefix (p : ascii -> bool) (s : string) :
  String.prefix (take_while p s) s = true.
Proof.
  induction s as [|c s IH]; [done|]. cbn [take_while].
  destruct (p c); [|done]. cbn [String.prefix].
  destruct (ascii_dec c c); [exact IH | done].
Qed.

(** a match at the head of the text *)
Lemma match_upload_shape (s m : string) :
  match_upload s = Some m ->
  upload_reference m /\ String.prefix m s = true.
Proof.
  unfold match_upload.
  destruct (String.prefix "uploads/" s) eqn:Hp; [|done].
  destruct (take_while upload_char (string_drop 8 s)) as [|c run] eqn:Hrun;
    [done|].
  intros [= <-]. split.
  - exists (String c run). split; [done|]. split; [done|].
    rewrite <- Hrun. apply take_while_forall.
  - pose proof (prefix_split "uploads/" s Hp) as Hs.
    cbn [String.length] in Hs.
    remember (string_drop 8 s) as t eqn:Ht. rewrite Hs.
    rewrite prefix_app_same, <- Hrun. apply take_while_prefix.
Qed.

Lemma findall_upload_shape (s : string) :
  forall (skip : nat) (m : string),
    m ∈ findall_upload skip s -> upload_reference m /\ occurs_in m s.
Proof.
  induction s as [|c s IH]; intros skip m; cbn [findall_upload].
  { intros Hin. by apply elem_of_nil in Hin. }
  assert (Hlater : forall k, m ∈ findall_upload k s ->
            upload_reference m /\ occurs_in m (String c s)).
  { intros k Hin. destruct (IH k m Hin) as [Href (i & Hi)].
    split; [done|]. by exists (S i). }
  destruct skip as [|k]; [|apply Hlater].
  destruct (match_upload (String c s)) as [m0|] eqn:Hm; [|apply Hlater].
  intros Hin. apply elem_of_cons in Hin as [->|Hin]; [|by eapply Hlater].
  destruct (match_upload_shape _ _ Hm) as [Href Hpre].
  split; [done|]. by exists 0%nat.
Qed.

(** X12. Every match of the upload pattern is a piece of the text that was
    scanned, and is made of [uploads/] followed by at least one letter,
    digit, slash, underscore, dot or hyphen: it is never empty. *)
Theorem upload_matches_are_references (s m : string) :
  m ∈ FILE_UPLOAD_PATTERN s ->
  upload_reference m /\ occurs_in m s /\ m <> "".
Proof.
  intros Hin. destruct (findall_upload_shape s 0 m Hin) as [Href Hocc].
  split; [done|]. split; [done|].
  destruct Href as (run & -> & _). discriminate.
Qed.

Lemma upload_matches_are_references_witness :
  upload_reference "uploads/abc/shot.png"
  /\ occurs_in "uploads/abc/shot.png" "![shot](/uploads/abc/shot.png)".
Proof.
  destruct (upload_matches_are_references "![shot](/uploads/abc/shot.png)"
              "uploads/abc/shot.png") as (Href & Hocc & _);
    [vm_compute; by constructor | done].
Defined.
End UploadPattern.

Section FindMatchesAll.
Import Py Objects Download DownloadSpec DownloadMore.
Implicit Types (obj : pyobj) (pattern : Pattern) (found : list string).

(** A leaf that does not pass the hint stops the search, wherever it is:
    the call made for it raises, and so does every call above it. *)
Lemma find_matches_unhinted obj pattern found :
  all_hinted obj = false ->
  find_matches obj pattern (Some found) = Raise BeartypeCallHintParamViolation.
Proof.
  revert found. induction obj as [ | b | n | s | l IH | d IH ]
    using pyobj_nested_ind; intros found Hh; try done.
  - cbn [find_matches obj_hint]. cbn [all_hinted] in Hh. revert found.
    induction IH as [|x l Hx _ IHl]; intros found; [done|].
    cbn [forallb] in Hh. destruct (all_hinted x) eqn:Hhx.
    + rewrite find_matches_hinted by done. cbn [bind]. by apply IHl.
    + by rewrite Hx.
  - cbn [find_matches obj_hint]. cbn [all_hinted] in Hh. revert found.
    induction IH as [|[k v] d Hv _ IHd]; intros found; [done|].
    cbn [forallb snd] in Hh. cbn [snd] in Hv.
    destruct (all_hinted v) eqn:Hhv.
    + rewrite find_matches_hinted by done. cbn [bind]. by apply IHd.
    + by rewrite Hv.
Qed.

(** X13. [find_matches] in full. On a value whose leaves are strings or [None]
    it answers with the matches of every string, in the order of the
    traversal. On any other value, one that holds a number or a boolean
    at whatever depth, it raises the violation of the hint of [obj] and
    answers with none of the matches, those of the strings it had passed
    included. *)
Theorem find_matches_characterised obj pattern :
  find_matches obj pattern None
  = if all_hinted obj
    then Ok (flat_map pattern (strings_of obj))
    else Raise BeartypeCallHintParamViolation.
Proof.
  destruct (all_hinted obj) eqn:Hh.
  - by apply find_matches_on_hinted_values.
  - transitivity (find_matches obj pattern (Some [])).
    + by destruct obj.
    + by apply find_matches_unhinted.
Qed.
End FindMatchesAll.

Section AttachmentUrls.
Import Py Objects Download DownloadSpec DownloadMore.

(** the scan of a text that is a string or [None] is never refused *)
Lemma find_matches_text (text : option string) (pattern : Pattern) :
  find_matches (text_obj text) pattern None
  = Ok (match text with Some s => pattern s | None => [] end).
Proof. by destruct text. Qed.

(** The loop over the pages, when every page can be fetched. *)
Lemma wiki_pages_matches (wikis : WikiManager) (pattern : Pattern)
    (pages contents : list string) (matches : list string) :
  Forall2 (fun slug content => wikis_get wikis slug = Ok content)
    pages contents ->
  for_each
    (fun matches slug =>
       bind (wikis_get wikis slug) (fun content =>
       bind (find_matches (PStr content) pattern None) (fun found =>
       Ok (matches ++ found))))
    pages matches
  = Ok (matches ++ flat_map pattern contents).
Proof.
  intros Hall. revert matches.
  induction Hall as [|slug content pages contents Hget _ IH]; intros matches.
  - cbn. by rewrite app_nil_r.
  - cbn [for_each flat_map]. rewrite Hget. cbn [bind find_matches obj_hint].
    rewrite IH. by rewrite <- app_assoc.
Qed.

(** X14. For a wiki whose pages can be listed and fetched,
    [get_wiki_attachment_urls] answers with one URL for each match of each
    page that is not the empty string, in the order of the pages, and
    each URL lies under the wiki of the object, [<web_url>/-/wikis/]. *)
Theorem wiki_attachment_urls_of_pages (obj : WikiOwner) (pattern : Pattern)
    (wikis : WikiManager) (pages contents : list string) :
  owner_wikis obj = Some wikis ->
  wikis_list wikis = Ok pages ->
  Forall2 (fun slug content => wikis_get wikis slug = Ok content)
    pages contents ->
  exists urls,
    get_wiki_attachment_urls obj pattern = Ok urls
    /\ urls = map (wiki_attachment_url (owner_web_url obj))
                (filter (fun m => m <> "") (flat_map pattern contents))
    /\ Forall (fun url =>
                 String.prefix (owner_web_url obj +:+ "/-/wikis/") url = true)
              urls.
Proof.
  intros Hwikis Hlist Hpages. unfold get_wiki_attachment_urls.
  rewrite Hwikis, Hlist. cbn [bind].
  rewrite (wiki_pages_matches wikis pattern pages contents [] Hpages).
  cbn [bind app]. eexists. split; [reflexivity|]. split; [reflexivity|].
  apply Forall_forall. intros url Hin.
  apply list_elem_of_fmap in Hin as (m & -> & _).
  unfold wiki_attachment_url.
  rewrite prefix_app_same. apply prefix_app_self.
Qed.

Lemma wiki_attachment_urls_of_pages_witness :
  exists urls,
    get_wiki_attachment_urls (OfProject wiki_project) FILE_UPLOAD_PATTERN
    = Ok urls
    /\ length urls = 1%nat.
Proof.
  destruct (wiki_attachment_urls_of_pages (OfProject wiki_project)
              FILE_UPLOAD_PATTERN
              {| wikis_list := Ok ["home"];
                 wikis_get := fun slug =>
                   if String.eqb slug "home"
                   then Ok "See ![file](/uploads/-/abc/file.png) for details."
                   else Raise GitlabGetError |}
              ["home"]
              ["See ![file](/uploads/-/abc/file.png) for details."])
    as (urls & Hrun & -> & _);
    [reflexivity | reflexivity | by repeat constructor |].
  eexists. split; [exact Hrun|]. vm_compute. reflexivity.
Defined.

(** one step of [replace] *)
Lemma replace_from_head (old new : string) (c : ascii) (s : string) :
  replace_from old new 0 (String c s)
  = if String.prefix old (String c s)
    then new +:+ replace_from old new (String.length old - 1) s
    else String c (replace_from old new 0 s).
Proof. reflexivity. Qed.

Lemma replace_from_step (old new : string) (c : ascii) (s : string) :
  String.prefix old (String c s) = false ->
  replace_from old new 0 (String c s) = String c (replace_from old new 0 s).
Proof. intros H. by rewrite replace_from_head, H. Qed.

(** the rewrite of a reference keeps it under [uploads/] *)
Lemma issue_rewrite_keeps_uploads (run : string) :
  String.prefix "uploads/"
    (if contains "uploads/-" ("uploads/" +:+ run)
     then replace "uploads/-/" "uploads/" ("uploads/" +:+ run)
     else "uploads/" +:+ run) = true.
Proof.
  destruct (contains "uploads/-" ("uploads/" +:+ run)); [|apply prefix_app_self].
  unfold replace. rewrite !append_cons, append_nil.
  rewrite replace_from_head.
  destruct (String.prefix "uploads/-/" _).
  - apply (prefix_app_self "uploads/").
  - rewrite !replace_from_step by reflexivity.
    apply (prefix_app_self "uploads/").
Qed.

(** what [get_issue_attachment_urls] answers with the upload pattern *)
Lemma issue_attachment_urls_run (obj : Described) (is_note : bool)
    (web_url : string) :
  get_issue_attachment_urls obj FILE_UPLOAD_PATTERN is_note web_url
  = Ok (map (issue_attachment_url (issue_base_url obj is_note web_url))
          (match scanned_text obj is_note with
           | Some s => FILE_UPLOAD_PATTERN s
           | None => []
           end)).
Proof.
  unfold get_issue_attachment_urls, scanned_text, issue_base_url.
  by destruct is_note; cbn [negb]; rewrite find_matches_text.
Qed.

(** the URL made of a reference lies under [<base>/uploads/] *)
Lemma issue_urls_under_uploads (base : string) (text : option string) :
  Forall (fun url => String.prefix (base +:+ "/uploads/") url = true)
    (map (issue_attachment_url base)
       (match text with
        | Some s => FILE_UPLOAD_PATTERN s
        | None => []
        end)).
Proof.
  apply Forall_forall. intros url Hin.
  apply list_elem_of_fmap in Hin as (m & -> & Hm).
  assert (Href : upload_reference m).
  { destruct text as [s|]; [|by apply elem_of_nil in Hm].
    by apply (findall_upload_shape s 0 m). }
  destruct Href as (run & -> & _). unfold issue_attachment_url.
  change (base +:+ "/uploads/") with (base +:+ ("/" +:+ "uploads/")).
  rewrite !prefix_app_same. apply issue_rewrite_keeps_uploads.
Qed.

(** X15. [get_issue_attachment_urls] never fails. With the upload pattern it
    answers with one URL for each reference in the description of the
    issue, or in the body of the note, none if that text is [None]; each
    URL lies under [<base>/uploads/], where the base is the URL of the
    issue, for a note the URL passed along for its issue, cut at the first
    [/-/issues/]. *)
Theorem issue_attachment_urls_lie_under_uploads (obj : Described)
    (is_note : bool) (web_url : string) :
  exists urls,
    get_issue_attachment_urls obj FILE_UPLOAD_PATTERN is_note web_url = Ok urls
    /\ length urls
       = length (match scanned_text obj is_note with
                 | Some s => FILE_UPLOAD_PATTERN s
                 | None => []
                 end)
    /\ Forall (fun url =>
                 String.prefix
                   (issue_base_url obj is_note web_url +:+ "/uploads/") url
                 = true) urls.
Proof.
  rewrite issue_attachment_urls_run. eexists. split; [reflexivity|].
  split; [by rewrite length_map | apply issue_urls_under_uploads].
Qed.

(** whatever [get_wiki_attachment_urls] answers lies under the wiki *)
Lemma wiki_urls_under_wikis (obj : WikiOwner) (pattern : Pattern)
    (urls : list string) :
  get_wiki_attachment_urls obj pattern = Ok urls ->
  Forall (fun url =>
            String.prefix (owner_web_url obj +:+ "/-/wikis/") url = true)
    urls.
Proof.
  unfold get_wiki_attachment_urls.
  destruct (owner_wikis obj) as [wikis|]; [|done].
  destruct (wikis_list wikis) as [pages|]; [|done]. cbn [bind].
  destruct (for_each _ pages []) as [matches|]; [|done]. cbn [bind].
  intros [= <-]. apply Forall_forall. intros url Hin.
  apply list_elem_of_fmap in Hin as (m & -> & _).
  unfold wiki_attachment_url.
  rewrite prefix_app_same. apply prefix_app_self.
Qed.
End AttachmentUrls.

Section LocalFileNames.
Import Py Objects Download DownloadSpec DownloadMore.

(** [Path(name).stem + Path(name).suffix] is the name *)
Lemma stem_suffix (name : string) : stem name +:+ suffix name = name.
Proof.
  unfold stem, suffix. destruct (suffix_index name) as [i|].
  - apply string_take_drop.
  - clear. induction name as [|c name IH]; [done|].
    rewrite append_cons. by rewrite IH.
Qed.

(** the name tried next is longer than the name tried last *)
Lemma next_name_longer (name : string) (i : Z) :
  (String.length name
   < String.length (stem name +:+ "_" +:+ str_of_int i +:+ suffix name))%nat.
Proof.
  rewrite !string_length_app.
  rewrite <- (stem_suffix name) at 1. rewrite string_length_app.
  cbn [String.length]. lia.
Qed.

Lemma entry_not_longer (entries : list string) (name : string) :
  name ∈ entries -> (String.length name <= longest_entry entries)%nat.
Proof.
  unfold longest_entry. induction entries as [|e entries IH]; intros Hin.
  { by apply elem_of_nil in Hin. }
  cbn [map list_max fold_right]. apply elem_of_cons in Hin as [->|Hin].
  - lia.
  - specialize (IH Hin). unfold list_max in IH. lia.
Qed.

Lemma free_local_filename_free (entries : list string) :
  forall (fuel : nat) (i : Z) (name : string),
    (longest_entry entries < String.length name + fuel)%nat ->
    exists chosen,
      free_local_filename fuel entries i name = Some chosen
      /\ (chosen ∉ entries)
      /\ ((name ∉ entries) -> chosen = name).
Proof.
  induction fuel as [|fuel IH]; intros i name Hlen.
  - cbn [free_local_filename]. case_bool_decide as Hin.
    + apply entry_not_longer in Hin. lia.
    + by exists name.
  - cbn [free_local_filename]. case_bool_decide as Hin; [|by exists name].
    destruct (IH (i + 1)
                (stem name +:+ "_" +:+ str_of_int (i + 1) +:+ suffix name))
      as (chosen & Hrun & Hfree & _).
    { pose proof (next_name_longer name (i + 1)). lia. }
    exists chosen. split; [done|]. split; [done|]. done.
Qed.

(** X16. The downloader does not write over a file that is there. For a URL
    whose file the code writes itself, and whatever the download directory
    holds, the loop that picks the local file name ends, after no more
    turns than the longest name in the directory has characters, and the
    name it picks is the name of no entry; it is the last piece of the URL
    when no entry has that name. *)
Theorem local_filename_is_free (entries : list string) (file_url : string) :
  written_by_the_code file_url = true ->
  exists chosen,
    local_filename_for (S (longest_entry entries)) entries file_url
    = Some chosen
    /\ (chosen ∉ entries)
    /\ ((last_piece (split "/" file_url) ∉ entries) ->
        chosen = last_piece (split "/" file_url)).
Proof.
  intros _. unfold local_filename_for. apply free_local_filename_free. lia.
Qed.

Lemma local_filename_is_free_witness :
  written_by_the_code "https://forge.example/org/proj/uploads/abc/file.png"
  = true
  /\ exists chosen,
       local_filename_for 11 ["file.png"; "file_1.png"]
         "https://forge.example/org/proj/uploads/abc/file.png"
       = Some chosen
       /\ (chosen ∉ ["file.png"; "file_1.png"])
       /\ ((last_piece
              (split "/" "https://forge.example/org/proj/uploads/abc/file.png")
            ∉ ["file.png"; "file_1.png"]) ->
           chosen
           = last_piece
               (split "/"
                  "https://forge.example/org/proj/uploads/abc/file.png")).
Proof.
  split; [reflexivity|].
  apply (local_filename_is_free ["file.png"; "file_1.png"]
           "https://forge.example/org/proj/uploads/abc/file.png").
  reflexivity.
Defined.

(** The counter is appended to the name tried last, not to the name the
    loop started with: after [file.png] and [file_1.png] comes
    [file_1_2.png]. *)
Lemma local_filename_after_two_collisions :
  local_filename_for 11 ["file.png"; "file_1.png"]
    "https://forge.example/org/proj/uploads/abc/file.png"
  = Some "file_1_2.png".
Proof. by vm_compute. Qed.
End LocalFileNames.

Section ItemDownloads.
Import Py Objects Download DownloadSpec DownloadMore BackupItems BackupItemsSpec.

(** an event of a log without call of the downloader is no such call *)
Tactic Notation "other_call" "in" hyp(H) :=
  repeat (apply elem_of_cons in H as [->|H]; [discriminate|]);
  by apply elem_of_nil in H.
Tactic Notation "other_call" :=
  let H := fresh in intros H ?; other_call in H.

(** the log of [if file_urls: download_file_from_url(...)] *)
Lemma download_if_any_log (world : World) (config : Access)
    (tested : list string) (file_urls : list string) (download_dir : string)
    (log : list event) (e : event) :
  e ∈ snd (match tested with
           | [] => ret tt
           | _ :: _ => download world config file_urls download_dir
           end log) ->
  e ∈ log
  \/ (tested <> []
      /\ e = Download (gitlab_server config) (gitlab_username config)
               (gitlab_password config) file_urls download_dir).
Proof.
  destruct tested as [|url tested]; cbn [ret snd]; [by left|].
  unfold download, perform. cbn [snd]. intros Hin.
  apply elem_of_app in Hin as [Hin|Hin]; [by left|].
  apply list_elem_of_singleton in Hin. by right.
Qed.

(** The backup of an issue with two references: the JSON document, the
    markdown file, then one call of the downloader. *)
Lemma backup_of_issue_seven :
  backup_issue willing_world forge_access backed_issue_seven "org/proj"
    "/backup" false "" []
  = (Ok tt,
     [Mkdir "/backup/org/proj/issues/7";
      Open "/backup/org/proj/issues/7/7.json";
      Write "/backup/org/proj/issues/7/7.json" "{}";
      Open "/backup/org/proj/issues/7/7.md";
      Write "/backup/org/proj/issues/7/7.md"
        "Broken: ![shot](uploads/abc/shot.png), log in uploads/-/q/r.txt";
      Download "https://forge.example" "backup" "secret"
        ["https://forge.example/org/proj/uploads/abc/shot.png";
         "https://forge.example/org/proj/uploads/q/r.txt"]
        "/backup/org/proj/issues/7"]).
Proof. by vm_compute. Qed.

(** X19. What the backup of an item hands to the downloader. Each of the
    three backups calls the downloader with the credentials of the
    configuration, with the directory of the item, and with a list of
    URLs that is not empty: without a reference in the text no browser is
    started. The URLs of a wiki lie under [<web_url>/-/wikis/], those of
    an issue or note under [<base>/uploads/], those of a snippet under
    [<gitlab_server>/uploads/]. *)
Theorem item_backups_download_references (world : World) (config : Access)
    (backup_dir : string) :
  (forall (obj : WikiOwner) (path_with_namespace : string) e,
     e ∈ snd (backup_wiki_attachements world config obj path_with_namespace
                backup_dir []) ->
     is_download e = true ->
     exists file_urls,
       e = Download (gitlab_server config) (gitlab_username config)
             (gitlab_password config) file_urls
             (wiki_download_dir path_with_namespace backup_dir)
       /\ file_urls <> []
       /\ all_under (owner_web_url obj +:+ "/-/wikis/") file_urls)
  /\ (forall (obj : Backed) (path_with_namespace : string) (is_note : bool)
        (web_url : string) e,
        e ∈ snd (backup_issue world config obj path_with_namespace backup_dir
                   is_note web_url []) ->
        is_download e = true ->
        exists file_urls,
          e = Download (gitlab_server config) (gitlab_username config)
                (gitlab_password config) file_urls
                (issue_download_dir obj path_with_namespace backup_dir
                   is_note)
          /\ file_urls <> []
          /\ all_under
               (issue_base_url (backed_described obj) is_note web_url
                +:+ "/uploads/") file_urls)
  /\ (forall (snippet : Snippet) (description : option string) e,
        e ∈ snd (backup_snippet_attachements world config snippet
                   description backup_dir []) ->
        is_download e = true ->
        exists file_urls,
          e = Download (gitlab_server config) (gitlab_username config)
                (gitlab_password config) file_urls
                (snippet_download_dir snippet backup_dir)
          /\ file_urls <> []
          /\ all_under (gitlab_server config +:+ "/uploads/") file_urls).
Proof.
  split; [|split].
  - intros obj path_with_namespace e.
    unfold backup_wiki_attachements, bindM, perform, inside. cbn [app].
    destruct (mkdir world _) as [[]|]; cbn [snd]; [|by other_call].
    destruct (get_wiki_attachment_urls obj FILE_UPLOAD_PATTERN)
      as [file_urls|] eqn:Hurls; cbn [snd]; [|by other_call].
    intros Hin Hd.
    apply download_if_any_log in Hin as [Hin|[Hany ->]];
      [by other_call in Hin|].
    exists file_urls. split; [done|]. split; [done|].
    by apply (wiki_urls_under_wikis obj FILE_UPLOAD_PATTERN).
  - intros obj path_with_namespace is_note web_url e.
    unfold backup_issue, bindM, perform, inside. cbn [app].
    rewrite issue_attachment_urls_run.
    destruct (mkdir world _) as [[]|]; cbn [snd]; [|by other_call].
    destruct (open_w world (issue_json_path _ _ _ _)) as [[]|]; cbn [snd];
      [|by other_call].
    destruct (write world _ _) as [[]|]; cbn [snd]; [|by other_call].
    destruct (open_w world (issue_md_path _ _ _ _)) as [[]|]; cbn [snd];
      [|by other_call].
    destruct (if negb is_note then _ else _) as [content|]; cbn [snd];
      [|by other_call].
    destruct (write world _ content) as [[]|]; cbn [snd]; [|by other_call].
    intros Hin Hd.
    apply download_if_any_log in Hin as [Hin|[Hany ->]];
      [by other_call in Hin|].
    eexists. split; [reflexivity|]. split; [done|].
    apply issue_urls_under_uploads.
  - intros snippet description e.
    unfold backup_snippet_attachements, bindM, perform, inside. cbn [app].
    rewrite find_matches_text.
    destruct (mkdir world _) as [[]|]; cbn [snd]; [|by other_call].
    destruct (open_w world _) as [[]|]; cbn [snd]; [|by other_call].
    destruct (replace_in _ _ description) as [content|]; cbn [snd];
      [|by other_call].
    destruct (write world _ content) as [[]|]; cbn [snd]; [|by other_call].
    intros Hin Hd.
    apply download_if_any_log in Hin as [Hin|[Hany ->]];
      [by other_call in Hin|].
    eexists. split; [reflexivity|]. split.
    { intros Hnil. apply Hany. by apply map_eq_nil in Hnil. }
    apply Forall_forall. intros url Hin.
    apply list_elem_of_fmap in Hin as (m & -> & Hm).
    assert (Href : upload_reference m).
    { destruct description as [s|]; [|by apply elem_of_nil in Hm].
      by apply (findall_upload_shape s 0 m). }
    destruct Href as (run & -> & _).
    change (gitlab_server config +:+ "/uploads/")
      with (gitlab_server config +:+ ("/" +:+ "uploads/")).
    rewrite !prefix_app_same. apply prefix_app_self.
Qed.

Lemma item_backups_download_references_witness :
  exists file_urls,
    Download "https://forge.example" "backup" "secret"
      ["https://forge.example/org/proj/uploads/abc/shot.png";
       "https://forge.example/org/proj/uploads/q/r.txt"]
      "/backup/org/proj/issues/7"
    = Download "https://forge.example" "backup" "secret" file_urls
        "/backup/org/proj/issues/7"
    /\ file_urls <> []
    /\ all_under "https://forge.example/org/proj/uploads/" file_urls.
Proof.
  destruct (item_backups_download_references willing_world forge_access
              "/backup") as (_ & Hissue & _).
  apply (Hissue backed_issue_seven "org/proj" false "").
  - rewrite backup_of_issue_seven. cbn [snd].
    do 5 apply list_elem_of_further. apply list_elem_of_here.
  - reflexivity.
Defined.
End ItemDownloads.

Section ItemDirectories.
Import Py Objects Clone CloneSpec.
Implicit Types (env : Env) (backup_dir : string).

(** what is joined to a path lies below it *)
Lemma below_path_join (a b : string) :
  String.prefix (a +:+ "/") (path_join a b) = true.
Proof.
  unfold path_join. rewrite prefix_app_same. apply (prefix_app_self "/").
Qed.

(** X20. The files of a snippet go into its clone: the directory in which
    [backup_snippet_attachements] writes the markdown file and to which
    it sends the downloads is the path that the record of the snippet
    names, the target of its clone. *)
Theorem snippet_files_join_the_clone {K : Type} env
    (snippets : list (K * Snippet)) backup_dir results :
  clone_snippets env snippets backup_dir = Ok results ->
  Forall2
    (fun snippet r =>
       dict_get "snippet_path" r
       = Some (VStr (BackupItems.snippet_download_dir snippet backup_dir)))
    (dict_values snippets) results.
Proof.
  intros Hrun. apply clone_snippets_Ok in Hrun as ->.
  apply Forall2_fmap_r, Forall_Forall2_diag, Forall_forall.
  intros snippet _. unfold compose, snippet_worker.
  rewrite clone_snippet_path.
  do 2 f_equal. unfold BackupItems.snippet_download_dir, path_join.
  by rewrite !string_app_assoc.
Qed.

Lemma snippet_files_join_the_clone_witness :
  Forall2
    (fun snippet r =>
       dict_get "snippet_path" r
       = Some (VStr (BackupItems.snippet_download_dir snippet "/backup")))
    [BackupItemsSpec.bare_snippet]
    [snippet_worker (healthy_env plain_repo) "/backup" BackupItemsSpec.bare_snippet].
Proof.
  apply (snippet_files_join_the_clone (healthy_env plain_repo)
           [(3, BackupItemsSpec.bare_snippet)] "/backup").
  by vm_compute.
Defined.

(** X21. The issues of a project and the attachments of its wiki go into
    its clone: the directory of every issue and of every note, and the
    directory of the wiki attachments, lie below the path that the record
    of the project names, the target of its clone. *)
Theorem project_items_lie_in_the_clone {K : Type} env
    (projects : list (K * Project)) backup_dir results :
  clone_projects env projects backup_dir = Ok results ->
  Forall2
    (fun project r =>
       exists clone_path,
         dict_get "project_path" r = Some (VStr clone_path)
         /\ String.prefix (clone_path +:+ "/")
              (BackupItems.wiki_download_dir
                 (project_path_with_namespace project) backup_dir) = true
         /\ forall (obj : BackupItems.Backed) (is_note : bool),
              String.prefix (clone_path +:+ "/")
                (BackupItems.issue_download_dir obj
                   (project_path_with_namespace project) backup_dir is_note)
              = true)
    (dict_values projects) results.
Proof.
  intros Hrun. apply clone_projects_Ok in Hrun as ->.
  apply Forall2_fmap_r, Forall_Forall2_diag, Forall_forall.
  intros project _. unfold compose, project_worker.
  exists (path_join backup_dir (project_path_with_namespace project)).
  split; [apply clone_project_path|].
  unfold BackupItems.wiki_download_dir, BackupItems.issue_download_dir.
  split; [|intros obj []]; apply below_path_join.
Qed.

Lemma project_items_lie_in_the_clone_witness :
  Forall2
    (fun project r =>
       exists clone_path,
         dict_get "project_path" r = Some (VStr clone_path)
         /\ String.prefix (clone_path +:+ "/")
              (BackupItems.wiki_download_dir
                 (project_path_with_namespace project) "/backup") = true
         /\ forall (obj : BackupItems.Backed) (is_note : bool),
              String.prefix (clone_path +:+ "/")
                (BackupItems.issue_download_dir obj
                   (project_path_with_namespace project) "/backup" is_note)
              = true)
    [numbered_project 1]
    [project_worker (healthy_env plain_repo) "/backup" (numbered_project 1)].
Proof.
  apply (project_items_lie_in_the_clone (healthy_env plain_repo)
           [(1, numbered_project 1)] "/backup").
  by vm_compute.
Defined.
End ItemDirectories.
